(** * Verification of the plugin validation script (scripts/validate.py)

    A shallow embedding of the validation engine: the issue and result
    model, the manifest validator [PluginJsonValidator], the registry
    validator [MarketplaceValidator], the skill inspection delegate
    [SkillsValidator], the two reporters and [main] with the exit status
    of the process, followed by the properties established about them.

    The file system, the JSON parser, the inspector process, the console
    and the tables of the interpreter are the environment of a run, a
    value of type [World]; parsed documents are values of type [json] and
    the tests the script makes on them follow the semantics of Python. *)

From Stdlib Require Import ZArith QArith Ascii String List Bool Lia.
From stdpp Require Import base option list gmap strings pretty.

Set Warnings "-register-all".

Local Open Scope string_scope.
Local Open Scope list_scope.

(** ** Strings

    A Python [str] is modelled by a [string] holding its UTF-8 encoding.
    Equality, prefix tests, substring tests, stripping of ASCII characters
    and matching against ASCII character classes agree on both views. *)

Definition startswith (s pre : string) : bool := String.prefix pre s.

Fixpoint char_in (c : ascii) (chars : string) : bool :=
  match chars with
  | EmptyString => false
  | String c' rest => Ascii.eqb c c' || char_in c rest
  end.

(** [s.lstrip(chars)]: drops every leading character that belongs to the
    set [chars]. *)
Fixpoint lstrip (s chars : string) : string :=
  match s with
  | EmptyString => EmptyString
  | String c rest => if char_in c chars then lstrip rest chars else s
  end.

(** [sub in s] for two strings. *)
Fixpoint str_contains (s sub : string) : bool :=
  String.prefix sub s ||
  match s with
  | EmptyString => false
  | String _ rest => str_contains rest sub
  end.

(** [sep.join(parts)] *)
Fixpoint join (sep : string) (parts : list string) : string :=
  match parts with
  | [] => ""
  | [p] => p
  | p :: rest => p +:+ sep +:+ join sep rest
  end.

(** Splits at every occurrence of the character [c] (as [s.split(c)]). *)
Fixpoint split_on (c : ascii) (s : string) : list string :=
  match s with
  | EmptyString => [""]
  | String a rest =>
      if Ascii.eqb a c then "" :: split_on c rest
      else match split_on c rest with
           | [] => [String a ""]
           | w :: ws => String a w :: ws
           end
  end.

(** The last character of a string and the string without it. *)
Fixpoint str_unsnoc (s : string) : option (string * ascii) :=
  match s with
  | EmptyString => None
  | String c rest =>
      match str_unsnoc rest with
      | None => Some (EmptyString, c)
      | Some (init, l) => Some (String c init, l)
      end
  end.

(** ** Regular expressions

    The fragment of [re] the script uses: character classes,
    concatenation, alternation and repetition, matched by derivatives. *)

Inductive regex :=
| Eps
| Cls (p : ascii -> bool)
| Cat (r1 r2 : regex)
| Alt (r1 r2 : regex)
| Star (r : regex).

Definition Plus (r : regex) : regex := Cat r (Star r).
Definition Opt (r : regex) : regex := Alt r Eps.
Definition Void : regex := Cls (fun _ => false).

Fixpoint nullable (r : regex) : bool :=
  match r with
  | Eps => true
  | Cls _ => false
  | Cat r1 r2 => nullable r1 && nullable r2
  | Alt r1 r2 => nullable r1 || nullable r2
  | Star _ => true
  end.

Fixpoint deriv (c : ascii) (r : regex) : regex :=
  match r with
  | Eps => Void
  | Cls p => if p c then Eps else Void
  | Cat r1 r2 =>
      if nullable r1 then Alt (Cat (deriv c r1) r2) (deriv c r2)
      else Cat (deriv c r1) r2
  | Alt r1 r2 => Alt (deriv c r1) (deriv c r2)
  | Star r1 => Cat (deriv c r1) (Star r1)
  end.

(** [r] matches the whole of [s]. *)
Fixpoint fullmatch (r : regex) (s : string) : bool :=
  match s with
  | EmptyString => nullable r
  | String c rest => fullmatch (deriv c r) rest
  end.

(** [re.compile('^' + r + '$').match(s)] for an [r] without anchors: the
    [$] anchor matches at the end of the string and also just before a
    newline that ends the string. *)
Definition re_match_anchored (r : regex) (s : string) : bool :=
  fullmatch r s ||
  match str_unsnoc s with
  | Some (init, c) => Ascii.eqb c "010"%char && fullmatch r init
  | None => false
  end.

Definition in_range (lo hi : ascii) (c : ascii) : bool :=
  (nat_of_ascii lo <=? nat_of_ascii c)%nat && (nat_of_ascii c <=? nat_of_ascii hi)%nat.

Definition lower : ascii -> bool := in_range "a" "z".
Definition upper : ascii -> bool := in_range "A" "Z".
(** The ASCII digits, [0-9] in a character class. *)
Definition digit : ascii -> bool := in_range "0" "9".
Definition lower_digit (c : ascii) : bool := lower c || digit c.
Definition alnum_dot (c : ascii) : bool :=
  lower c || upper c || digit c || Ascii.eqb c ".".
Definition chr (a : ascii) : regex := Cls (Ascii.eqb a).

(** The regular expression that matches the string [s] and nothing else. *)
Fixpoint literal (s : string) : regex :=
  match s with
  | EmptyString => Eps
  | String c rest => Cat (chr c) (literal rest)
  end.

(** [\d] in a pattern on [str]: an ASCII digit or any other character of
    the Unicode category Nd.  The characters of that category outside
    ASCII are given by their UTF-8 encodings [others]. *)
Definition decimal_digit (others : list string) : regex :=
  fold_right (fun s r => Alt (literal s) r) (Cls digit) others.

(** [PLUGIN_NAME_PATTERN = re.compile(r'^[a-z][a-z0-9]*(-[a-z0-9]+)*$')] *)
Definition PLUGIN_NAME_REGEX : regex :=
  Cat (Cls lower)
      (Cat (Star (Cls lower_digit))
           (Star (Cat (chr "-") (Plus (Cls lower_digit))))).

Definition PLUGIN_NAME_PATTERN_match (s : string) : bool :=
  re_match_anchored PLUGIN_NAME_REGEX s.

(** [SEMVER_PATTERN =
     re.compile(r'^\d+\.\d+\.\d+(-[a-zA-Z0-9.]+)?(\+[a-zA-Z0-9.]+)?$')] *)
Definition SEMVER_REGEX (other_digits : list string) : regex :=
  let d := decimal_digit other_digits in
  Cat (Plus d)
  (Cat (chr ".")
  (Cat (Plus d)
  (Cat (chr ".")
  (Cat (Plus d)
  (Cat (Opt (Cat (chr "-") (Plus (Cls alnum_dot))))
       (Opt (Cat (chr "+") (Plus (Cls alnum_dot))))))))).

(** [SPDX_LICENSES] *)
Definition SPDX_LICENSES : list string :=
  ["MIT"; "Apache-2.0"; "BSD-2-Clause"; "BSD-3-Clause";
   "ISC"; "GPL-3.0"; "LGPL-3.0"; "MPL-2.0"].

(** [sorted(SPDX_LICENSES)] *)
Definition sorted_SPDX_LICENSES : list string :=
  ["Apache-2.0"; "BSD-2-Clause"; "BSD-3-Clause"; "GPL-3.0";
   "ISC"; "LGPL-3.0"; "MIT"; "MPL-2.0"].

Definition str_in (s : string) (l : list string) : bool :=
  existsb (String.eqb s) l.

(** ** Parsed JSON documents

    The values [json.load] returns.  A [dict] is kept as its items in
    insertion order; its keys are strings.  A finite [float] is kept as
    the rational it denotes. *)

Inductive pyfloat :=
| FNan
| FInf (negative : bool)
| FFin (q : Q).

Inductive json :=
| JNull
| JBool (b : bool)
| JInt (z : Z)
| JFloat (f : pyfloat)
| JStr (s : string)
| JList (l : list json)
| JDict (d : list (string * json)).

(** [d[k]] on the items of a dict. *)
Fixpoint dict_lookup {A} (k : string) (d : list (string * A)) : option A :=
  match d with
  | [] => None
  | (k', v) :: rest => if String.eqb k k' then Some v else dict_lookup k rest
  end.

Definition dict_has {A} (k : string) (d : list (string * A)) : bool :=
  match dict_lookup k d with Some _ => true | None => false end.

(** [type(v).__name__] *)
Definition type_name (v : json) : string :=
  match v with
  | JNull => "NoneType"
  | JBool _ => "bool"
  | JInt _ => "int"
  | JFloat _ => "float"
  | JStr _ => "str"
  | JList _ => "list"
  | JDict _ => "dict"
  end.

Definition float_eq (f g : pyfloat) : bool :=
  match f, g with
  | FFin p, FFin q => Qeq_bool p q
  | FInf a, FInf b => Bool.eqb a b
  | _, _ => false
  end.

(** The numeric value of [bool], [int] and [float] objects, which [==]
    compares across the three types. *)
Definition numeric (v : json) : option pyfloat :=
  match v with
  | JBool b => Some (FFin (if b then 1 else 0)%Q)
  | JInt z => Some (FFin (inject_Z z))
  | JFloat f => Some f
  | _ => None
  end.

Definition is_nan (v : json) : bool :=
  match v with JFloat FNan => true | _ => false end.

(** [a == b].  Inside lists and dicts CPython compares items with
    "identical or equal"; the only JSON values that are identical without
    being equal are the occurrences of the constant [NaN]. *)
Fixpoint py_eq (a b : json) {struct a} : bool :=
  match a, b with
  | JNull, JNull => true
  | JStr s, JStr t => String.eqb s t
  | JList l1, JList l2 =>
      (fix items (l1 l2 : list json) {struct l1} : bool :=
         match l1, l2 with
         | [], [] => true
         | x :: l1', y :: l2' =>
             ((is_nan x && is_nan y) || py_eq x y) && items l1' l2'
         | _, _ => false
         end) l1 l2
  | JDict d1, JDict d2 =>
      Nat.eqb (length d1) (length d2) &&
      (fix items (d : list (string * json)) {struct d} : bool :=
         match d with
         | [] => true
         | (k, v) :: d' =>
             match dict_lookup k d2 with
             | Some v' => (is_nan v && is_nan v') || py_eq v v'
             | None => false
             end && items d'
         end) d1
  | _, _ =>
      match numeric a, numeric b with
      | Some f, Some g => float_eq f g
      | _, _ => false
      end
  end.

(** Identical or equal: the test of [in] on lists and sets. *)
Definition py_is_or_eq (a b : json) : bool :=
  (is_nan a && is_nan b) || py_eq a b.

Definition isinstance_str (v : json) : bool :=
  match v with JStr _ => true | _ => false end.
Definition isinstance_dict (v : json) : bool :=
  match v with JDict _ => true | _ => false end.
Definition isinstance_list (v : json) : bool :=
  match v with JList _ => true | _ => false end.

(** Lists and dicts cannot be members of a [set]. *)
Definition hashable (v : json) : bool :=
  match v with JList _ | JDict _ => false | _ => true end.

(** ** Exceptions

    An exception of the environment (the file system, the parser, the
    inspector, the console) carries the text [str(e)] gives.  An exception
    the interpreter raises on an operation a value does not support
    carries what was wrong; its text is that of the interpreter at hand,
    see [exn_str] below. *)

Inductive type_error :=
(** [key in v] on a value that is no container *)
| NotIterable (type : string)
(** [v[key]] with a string [key] on a list or a string *)
| BadIndex (type : string)
(** [v[key]] on a value without items *)
| NotSubscriptable (type : string)
(** a list or a dict as member of a set *)
| Unhashable (type : string).

Inductive exn :=
| JSONDecodeError (msg : string) (lineno : Z) (text : string)
| UnicodeDecodeError (text : string)
| TimeoutExpired (text : string)
| FileNotFoundError (text : string)
| OSError (text : string)
| MarkupError (text : string)
| TypeError (what : type_error)
| KeyError (key : string)
| AttributeError (type attribute : string)
| OtherException (text : string).

Inductive res (A : Type) :=
| Ok (a : A)
| Raise (e : exn).
Arguments Ok {A} a.
Arguments Raise {A} e.

Definition rbind {A B} (m : res A) (k : A -> res B) : res B :=
  match m with
  | Ok a => k a
  | Raise e => Raise e
  end.

Declare Scope res_scope.
Delimit Scope res_scope with res.
Notation "x ← y ; z" := (rbind y (fun x => z))
  (at level 20, y at level 100, z at level 200, only parsing) : res_scope.

(** [key in v] for a string [key]. *)
Definition py_contains (key : string) (v : json) : res bool :=
  match v with
  | JDict d => Ok (dict_has key d)
  | JList l => Ok (existsb (py_is_or_eq (JStr key)) l)
  | JStr s => Ok (str_contains s key)
  | _ => Raise (TypeError (NotIterable (type_name v)))
  end.

(** [v[key]] for a string [key]. *)
Definition py_getitem (v : json) (key : string) : res json :=
  match v with
  | JDict d =>
      match dict_lookup key d with
      | Some x => Ok x
      | None => Raise (KeyError key)
      end
  | JList _ | JStr _ => Raise (TypeError (BadIndex (type_name v)))
  | _ => Raise (TypeError (NotSubscriptable (type_name v)))
  end.

(** [v.get(key)] *)
Definition py_get (v : json) (key : string) : res json :=
  match v with
  | JDict d =>
      match dict_lookup key d with
      | Some x => Ok x
      | None => Ok JNull
      end
  | _ => Raise (AttributeError (type_name v) "get")
  end.

(** ** Paths

    A [pathlib.Path] is modelled by its [parts]. *)

Definition Path := list string.

Definition path_parts (s : string) : list string :=
  List.filter (fun p => negb (String.eqb p "") && negb (String.eqb p ".")) (split_on "/" s).

(** [p / s] *)
Definition joinpath (p : Path) (s : string) : Path :=
  if startswith s "/" then "/" :: path_parts s else p ++ path_parts s.

(** [str(p)] *)
Definition path_str (p : Path) : string :=
  match p with
  | [] => "."
  | "/" :: rest => "/" +:+ join "/" rest
  | _ => join "/" p
  end.

(** [p.name] *)
Definition path_name (p : Path) : string :=
  match last p with
  | Some n => if String.eqb n "/" then "" else n
  | None => ""
  end.

(** [p.parent] *)
Definition path_parent (p : Path) : Path :=
  match p with
  | ["/"] => ["/"]
  | _ => removelast p
  end.

(** ** The environment of a run

    The file system (a read-only snapshot for the duration of the run),
    the external inspector, the console the report is printed on, and
    what depends on the interpreter at hand: the rendering of values and
    of its own exceptions in messages and the table of decimal digits.
    The tests [exists] and [is_dir] answer or raise, as [pathlib] has
    them: an [OSError] other than "no such entry" is not caught there. *)

Inductive encoding := Utf8 | LocaleDefault.

Record CompletedProcess := {
  returncode : Z;
  stdout : string;
  stderr : string
}.

Record World := {
  (** [Path.cwd()] *)
  cwd : Path;
  (** [p.exists()] *)
  fs_exists : Path -> res bool;
  (** [p.is_dir()] *)
  fs_is_dir : Path -> res bool;
  (** the names of the entries [p.iterdir()] yields, in its order *)
  fs_iterdir : Path -> res (list string);
  (** [with open(p, 'r', encoding=...) as f: json.load(f)] *)
  json_load : Path -> encoding -> res json;
  (** [subprocess.run(cmd, capture_output=True, text=True, timeout=30)] *)
  subprocess_run : list string -> res CompletedProcess;
  (** [str(v)] for a value that is not a [str] *)
  py_repr : json -> string;
  (** [str(e)] for a [TypeError], [KeyError] or [AttributeError] of the
      interpreter *)
  py_error_text : exn -> string;
  (** the characters of category Nd outside ASCII, in UTF-8 *)
  unicode_digits : list string;
  (** [console.print(markup)] of [rich], with the value of
      [console.no_color] *)
  rich_print : bool -> string -> res unit;
  (** [print(json.dumps(document, indent=2))] *)
  print_json : json -> res unit
}.

(** [str(e)] *)
Definition exn_str (W : World) (e : exn) : string :=
  match e with
  | JSONDecodeError _ _ t | UnicodeDecodeError t | TimeoutExpired t | FileNotFoundError t
  | OSError t | MarkupError t | OtherException t => t
  | TypeError _ | KeyError _ | AttributeError _ _ => py_error_text W e
  end.

Definition SEMVER_PATTERN_match (W : World) (s : string) : bool :=
  re_match_anchored (SEMVER_REGEX (unicode_digits W)) s.

(** The rendering of [{v}] in an f-string. *)
Definition fmt (W : World) (v : json) : string :=
  match v with
  | JStr s => s
  | _ => py_repr W v
  end.

(** ** Issues and results *)

Inductive Severity := SevError | SevWarning | SevInfo.

Inductive Status := Passed | Warning | Failed.

Definition Status_eqb (a b : Status) : bool :=
  match a, b with
  | Passed, Passed | Warning, Warning | Failed, Failed => true
  | _, _ => false
  end.

Record ValidationIssue := {
  severity : Severity;
  check : string;
  message : string;
  file : string;
  line : option Z
}.

Record ValidationResult := {
  status : Status;
  errors : list ValidationIssue;
  warnings : list ValidationIssue;
  info : list ValidationIssue
}.

(** [ValidationResult(status=s)] *)
Definition new_result (s : Status) : ValidationResult :=
  {| status := s; errors := []; warnings := []; info := [] |}.

Module Result.

Definition add_error (check message file : string) (line : option Z)
    (self : ValidationResult) : ValidationResult :=
  {| status := if negb (Status_eqb (status self) Failed) then Failed else status self;
     errors := errors self ++ [Build_ValidationIssue SevError check message file line];
     warnings := warnings self;
     info := info self |}.

Definition add_warning (check message file : string) (line : option Z)
    (self : ValidationResult) : ValidationResult :=
  {| status := if Status_eqb (status self) Passed then Warning else status self;
     errors := errors self;
     warnings := warnings self ++ [Build_ValidationIssue SevWarning check message file line];
     info := info self |}.

Definition add_info (check message file : string)
    (self : ValidationResult) : ValidationResult :=
  {| status := status self;
     errors := errors self;
     warnings := warnings self;
     info := info self ++ [Build_ValidationIssue SevInfo check message file None] |}.

End Result.

(** ** Validation code

    A validator method works on the result object it was handed, which
    it mutates in place, and may raise: a computation takes the result and
    gives the outcome together with the result as it was left. *)

Definition M (A : Type) : Type := ValidationResult -> res A * ValidationResult.

Definition ret {A} (a : A) : M A := fun r => (Ok a, r).

Definition bind {A B} (m : M A) (k : A -> M B) : M B :=
  fun r =>
    match m r with
    | (Ok a, r') => k a r'
    | (Raise e, r') => (Raise e, r')
    end.

Declare Scope py_scope.
Delimit Scope py_scope with py.
Notation "x ← y ; z" := (bind y (fun x => z))
  (at level 20, y at level 100, z at level 200, only parsing) : py_scope.
Notation "x ;; z" := (bind x (fun _ => z))
  (at level 100, z at level 200, only parsing, right associativity) : py_scope.

(** An expression that may raise. *)
Definition eval {A} (x : res A) : M A := fun r => (x, r).

(** A call that only mutates the result. *)
Definition update (f : ValidationResult -> ValidationResult) : M unit :=
  fun r => (Ok tt, f r).

Definition add_error (check message file : string) (line : option Z) : M unit :=
  update (Result.add_error check message file line).
Definition add_warning (check message file : string) (line : option Z) : M unit :=
  update (Result.add_warning check message file line).
Definition add_info (check message file : string) : M unit :=
  update (Result.add_info check message file).

Definition pass : M unit := ret tt.

(** [try: body except Exception as e: handler(e)] *)
Definition try_except {A} (body : M A) (handler : exn -> M A) : M A :=
  fun r =>
    match body r with
    | (Raise e, r') => handler e r'
    | done => done
    end.

(** [for i, x in enumerate(l, start): body(i, x)] *)
Fixpoint for_enumerate {A} (start : nat) (l : list A) (body : nat -> A -> M unit) : M unit :=
  match l with
  | [] => pass
  | x :: rest => (body start x ;; for_enumerate (S start) rest body)%py
  end.

(** [for x in l: body(x)] *)
Definition for_each {A} (l : list A) (body : A -> M unit) : M unit :=
  for_enumerate 0 l (fun _ => body).

(** The value a method returns when it ends by [return result], on a
    result created by [ValidationResult(status='passed')]. *)
Definition returned (m : M unit) : res ValidationResult :=
  match m (new_result Passed) with
  | (Ok _, r) => Ok r
  | (Raise e, _) => Raise e
  end.

Definition dq : string := String "034"%char "".
Definition nl : string := String "010"%char "".

Local Open Scope py_scope.

(** ** The manifest validator *)

Module PluginJsonValidator.
Section methods.
Context (W : World) (plugin_path : Path).

Definition plugin_json_path : Path :=
  joinpath (joinpath plugin_path ".claude-plugin") "plugin.json".

Definition _validate_name (name : json) : M unit :=
  match name with
  | JStr s =>
      if negb (PLUGIN_NAME_PATTERN_match s) then
        add_error "name_format"
          ("Plugin name " +:+ dq +:+ s +:+ dq +:+ " must be kebab-case, lowercase, no spaces")
          (path_str plugin_json_path) None
      else pass
  | _ =>
      add_error "name_type"
        ("Plugin name must be string, got " +:+ type_name name)
        (path_str plugin_json_path) None
  end.

Definition _validate_version (version : json) : M unit :=
  match version with
  | JStr s =>
      if negb (SEMVER_PATTERN_match W s) then
        add_error "version_format"
          ("Version " +:+ dq +:+ s +:+ dq +:+
           " must follow semantic versioning (MAJOR.MINOR.PATCH)")
          (path_str plugin_json_path) None
      else pass
  | _ =>
      add_error "version_type"
        ("Version must be string, got " +:+ type_name version)
        (path_str plugin_json_path) None
  end.

Definition _validate_author (author : json) : M unit :=
  match author with
  | JStr s =>
      add_error "author_format"
        ("Author must be object with " +:+ dq +:+ "name" +:+ dq +:+
         " field, not string. Found: " +:+ dq +:+ s +:+ dq)
        (path_str plugin_json_path) None ;;
      add_info "author_fix"
        ("Change to: {" +:+ dq +:+ "name" +:+ dq +:+ ": " +:+ dq +:+ s +:+ dq +:+ "}")
        (path_str plugin_json_path)
  | JDict d =>
      if negb (dict_has "name" d) then
        add_error "author_name"
          ("Author object must have " +:+ dq +:+ "name" +:+ dq +:+ " field")
          (path_str plugin_json_path) None
      else pass
  | _ =>
      add_error "author_type"
        ("Author must be object, got " +:+ type_name author)
        (path_str plugin_json_path) None
  end.

Definition _validate_license (license : json) : M unit :=
  match license with
  | JStr s =>
      if negb (str_in s SPDX_LICENSES) then
        add_warning "license_spdx"
          ("License " +:+ dq +:+ s +:+ dq +:+ " not in common SPDX list. Consider: " +:+
           join ", " sorted_SPDX_LICENSES)
          (path_str plugin_json_path) None
      else pass
  | _ =>
      add_error "license_type"
        ("License must be string, got " +:+ type_name license)
        (path_str plugin_json_path) None
  end.

Definition _validate_repository (repository : json) : M unit :=
  match repository with
  | JStr s =>
      if negb (startswith s "http://" || startswith s "https://") then
        add_warning "repository_url" "Repository should be a valid URL"
          (path_str plugin_json_path) None
      else pass
  | _ =>
      add_error "repository_type"
        ("Repository must be string, got " +:+ type_name repository)
        (path_str plugin_json_path) None
  end.

Definition _validate_keywords (keywords : json) : M unit :=
  match keywords with
  | JList l =>
      for_enumerate 0 l (fun i keyword =>
        if negb (isinstance_str keyword) then
          add_error "keyword_type"
            ("Keyword at index " +:+ pretty i +:+ " must be string, got " +:+
             type_name keyword)
            (path_str plugin_json_path) None
        else pass)
  | _ =>
      add_error "keywords_type"
        ("Keywords must be array, got " +:+ type_name keywords)
        (path_str plugin_json_path) None
  end.

(** The body of the loop of [_validate_paths], for one element. *)
Definition check_path (field : string) (path_value : json) : M unit :=
  match path_value with
  | JStr s =>
      (if startswith s "/" then
         add_error (field +:+ "_absolute")
           ("Path " +:+ dq +:+ s +:+ dq +:+ " must be relative, not absolute")
           (path_str plugin_json_path) None
       else pass) ;;
      (if negb (startswith s "./") then
         add_warning (field +:+ "_prefix")
           ("Path " +:+ dq +:+ s +:+ dq +:+ " should start with ./ prefix")
           (path_str plugin_json_path) None
       else pass) ;;
      let full_path := joinpath plugin_path (lstrip s "./") in
      found ← eval (fs_exists W full_path);
      if negb found then
        add_error (field +:+ "_exists")
          ("Path " +:+ dq +:+ s +:+ dq +:+ " does not exist")
          (path_str plugin_json_path) None
      else pass
  | _ => pass
  end.

Definition _validate_paths (field : string) (paths : json) : M unit :=
  match paths with
  | JStr _ => for_each [paths] (check_path field)
  | JList l => for_each l (check_path field)
  | _ =>
      add_error (field +:+ "_type")
        (field +:+ " must be string or array, got " +:+ type_name paths)
        (path_str plugin_json_path) None
  end.

(** [if key in data: method(data[key], result)] *)
Definition if_present (data : json) (key : string) (method : json -> M unit) : M unit :=
  present ← eval (py_contains key data);
  if (present : bool) then
    value ← eval (py_getitem data key);
    method value
  else pass.

(** The checks of [validate] on the loaded document. *)
Definition validate_fields (data : json) : M unit :=
  has_name ← eval (py_contains "name" data);
  (if negb has_name then
     add_error "required_field" "Missing required field: name"
       (path_str plugin_json_path) None
   else
     name ← eval (py_getitem data "name");
     _validate_name name) ;;
  if_present data "version" _validate_version ;;
  if_present data "author" _validate_author ;;
  if_present data "license" _validate_license ;;
  if_present data "repository" _validate_repository ;;
  if_present data "keywords" _validate_keywords ;;
  for_each ["commands"; "agents"; "skills"] (fun field =>
    if_present data field (_validate_paths field)).

Definition validate_body : M unit :=
  found ← eval (fs_exists W plugin_json_path);
  if negb found then
    add_error "file_exists" "plugin.json not found" (path_str plugin_json_path) None
  else
    match json_load W plugin_json_path Utf8 with
    | Raise (JSONDecodeError msg lineno _) =>
        add_error "json_syntax" ("Invalid JSON: " +:+ msg)
          (path_str plugin_json_path) (Some lineno)
    | Raise e =>
        add_error "file_read" ("Failed to read file: " +:+ exn_str W e)
          (path_str plugin_json_path) None
    | Ok data => validate_fields data
    end.

Definition validate : res ValidationResult := returned validate_body.

End methods.
End PluginJsonValidator.

(** ** The registry validator *)

(** A Python [set] of hashable JSON values, kept as the list of its
    members; membership is "identical or equal". *)
Definition set_contains (s : list json) (v : json) : res bool :=
  if hashable v then Ok (existsb (py_is_or_eq v) s)
  else Raise (TypeError (Unhashable (type_name v))).

Definition set_add (s : list json) (v : json) : res (list json) :=
  if hashable v then
    Ok (if existsb (py_is_or_eq v) s then s else s ++ [v])
  else Raise (TypeError (Unhashable (type_name v))).

Module MarketplaceValidator.
Section methods.
Context (W : World) (root : Path).

Definition marketplace_json : Path :=
  joinpath (joinpath root ".claude-plugin") "marketplace.json".

(** The body of the [try] statement of [_validate_plugin_entry]. *)
Definition check_consistency (entry name : json) (plugin_json_path : Path) : M unit :=
  plugin_data ← eval (json_load W plugin_json_path LocaleDefault);
  manifest_name ← eval (py_get plugin_data "name");
  (if negb (py_eq manifest_name name) then
     add_error "name_mismatch"
       ("Plugin name mismatch: marketplace says " +:+ dq +:+ fmt W name +:+ dq +:+
        ", plugin.json says " +:+ dq +:+ fmt W manifest_name +:+ dq)
       (path_str marketplace_json) None
   else pass) ;;
  entry_has_version ← eval (py_contains "version" entry);
  both_have_version ←
    (if (entry_has_version : bool) then eval (py_contains "version" plugin_data)
     else ret false);
  (if (both_have_version : bool) then
     entry_version ← eval (py_getitem entry "version");
     manifest_version ← eval (py_getitem plugin_data "version");
     if negb (py_eq entry_version manifest_version) then
       add_error "version_mismatch"
         ("Plugin " +:+ dq +:+ fmt W name +:+ dq +:+ " version mismatch: marketplace=" +:+
          fmt W entry_version +:+ ", plugin.json=" +:+ fmt W manifest_version)
         (path_str marketplace_json) None
     else pass
   else pass) ;;
  entry_has_author ← eval (py_contains "author" entry);
  if (entry_has_author : bool) then
    author ← eval (py_getitem entry "author");
    if isinstance_str author then
      add_error "author_format_marketplace"
        ("Plugin " +:+ dq +:+ fmt W name +:+ dq +:+
         " author in marketplace.json must be object, not string")
        (path_str marketplace_json) None
    else pass
  else pass.

(** The part of [_validate_plugin_entry] that follows
    [plugin_names.add(name)]. *)
Definition check_source (entry name : json) : M unit :=
  has_source ← eval (py_contains "source" entry);
  if negb has_source then
    add_error "plugin_source_missing"
      ("Plugin " +:+ dq +:+ fmt W name +:+ dq +:+ " missing " +:+ dq +:+ "source" +:+ dq +:+
       " field")
      (path_str marketplace_json) None
  else
    source ← eval (py_getitem entry "source");
    match source with
    | JStr src =>
        let source_path := joinpath root (lstrip src "./") in
        found ← eval (fs_exists W source_path);
        if negb found then
          add_error "source_path_missing"
            ("Plugin " +:+ dq +:+ fmt W name +:+ dq +:+ " source path does not exist: " +:+ src)
            (path_str marketplace_json) None
        else
          let plugin_json_path :=
            joinpath (joinpath source_path ".claude-plugin") "plugin.json" in
          found ← eval (fs_exists W plugin_json_path);
          if negb found then
            add_error "plugin_json_missing"
              ("Plugin " +:+ dq +:+ fmt W name +:+ dq +:+
               " missing .claude-plugin/plugin.json at " +:+ src)
              (path_str marketplace_json) None
          else
            try_except (check_consistency entry name plugin_json_path)
              (fun e =>
                 add_warning "plugin_json_read"
                   ("Could not read plugin.json for " +:+ dq +:+ fmt W name +:+ dq +:+ ": " +:+
                    exn_str W e)
                   (path_str marketplace_json) None)
    | _ =>
        add_error "source_type"
          ("Plugin " +:+ dq +:+ fmt W name +:+ dq +:+ " source must be string")
          (path_str marketplace_json) None
    end.

(** Returns the set [plugin_names] as the call leaves it. *)
Definition _validate_plugin_entry (entry : json) (index : nat) (plugin_names : list json)
    : M (list json) :=
  has_name ← eval (py_contains "name" entry);
  if negb has_name then
    add_error "plugin_name_missing"
      ("Plugin at index " +:+ pretty index +:+ " missing " +:+ dq +:+ "name" +:+ dq +:+ " field")
      (path_str marketplace_json) None ;;
    ret plugin_names
  else
    name ← eval (py_getitem entry "name");
    seen ← eval (set_contains plugin_names name);
    (if (seen : bool) then
       add_error "duplicate_plugin"
         ("Duplicate plugin name: " +:+ dq +:+ fmt W name +:+ dq)
         (path_str marketplace_json) None
     else pass) ;;
    plugin_names ← eval (set_add plugin_names name);
    check_source entry name ;;
    ret plugin_names.

(** [for i, plugin_entry in enumerate(entries, start=index)] *)
Fixpoint validate_entries (index : nat) (entries : list json) (plugin_names : list json)
    : M (list json) :=
  match entries with
  | [] => ret plugin_names
  | plugin_entry :: rest =>
      plugin_names ← _validate_plugin_entry plugin_entry index plugin_names;
      validate_entries (S index) rest plugin_names
  end.

(** [validate], the loop over the required fields. *)
Definition check_required_fields (data : json) : M unit :=
  for_each ["name"; "owner"; "plugins"] (fun field =>
    present ← eval (py_contains field data);
    if negb present then
      add_error "required_field" ("Missing required field: " +:+ field)
        (path_str marketplace_json) None
    else pass).

(** [validate], the two tests on [owner]. *)
Definition check_owner (data : json) : M unit :=
  has_owner ← eval (py_contains "owner" data);
  owner_not_dict ←
    (if (has_owner : bool) then
       owner ← eval (py_getitem data "owner");
       ret (negb (isinstance_dict owner))
     else ret false);
  if (owner_not_dict : bool) then
    add_error "owner_type" "Owner must be object" (path_str marketplace_json) None
  else
    has_owner ← eval (py_contains "owner" data);
    owner_without_name ←
      (if (has_owner : bool) then
         owner ← eval (py_getitem data "owner");
         named ← eval (py_contains "name" owner);
         ret (negb named)
       else ret false);
    if (owner_without_name : bool) then
      add_error "owner_name"
        ("Owner must have " +:+ dq +:+ "name" +:+ dq +:+ " field")
        (path_str marketplace_json) None
    else pass.

(** [validate], from the comment "Validate plugins array" on. *)
Definition check_plugins (data : json) : M unit :=
  has_plugins ← eval (py_contains "plugins" data);
  if negb has_plugins then pass
  else
    plugins ← eval (py_getitem data "plugins");
    match plugins with
    | JList entries =>
        _ ← validate_entries 0 entries [];
        pass
    | _ =>
        add_error "plugins_type"
          ("Plugins must be array, got " +:+ type_name plugins)
          (path_str marketplace_json) None
    end.

(** The checks of [validate] on the loaded document. *)
Definition validate_document (data : json) : M unit :=
  check_required_fields data ;;
  check_owner data ;;
  check_plugins data.

Definition validate_body : M unit :=
  found ← eval (fs_exists W marketplace_json);
  if negb found then
    add_error "file_exists" "marketplace.json not found" (path_str marketplace_json) None
  else
    match json_load W marketplace_json Utf8 with
    | Raise (JSONDecodeError msg lineno _) =>
        add_error "json_syntax" ("Invalid JSON: " +:+ msg)
          (path_str marketplace_json) (Some lineno)
    | Raise e => eval (Raise e)
    | Ok data => validate_document data
    end.

Definition validate : res ValidationResult := returned validate_body.

End methods.
End MarketplaceValidator.

(** ** The skill inspection delegate *)

Module SkillsValidator.
Section methods.
Context (W : World) (plugin_path : Path).

(** [skill_dir.is_dir() and (skill_dir / 'SKILL.md').exists()] *)
Definition is_skill (skill_dir : Path) : res bool :=
  (is_dir ← fs_is_dir W skill_dir;
   if (is_dir : bool) then fs_exists W (joinpath skill_dir "SKILL.md") else Ok false)%res.

(** The loop of [discover_skills] over the entries of the directory. *)
Fixpoint keep_skills (entries skills : list Path) : res (list Path) :=
  match entries with
  | [] => Ok skills
  | skill_dir :: rest =>
      (marked ← is_skill skill_dir;
       keep_skills rest (if (marked : bool) then skills ++ [skill_dir] else skills))%res
  end.

Definition discover_skills : res (list Path) :=
  (let skills_dir := joinpath plugin_path "skills" in
   found ← fs_exists W skills_dir;
   if negb found then Ok []
   else
     names ← fs_iterdir W skills_dir;
     keep_skills (map (fun n => skills_dir ++ [n]) names) [])%res.

Definition cmd (skill_path : Path) : list string :=
  ["uvx";
   "--from"; "git+https://github.com/agentskills/agentskills#subdirectory=skills-ref";
   "skills-ref"; "validate";
   path_str skill_path].

Definition validate_skill_body (skill_path : Path) : M unit :=
  let skill_md := joinpath skill_path "SKILL.md" in
  found ← eval (fs_exists W skill_md);
  if negb found then
    add_error "skill_md_missing" "SKILL.md file not found" (path_str skill_path) None
  else
    try_except
      (proc ← eval (subprocess_run W (cmd skill_path));
       if negb (returncode proc =? 0)%Z then
         add_error "skills_ref_validation"
           ("skills-ref validation failed:" +:+ nl +:+ stdout proc +:+ nl +:+ stderr proc)
           (path_str skill_path) None
       else pass)
      (fun e =>
         match e with
         | TimeoutExpired _ =>
             add_error "skills_ref_timeout" "skills-ref validation timed out (30s)"
               (path_str skill_path) None
         | FileNotFoundError _ =>
             add_error "skills_ref_missing"
               "uvx not found. Install with: curl -LsSf https://astral.sh/uv/install.sh | sh"
               (path_str skill_path) None
         | _ =>
             add_error "skills_ref_error" ("Failed to run skills-ref: " +:+ exn_str W e)
               (path_str skill_path) None
         end).

Definition validate_skill (skill_path : Path) : res ValidationResult :=
  returned (validate_skill_body skill_path).

End methods.
End SkillsValidator.

(** ** The JSON report *)

Definition status_str (s : Status) : string :=
  match s with
  | Passed => "passed"
  | Warning => "warning"
  | Failed => "failed"
  end.

Definition issue_to_dict (issue : ValidationIssue) : json :=
  JDict [("check", JStr (check issue));
         ("message", JStr (message issue));
         ("file", JStr (file issue));
         ("line", match line issue with Some n => JInt n | None => JNull end)].

Definition _result_to_dict (result : ValidationResult) : json :=
  JDict [("status", JStr (status_str (status result)));
         ("errors", JList (map issue_to_dict (errors result)));
         ("warnings", JList (map issue_to_dict (warnings result)))].

(** [sum(1 for r in results.values() if p(r.status))] *)
Definition count_status (p : Status -> bool) (results : list (string * ValidationResult)) : nat :=
  length (List.filter (fun kv => p (status (snd kv))) results).

Definition JNat (n : nat) : json := JInt (Z.of_nat n).

(** The document [print_json_results] hands to [json.dumps].  The two
    dicts of results are kept as their items in insertion order. *)
Definition json_report
    (root_result marketplace_result : option ValidationResult)
    (plugin_results skill_results : list (string * ValidationResult)) : json :=
  JDict
    [("root_plugin",
        match root_result with Some r => _result_to_dict r | None => JNull end);
     ("marketplace",
        match marketplace_result with Some r => _result_to_dict r | None => JNull end);
     ("plugins", JDict (map (fun kv => (fst kv, _result_to_dict (snd kv))) plugin_results));
     ("skills", JDict (map (fun kv => (fst kv, _result_to_dict (snd kv))) skill_results));
     ("summary",
        JDict
          [("total_plugins", JNat (length plugin_results));
           ("plugins_passed", JNat (count_status (Status_eqb Passed) plugin_results));
           ("plugins_warnings", JNat (count_status (Status_eqb Warning) plugin_results));
           ("plugins_failed", JNat (count_status (Status_eqb Failed) plugin_results));
           ("total_skills", JNat (length skill_results));
           ("skills_passed", JNat (count_status (Status_eqb Passed) skill_results));
           ("skills_failed",
              JNat (count_status
                      (fun s => existsb (Status_eqb s) [Warning; Failed]) skill_results))])].

(** ** The text report

    Printing code makes calls of [console.print] one after the other and
    ends at the first that raises: a computation takes the texts handed
    to [console.print] so far and gives its outcome together with the
    texts handed over, that of the raising call included.  A text is
    markup for [rich], which renders it or rejects it; a string holds the
    UTF-8 bytes of the text, the literals are those of the source. *)

Definition Out (A : Type) : Type := list string -> res A * list string.

Definition out_ret {A} (a : A) : Out A := fun calls => (Ok a, calls).

Definition out_bind {A B} (m : Out A) (k : A -> Out B) : Out B :=
  fun calls =>
    match m calls with
    | (Ok a, calls') => k a calls'
    | (Raise e, calls') => (Raise e, calls')
    end.

Declare Scope out_scope.
Delimit Scope out_scope with out.
Notation "x ;; z" := (out_bind x (fun _ => z))
  (at level 100, z at level 200, only parsing, right associativity) : out_scope.

(** [for x in l: body(x)] *)
Fixpoint out_for_each {A} (l : list A) (body : A -> Out unit) : Out unit :=
  match l with
  | [] => out_ret tt
  | x :: rest => (body x ;; out_for_each rest body)%out
  end.

(** [s * n] *)
Fixpoint str_mul (s : string) (n : nat) : string :=
  match n with
  | 0 => ""
  | S n => s +:+ str_mul s n
  end.

(** [f" ({issue.file}" + (f":{issue.line}" if issue.line else "") + ")"] *)
Definition location (issue : ValidationIssue) : string :=
  " (" +:+ file issue +:+
  match line issue with
  | Some n => if (n =? 0)%Z then "" else ":" +:+ pretty n
  | None => ""
  end +:+ ")".

Definition status_icon (result : ValidationResult) : string :=
  match status result with
  | Passed => "âœ…"
  | Warning => "âš ï¸"
  | Failed => "âŒ"
  end.

Section reports.
Context (W : World) (no_color : bool).

(** [console.print(markup)] *)
Definition console_print (markup : string) : Out unit :=
  fun calls => (rich_print W no_color markup, calls ++ [markup]).

Definition _print_result (title : string) (result : ValidationResult) : Out unit :=
  (match status result with
   | Passed => console_print (nl +:+ "[green]âœ… " +:+ title +:+ "[/green]")
   | Warning => console_print (nl +:+ "[yellow]âš ï¸  " +:+ title +:+ "[/yellow]")
   | Failed => console_print (nl +:+ "[red]âŒ " +:+ title +:+ "[/red]")
   end ;;
   out_for_each (errors result) (fun error =>
     console_print
       ("   [red]âŒ Error: " +:+ message error +:+ "[/red]" +:+ location error)) ;;
   out_for_each (warnings result) (fun warning =>
     console_print
       ("   [yellow]âš ï¸  Warning: " +:+ message warning +:+ "[/yellow]" +:+
        location warning)) ;;
   out_for_each (info result) (fun info =>
     console_print ("   [dim]â„¹ï¸  " +:+ message info +:+ "[/dim]")))%out.

Definition print_text_results
    (root_result marketplace_result : option ValidationResult)
    (plugin_results skill_results : list (string * ValidationResult)) : Out unit :=
  (console_print
     (nl +:+ "[bold blue]ðŸ” Validating Claude Plugins Marketplace...[/bold blue]" +:+ nl) ;;
   match root_result with
   | Some r => _print_result "Root Plugin (.claude-plugin/plugin.json)" r
   | None => out_ret tt
   end ;;
   match marketplace_result with
   | Some r => _print_result "Marketplace Registry (.claude-plugin/marketplace.json)" r
   | None => out_ret tt
   end ;;
   out_for_each plugin_results (fun kv =>
     _print_result ("Plugin: " +:+ fst kv) (snd kv)) ;;
   match skill_results with
   | [] => out_ret tt
   | _ :: _ =>
       console_print (nl +:+ "[bold cyan]ðŸŽ¯ Skills Validation[/bold cyan]") ;;
       out_for_each skill_results (fun kv =>
         console_print ("   " +:+ status_icon (snd kv) +:+ " " +:+ fst kv))
   end ;;
   console_print (nl +:+ str_mul "â”" 60) ;;
   console_print "[bold]Summary:[/bold]" ;;
   let passed := count_status (Status_eqb Passed) plugin_results in
   let warnings := count_status (Status_eqb Warning) plugin_results in
   let failed := count_status (Status_eqb Failed) plugin_results in
   console_print ("  âœ… " +:+ pretty passed +:+ " plugins passed") ;;
   (if (warnings =? 0)%nat then out_ret tt
    else console_print ("  âš ï¸  " +:+ pretty warnings +:+ " plugins with warnings")) ;;
   (if (failed =? 0)%nat then out_ret tt
    else console_print ("  âŒ " +:+ pretty failed +:+ " plugins failed")) ;;
   console_print ("  ðŸŽ¯ " +:+ pretty (length skill_results) +:+ " skills validated"))%out.


End reports.

(** ** The aggregator *)

(** [d[k] = v] on the items of a dict: a present key keeps its place. *)
Fixpoint dict_set {A} (k : string) (v : A) (d : list (string * A)) : list (string * A) :=
  match d with
  | [] => [(k, v)]
  | (k', v') :: rest =>
      if String.eqb k k' then (k, v) :: rest else (k', v') :: dict_set k v rest
  end.


Record Collected := {
  root_result : option ValidationResult;
  marketplace_result : option ValidationResult;
  plugin_results : list (string * ValidationResult);
  skill_results : list (string * ValidationResult)
}.

Section main.
Context (W : World).

(** The inner loop of [main] over the skills of one plugin. *)
Fixpoint validate_skills (plugin_name : string) (skills : list Path)
    (skill_results : list (string * ValidationResult))
    : res (list (string * ValidationResult)) :=
  match skills with
  | [] => Ok skill_results
  | skill_path :: rest =>
      (let skill_name := plugin_name +:+ "/" +:+ path_name skill_path in
       r ← SkillsValidator.validate_skill W skill_path;
       validate_skills plugin_name rest (dict_set skill_name r skill_results))%res
  end.

(** The loop of [main] over [plugins_to_validate]. *)
Fixpoint validate_plugins (skip_skills : bool) (plugins_to_validate : list Path)
    (plugin_results skill_results : list (string * ValidationResult))
    : res (list (string * ValidationResult) * list (string * ValidationResult)) :=
  match plugins_to_validate with
  | [] => Ok (plugin_results, skill_results)
  | plugin_path :: rest =>
      (let plugin_name := path_name plugin_path in
       r ← PluginJsonValidator.validate W plugin_path;
       let plugin_results := dict_set plugin_name r plugin_results in
       skill_results ←
         (if negb skip_skills then
            skills ← SkillsValidator.discover_skills W plugin_path;
            validate_skills plugin_name skills skill_results
          else Ok skill_results);
       validate_plugins skip_skills rest plugin_results skill_results)%res
  end.

(** The value of [marketplace_root]. *)
Definition marketplace_root (plugin : option Path) : Path :=
  match plugin with
  | Some p =>
      if String.eqb (path_name (path_parent p)) "plugins"
      then path_parent (path_parent p) else cwd W
  | None => cwd W
  end.

(** [[p for p in entries if p.is_dir()]] *)
Fixpoint keep_dirs (entries : list Path) : res (list Path) :=
  match entries with
  | [] => Ok []
  | p :: rest =>
      (is_dir ← fs_is_dir W p;
       kept ← keep_dirs rest;
       Ok (if (is_dir : bool) then p :: kept else kept))%res
  end.

(** The value of [plugins_to_validate]. *)
Definition plugins_to_validate (plugin : option Path) : res (list Path) :=
  match plugin with
  | Some p => Ok [p]
  | None =>
      (let plugins_dir := joinpath (marketplace_root plugin) "plugins" in
       found ← fs_exists W plugins_dir;
       if (found : bool) then
         names ← fs_iterdir W plugins_dir;
         keep_dirs (map (fun n => plugins_dir ++ [n]) names)
       else Ok [])%res
  end.

(** [main] up to the point where the results are printed. *)
Definition collect (plugin : option Path) (skip_skills : bool) : res Collected :=
  (let root_plugin_path :=
     joinpath (joinpath (marketplace_root plugin) ".claude-plugin") "plugin.json" in
   root_found ← fs_exists W root_plugin_path;
   root_result ←
     (if (root_found : bool) then
        r ← PluginJsonValidator.validate W (marketplace_root plugin); Ok (Some r)
      else Ok None);
   let marketplace_json_path :=
     joinpath (joinpath (marketplace_root plugin) ".claude-plugin") "marketplace.json" in
   marketplace_found ← fs_exists W marketplace_json_path;
   marketplace_result ←
     (if (marketplace_found : bool) then
        r ← MarketplaceValidator.validate W (marketplace_root plugin); Ok (Some r)
      else Ok None);
   plugins ← plugins_to_validate plugin;
   results ← validate_plugins skip_skills plugins [] [];
   Ok {| root_result := root_result;
         marketplace_result := marketplace_result;
         plugin_results := fst results;
         skill_results := snd results |})%res.




End main.


(** ** Vocabulary of the properties *)

(** The three ways a result is ever modified. *)
Inductive op :=
| OpError (check message file : string) (line : option Z)
| OpWarning (check message file : string) (line : option Z)
| OpInfo (check message file : string).

Definition apply_op (r : ValidationResult) (o : op) : ValidationResult :=
  match o with
  | OpError c m f l => Result.add_error c m f l r
  | OpWarning c m f l => Result.add_warning c m f l r
  | OpInfo c m f => Result.add_info c m f r
  end.

Definition run_ops (ops : list op) (r : ValidationResult) : ValidationResult :=
  fold_left apply_op ops r.

(** A result that began as [ValidationResult(status='passed')] and was
    only modified through its three methods. *)
Definition built (r : ValidationResult) : Prop :=
  exists ops, r = run_ops ops (new_result Passed).

(** An addition keeps a built result built. *)
Definition built_to (r r' : ValidationResult) : Prop := built r -> built r'.

(** A result returned by one of the three validators. *)
Inductive produced : ValidationResult -> Prop :=
| produced_manifest W plugin_path r :
    PluginJsonValidator.validate W plugin_path = Ok r -> produced r
| produced_registry W root r :
    MarketplaceValidator.validate W root = Ok r -> produced r
| produced_skill W skill_path r :
    SkillsValidator.validate_skill W skill_path = Ok r -> produced r.

(** Every step of a computation relates the result before to the result
    after by [R]. *)
Definition respects {A} (R : ValidationResult -> ValidationResult -> Prop) (m : M A) : Prop :=
  forall r, R r (snd (m r)).

(** All the issues of a result. *)
Definition issues (r : ValidationResult) : list ValidationIssue :=
  errors r ++ warnings r ++ info r.

(** An exception other than [json.JSONDecodeError]. *)
Definition not_decode_error (e : exn) : bool :=
  match e with
  | JSONDecodeError _ _ _ => false
  | _ => true
  end.

(** The document at [path] exists and is not valid JSON: loading it
    fails in the decoding of its bytes, which are not UTF-8 text, or in
    the parser. *)
Definition not_valid_json (W : World) (path : Path) : Prop :=
  fs_exists W path = Ok true /\
  ((exists text, json_load W path Utf8 = Raise (UnicodeDecodeError text)) \/
   (exists msg lineno text, json_load W path Utf8 = Raise (JSONDecodeError msg lineno text))).

(** The second half of the claim on malformed manifests as the
    specification has it: a manifest that exists and is not valid JSON
    gets a result with exactly one issue, the error [json_syntax] with the
    line number of the parser. *)
Definition malformed_as_specified (W : World) (plugin_path : Path) : Prop :=
  not_valid_json W (PluginJsonValidator.plugin_json_path plugin_path) ->
  exists r i,
    PluginJsonValidator.validate W plugin_path = Ok r /\
    issues r = [i] /\ check i = "json_syntax" /\ severity i = SevError /\ line i <> None.

(** The check codes of a list of issues. *)
Definition codes (l : list ValidationIssue) : list string := map check l.

(** The number of issues of a list that carry a given check code. *)
Definition count_code (c : string) (l : list ValidationIssue) : nat :=
  length (List.filter (fun i => String.eqb (check i) c) l).




(** The test answered yes. *)
Definition is_yes (answer : res bool) : bool :=
  match answer with
  | Ok true => true
  | _ => false
  end.




(** The names seen once entries named [ns] have been handled in order,
    starting from the names [seen]. *)
Fixpoint seen_after (seen ns : list string) : list string :=
  match ns with
  | [] => seen
  | n :: rest => seen_after (if str_in n seen then seen else seen ++ [n]) rest
  end.


(** The two results hold as many errors with the code [c]. *)
Definition same_count (c : string) (r r' : ValidationResult) : Prop :=
  count_code c (errors r') = count_code c (errors r).

(** [doc[k1][k2]] *)
Definition py_getitem2 (doc : json) (k1 k2 : string) : res json :=
  match py_getitem doc k1 with
  | Ok inner => py_getitem inner k2
  | Raise e => Raise e
  end.

(** The issue appears in one of the lists of the dict [d] of a subject. *)
Definition issue_exposed (d : json) (i : ValidationIssue) : Prop :=
  exists key l, py_getitem d key = Ok (JList l) /\ In (issue_to_dict i) l.

(** The report as the specification describes it: every subject with
    its status and its full list of issues, errors, warnings and info, and
    a summary that counts, for plugins and for skills, the subjects that
    passed, those with warnings and those that failed. *)
Definition exposes_fully (d : json) (r : ValidationResult) : Prop :=
  py_getitem d "status" = Ok (JStr (status_str (status r))) /\
  forall i, In i (errors r ++ warnings r ++ info r) -> issue_exposed d i.

Definition report_as_specified
    (root_result marketplace_result : option ValidationResult)
    (plugin_results skill_results : list (string * ValidationResult)) : Prop :=
  let doc := json_report root_result marketplace_result plugin_results skill_results in
  (forall r, root_result = Some r ->
     exists d, py_getitem doc "root_plugin" = Ok d /\ exposes_fully d r) /\
  (forall r, marketplace_result = Some r ->
     exists d, py_getitem doc "marketplace" = Ok d /\ exposes_fully d r) /\
  (forall name r, dict_lookup name plugin_results = Some r ->
     exists d, py_getitem2 doc "plugins" name = Ok d /\ exposes_fully d r) /\
  (forall name r, dict_lookup name skill_results = Some r ->
     exists d, py_getitem2 doc "skills" name = Ok d /\ exposes_fully d r) /\
  py_getitem2 doc "summary" "plugins_passed" =
    Ok (JNat (count_status (Status_eqb Passed) plugin_results)) /\
  py_getitem2 doc "summary" "plugins_warnings" =
    Ok (JNat (count_status (Status_eqb Warning) plugin_results)) /\
  py_getitem2 doc "summary" "plugins_failed" =
    Ok (JNat (count_status (Status_eqb Failed) plugin_results)) /\
  py_getitem2 doc "summary" "skills_passed" =
    Ok (JNat (count_status (Status_eqb Passed) skill_results)) /\
  py_getitem2 doc "summary" "skills_warnings" =
    Ok (JNat (count_status (Status_eqb Warning) skill_results)) /\
  py_getitem2 doc "summary" "skills_failed" =
    Ok (JNat (count_status (Status_eqb Failed) skill_results)).

(** What the dict of a subject does hold: the status, the errors and the
    warnings, each issue with its code, message, file and line. *)
Definition exposes_errors_and_warnings (d : json) (r : ValidationResult) : Prop :=
  py_getitem d "status" = Ok (JStr (status_str (status r))) /\
  py_getitem d "errors" = Ok (JList (map issue_to_dict (errors r))) /\
  py_getitem d "warnings" = Ok (JList (map issue_to_dict (warnings r))).

(** The name format in the words of the specification: lowercase letters
    and digits, in segments separated by single hyphens, starting with a
    letter. *)
Fixpoint all_chars (p : ascii -> bool) (s : string) : bool :=
  match s with
  | EmptyString => true
  | String c rest => p c && all_chars p rest
  end.

Definition kebab_case (s : string) : bool :=
  match s with
  | String c _ => lower c
  | EmptyString => false
  end
  && forallb (fun segment => negb (String.eqb segment "") && all_chars lower_digit segment)
       (split_on "-" s).

(** The same format read character by character: [started] tells
    whether the current segment already holds a character. *)
Fixpoint kebab_tail (started : bool) (s : string) : bool :=
  match s with
  | EmptyString => started
  | String c rest =>
      if lower_digit c then kebab_tail true rest
      else if Ascii.eqb c "-" then started && kebab_tail false rest
      else false
  end.

(** A path value in the words of the specification: without its leading
    [./], when it has one. *)
Definition without_dot_slash (s : string) : string :=
  match s with
  | String "." (String "/" rest) => rest
  | _ => s
  end.



(** A name without the path separator. *)
Definition no_slash (n : string) : Prop := char_in "/" n = false.

(** Listing a directory gives names that are pairwise distinct and hold
    no path separator. *)
Definition listing_ok (W : World) : Prop :=
  forall dir names, fs_iterdir W dir = Ok names -> NoDup names /\ Forall no_slash names.

(** The key of a skill in [skill_results]. *)
Definition skill_key (plugin_name : string) (skill_path : Path) : string :=
  plugin_name +:+ "/" +:+ path_name skill_path.

(** The keys of the skills of the plugins are pairwise distinct: the
    skills of one plugin by their names, those of two plugins by the names
    of the plugins. *)
Definition skill_keys_distinct (W : World) (plugins : list Path) : Prop :=
  (forall p skills,
     p ∈ plugins -> SkillsValidator.discover_skills W p = Ok skills ->
     NoDup (map path_name skills)) /\
  (forall p1 p2 s1 s2,
     p1 ∈ plugins -> p2 ∈ plugins ->
     skill_key (path_name p1) s1 = skill_key (path_name p2) s2 ->
     path_name p1 = path_name p2).

(** ** Example environments *)

Fixpoint path_eqb (p q : Path) : bool :=
  match p, q with
  | [], [] => true
  | a :: p', b :: q' => String.eqb a b && path_eqb p' q'
  | _, _ => false
  end.

Fixpoint path_lookup {A} (p : Path) (l : list (Path * A)) : option A :=
  match l with
  | [] => None
  | (q, a) :: rest => if path_eqb p q then Some a else path_lookup p rest
  end.

(** The texts of the interpreter's own exceptions, as CPython 3.11 words
    them. *)
Definition error_text_3_11 (e : exn) : string :=
  match e with
  | TypeError (NotIterable t) => "argument of type '" +:+ t +:+ "' is not iterable"
  | TypeError (BadIndex t) =>
      if String.eqb t "str" then "string indices must be integers, not 'str'"
      else "list indices must be integers or slices, not str"
  | TypeError (NotSubscriptable t) => "'" +:+ t +:+ "' object is not subscriptable"
  | TypeError (Unhashable t) => "unhashable type: '" +:+ t +:+ "'"
  | KeyError k => "'" +:+ k +:+ "'"
  | AttributeError t a => "'" +:+ t +:+ "' object has no attribute '" +:+ a +:+ "'"
  | _ => ""
  end.

(** The Arabic-Indic digits, ten of the characters of category Nd. *)
Definition arabic_indic_digits : list string :=
  ["٠"; "١"; "٢"; "٣"; "٤"; "٥"; "٦"; "٧"; "٨"; "٩"].

(** An environment given by its directories, with the names they list,
    its files, with what loading each as JSON gives, and the behaviour of
    the inspector.  Its file system answers every test, its console
    prints every text, and its table of digits is cut down to the
    Arabic-Indic ones. *)
Definition world_of (dirs : list (Path * list string)) (files : list (Path * res json))
    (run : list string -> res CompletedProcess) : World :=
  {| cwd := ["repo"];
     fs_exists p :=
       Ok match path_lookup p dirs, path_lookup p files with
          | None, None => false
          | _, _ => true
          end;
     fs_is_dir p := Ok match path_lookup p dirs with Some _ => true | None => false end;
     fs_iterdir p :=
       match path_lookup p dirs with
       | Some names => Ok names
       | None => Raise (OSError "[Errno 20] Not a directory")
       end;
     json_load p _ :=
       match path_lookup p files with
       | Some outcome => outcome
       | None => Raise (FileNotFoundError "[Errno 2] No such file or directory")
       end;
     subprocess_run := run;
     py_repr v := "<" +:+ type_name v +:+ ">";
     py_error_text := error_text_3_11;
     unicode_digits := arabic_indic_digits;
     rich_print _ _ := Ok tt;
     print_json _ := Ok tt |}.

(** The environment [W] with other answers of the file system to
    [exists], and with another console. *)
Definition with_exists (W : World) (answer : Path -> res bool) : World :=
  {| cwd := cwd W; fs_exists := answer; fs_is_dir := fs_is_dir W;
     fs_iterdir := fs_iterdir W; json_load := json_load W;
     subprocess_run := subprocess_run W; py_repr := py_repr W;
     py_error_text := py_error_text W; unicode_digits := unicode_digits W;
     rich_print := rich_print W; print_json := print_json W |}.

Definition with_console (W : World) (console : bool -> string -> res unit) : World :=
  {| cwd := cwd W; fs_exists := fs_exists W; fs_is_dir := fs_is_dir W;
     fs_iterdir := fs_iterdir W; json_load := json_load W;
     subprocess_run := subprocess_run W; py_repr := py_repr W;
     py_error_text := py_error_text W; unicode_digits := unicode_digits W;
     rich_print := console; print_json := print_json W |}.

Definition inspector_ok (_ : list string) : res CompletedProcess :=
  Ok {| returncode := 0; stdout := ""; stderr := "" |}.

(** A repository without any file. *)
Definition empty_world : World := world_of [] [] inspector_ok.

(** A plugin [repo/plugins/demo] whose manifest the parser rejects at
    line 3, with one skill [repo/plugins/demo/skills/lint]. *)
Definition demo_path : Path := ["repo"; "plugins"; "demo"].
Definition demo_manifest : Path := ["repo"; "plugins"; "demo"; ".claude-plugin"; "plugin.json"].
Definition lint_path : Path := ["repo"; "plugins"; "demo"; "skills"; "lint"].

Definition demo_dirs : list (Path * list string) :=
  [(["repo"], ["plugins"]);
   (["repo"; "plugins"], ["demo"]);
   (demo_path, [".claude-plugin"; "skills"]);
   (["repo"; "plugins"; "demo"; ".claude-plugin"], ["plugin.json"]);
   (["repo"; "plugins"; "demo"; "skills"], ["lint"]);
   (lint_path, ["SKILL.md"])].

Definition decode_error : exn :=
  JSONDecodeError "Expecting value" 3 "Expecting value: line 3 column 1 (char 4)".

Definition broken_world (run : list string -> res CompletedProcess) : World :=
  world_of demo_dirs
    [(demo_manifest, Raise decode_error);
     (lint_path ++ ["SKILL.md"], Raise decode_error)]
    run.

(** The same plugin with a manifest saved in Latin-1: its bytes are not
    UTF-8 text. *)
Definition undecodable : exn :=
  UnicodeDecodeError
    "'utf-8' codec can't decode byte 0xe9 in position 17: invalid continuation byte".

Definition undecodable_world : World :=
  world_of demo_dirs [(demo_manifest, Raise undecodable)] inspector_ok.


Definition inspector_rejects (_ : list string) : res CompletedProcess :=
  Ok {| returncode := 1; stdout := "checked 1 skill"; stderr := "missing description" |}.
Definition inspector_times_out (_ : list string) : res CompletedProcess :=
  Raise (TimeoutExpired "Command timed out after 30 seconds").
Definition inspector_absent (_ : list string) : res CompletedProcess :=
  Raise (FileNotFoundError "[Errno 2] No such file or directory: 'uvx'").
Definition inspector_denied (_ : list string) : res CompletedProcess :=
  Raise (OtherException "[Errno 13] Permission denied: 'uvx'").

(** A repository [repo] with a registry document and, under
    [repo/plugins], one directory per plugin with a manifest. *)
Definition repo_world (registry : res json) (plugins : list (string * res json)) : World :=
  world_of
    ([(["repo"], [".claude-plugin"; "plugins"]);
      (["repo"; ".claude-plugin"], ["marketplace.json"]);
      (["repo"; "plugins"], map fst plugins)]
     ++ flat_map
          (fun p => [(["repo"; "plugins"; fst p], [".claude-plugin"]);
                     (["repo"; "plugins"; fst p; ".claude-plugin"], ["plugin.json"])])
          plugins)
    ((["repo"; ".claude-plugin"; "marketplace.json"], registry)
     :: map (fun p => (["repo"; "plugins"; fst p; ".claude-plugin"; "plugin.json"], snd p))
          plugins)
    inspector_ok.

Definition alpha_entry : list (string * json) :=
  [("name", JStr "alpha"); ("source", JStr "./plugins/alpha");
   ("version", JStr "2.0.0"); ("author", JStr "Jane")].

Definition alpha_manifest : list (string * json) :=
  [("name", JStr "alpha"); ("version", JStr "1.0.0")].

Definition registry_of (entries : list json) : json :=
  JDict [("name", JStr "market");
         ("owner", JDict [("name", JStr "Jane")]);
         ("plugins", JList entries)].

Definition alpha_world : World :=
  repo_world (Ok (registry_of [JDict alpha_entry])) [("alpha", Ok (JDict alpha_manifest))].

(** The same repository when the parser rejects the manifest of alpha. *)
Definition broken_alpha_world : World :=
  repo_world (Ok (registry_of [JDict alpha_entry])) [("alpha", Raise decode_error)].

(** The result of a manifest whose author is a string, and the result
    of a subject that only drew a warning. *)
Definition author_result : ValidationResult :=
  Result.add_info "author_fix" "Change to: {name: Jane}" "demo/.claude-plugin/plugin.json"
    (Result.add_error "author_format" "Author must be object" "demo/.claude-plugin/plugin.json"
       None (new_result Passed)).

Definition warned_result : ValidationResult :=
  Result.add_warning "license_spdx" "License not in common SPDX list"
    "demo/.claude-plugin/plugin.json" None (new_result Passed).

Definition dup_entry (source : string) : json :=
  JDict [("name", JStr "dup"); ("source", JStr source)].

(** A registry with two entries named [dup]. *)
Definition dup_world : World :=
  repo_world (Ok (registry_of [dup_entry "./plugins/dup"; dup_entry "./plugins/other"]))
    [("dup", Ok (JDict [("name", JStr "dup")]))].

(** A plugin that holds a directory [hidden], and no [.hidden], and
    whose manifest names [./.hidden] as its commands. *)
Definition hidden_manifest : json :=
  JDict [("name", JStr "demo"); ("commands", JStr "./.hidden")].

Definition hidden_world : World :=
  world_of
    [(["repo"], ["plugins"]);
     (["repo"; "plugins"], ["demo"]);
     (demo_path, [".claude-plugin"; "hidden"]);
     (["repo"; "plugins"; "demo"; ".claude-plugin"], ["plugin.json"]);
     (["repo"; "plugins"; "demo"; "hidden"], [])]
    [(demo_manifest, Ok hidden_manifest)]
    inspector_ok.



(** What [main] collects in [alpha_world]. *)
Definition alpha_collected : Collected :=
  match collect alpha_world None false with
  | Ok c => c
  | Raise _ => Build_Collected None None [] []
  end.

(** ** Vocabulary of the further properties *)

(** The result [r'] holds the issues of [r], in the same order, followed
    by further ones. *)
Definition extends (r r' : ValidationResult) : Prop :=
  (exists more, errors r' = errors r ++ more) /\
  (exists more, warnings r' = warnings r ++ more) /\
  (exists more, info r' = info r ++ more).

(** Every issue sits in the list of its severity. *)
Definition well_tagged (r : ValidationResult) : Prop :=
  Forall (fun i => severity i = SevError) (errors r) /\
  Forall (fun i => severity i = SevWarning) (warnings r) /\
  Forall (fun i => severity i = SevInfo) (info r).

(** Every issue names the file [f]. *)
Definition attributed (f : string) (r : ValidationResult) : Prop :=
  Forall (fun i => file i = f) (issues r).

(** Only the error [json_syntax] carries a line number. *)
Definition lines_on_syntax_errors (r : ValidationResult) : Prop :=
  Forall (fun i => line i = None \/ check i = "json_syntax") (issues r).

(** A result with an info issue holds the error [author_format]. *)
Definition info_with_error (r : ValidationResult) : Prop :=
  info r = [] \/ In "author_format" (codes (errors r)).


(** A step keeps the property [P] of results. *)
Definition keeps (P : ValidationResult -> Prop) (r r' : ValidationResult) : Prop :=
  P r -> P r'.

(** A result without info issues. *)
Definition no_info (r : ValidationResult) : Prop := info r = [].

(** A result without warnings and without info issues. *)
Definition errors_only (r : ValidationResult) : Prop := warnings r = [] /\ info r = [].

(** ** Further example environments *)

(** A plugin whose manifest gives the author as a string and a license
    outside the list. *)
Definition jane_manifest : list (string * json) :=
  [("name", JStr "demo"); ("author", JStr "Jane"); ("license", JStr "Proprietary")].

Definition jane_world : World :=
  world_of demo_dirs [(demo_manifest, Ok (JDict jane_manifest))] inspector_ok.

Definition jane_result : ValidationResult :=
  match PluginJsonValidator.validate jane_world demo_path with
  | Ok r => r
  | Raise _ => new_result Passed
  end.

Definition alpha_registry_result : ValidationResult :=
  match MarketplaceValidator.validate alpha_world ["repo"] with
  | Ok r => r
  | Raise _ => new_result Passed
  end.

Definition broken_result : ValidationResult :=
  match PluginJsonValidator.validate (broken_world inspector_ok) demo_path with
  | Ok r => r
  | Raise _ => new_result Passed
  end.




(** A file system that raises on a path with a part of more than 255
    bytes, longer than a name may be, and otherwise answers as that of
    [W]. *)
Definition name_too_long : exn := OSError "[Errno 36] File name too long".

Definition with_name_limit (W : World) : World :=
  with_exists W
    (fun p =>
       if existsb (fun part => (255 <? String.length part)%nat) p then Raise name_too_long
       else fs_exists W p).

(** A plugin whose manifest names as its commands a path of 300
    letters. *)




(** A plugin whose manifest has a name, a license outside the list and a
    repository that is no URL. *)
Definition licensed_manifest : list (string * json) :=
  [("name", JStr "demo"); ("license", JStr "Proprietary"); ("repository", JStr "git@host:demo")].

Definition licensed_world : World :=
  world_of demo_dirs [(demo_manifest, Ok (JDict licensed_manifest))] inspector_ok.

(** [enumerate(l, start)] *)
Definition enumerate_from {A} (start : nat) (l : list A) : list (nat * A) :=
  combine (seq start (length l)) l.

(** The error for the keyword [k] at the index [i]. *)
Definition keyword_error (plugin_path : Path) (ik : nat * json) : ValidationIssue :=
  Build_ValidationIssue SevError "keyword_type"
    ("Keyword at index " +:+ pretty (fst ik) +:+ " must be string, got " +:+
     type_name (snd ik))
    (path_str (PluginJsonValidator.plugin_json_path plugin_path)) None.

Definition not_a_string (ik : nat * json) : bool := negb (isinstance_str (snd ik)).

Definition permission_error : exn := OSError "[Errno 13] Permission denied".

(** A repository whose registry document and whose manifest of the
    plugin demo cannot be opened. *)
Definition locked_world : World :=
  world_of
    ([(["repo"], [".claude-plugin"; "plugins"]);
      (["repo"; ".claude-plugin"], ["marketplace.json"])] ++ demo_dirs)
    [(["repo"; ".claude-plugin"; "marketplace.json"], Raise permission_error);
     (demo_manifest, Raise permission_error)]
    inspector_ok.

(** A repository whose registry document the parser rejects at line 3. *)
Definition broken_registry_world : World :=
  repo_world (Raise decode_error) [].

(** The codes of the errors that the top-level fields of a registry
    object give rise to, in the order in which they are added. *)
Definition registry_header_codes (d : list (string * json)) : list string :=
  (if dict_has "name" d then [] else ["required_field"])
  ++ (if dict_has "owner" d then [] else ["required_field"])
  ++ (if dict_has "plugins" d then [] else ["required_field"])
  ++ match dict_lookup "owner" d with
     | Some (JDict owner) => if dict_has "name" owner then [] else ["owner_name"]
     | Some _ => ["owner_type"]
     | None => []
     end.

(** A registry document with an owner that is a string and plugins that
    are an object. *)
Definition odd_registry : list (string * json) :=
  [("owner", JStr "Jane"); ("plugins", JDict [])].

Definition odd_registry_world : World := repo_world (Ok (JDict odd_registry)) [].

(** The check on the source at which the handling of a registry entry
    stops, if it does, before the manifest of the plugin is opened; the
    exception that ends it when the file system does not answer. *)
Definition entry_stop (W : World) (root : Path) (items : list (string * json))
    : res (option string) :=
  match dict_lookup "source" items with
  | None => Ok (Some "plugin_source_missing")
  | Some (JStr src) =>
      (let source_path := joinpath root (lstrip src "./") in
       found ← fs_exists W source_path;
       if negb found then Ok (Some "source_path_missing")
       else
         found ← fs_exists W (joinpath (joinpath source_path ".claude-plugin") "plugin.json");
         if negb found then Ok (Some "plugin_json_missing") else Ok None)%res
  | Some _ => Ok (Some "source_type")
  end.

(** A registry entry whose source does not exist. *)
Definition ghost_entry : list (string * json) :=
  [("name", JStr "ghost"); ("source", JStr "./plugins/ghost")].

(** A registry entry whose source is a name of 300 letters. *)
Definition long_source_entry : list (string * json) :=
  [("name", JStr "long"); ("source", JStr (str_mul "a" 300))].

Definition long_source_world : World :=
  with_name_limit (repo_world (Ok (registry_of [JDict long_source_entry])) []).




(** A plugin in which [skills] is a file: it exists and cannot be
    listed. *)
Definition not_a_directory : exn := OSError "[Errno 20] Not a directory".

Definition skills_file_world : World :=
  world_of
    [(["repo"], ["plugins"]);
     (["repo"; "plugins"], ["demo"]);
     (demo_path, [".claude-plugin"; "skills"]);
     (["repo"; "plugins"; "demo"; ".claude-plugin"], ["plugin.json"])]
    [(demo_manifest, Ok (JDict [("name", JStr "demo")]));
     (demo_path ++ ["skills"], Raise decode_error)]
    inspector_ok.

(** The result holds no issue but, at most, one error. *)
Definition at_most_one_error (r : ValidationResult) : Prop :=
  warnings r = [] /\ info r = [] /\ length (errors r) <= 1.

(** What [main] collects in the repository with the rejected skill. *)
Definition rejected_collected : Collected :=
  match collect (broken_world inspector_rejects) None false with
  | Ok c => c
  | Raise _ => Build_Collected None None [] []
  end.

(** ** The text report *)

(** The string [s] occurs in the text [l]. *)
Definition occurs_in (s l : string) : Prop := exists a b, l = a +:+ s +:+ b.

(** What the text report takes from the skills: names and statuses. *)
Definition names_and_statuses (results : list (string * ValidationResult)) :
    list (string * Status) :=
  map (fun kv => (fst kv, status (snd kv))) results.

(** The results with their issues dropped. *)
Definition without_issues (results : list (string * ValidationResult)) :
    list (string * ValidationResult) :=
  map (fun kv => (fst kv, new_result (status (snd kv)))) results.

(** The texts [_print_result] hands to [console.print], one after the
    other, when no call raises. *)
Definition result_texts (title : string) (result : ValidationResult) : list string :=
  [match status result with
   | Passed => nl +:+ "[green]âœ… " +:+ title +:+ "[/green]"
   | Warning => nl +:+ "[yellow]âš ï¸  " +:+ title +:+ "[/yellow]"
   | Failed => nl +:+ "[red]âŒ " +:+ title +:+ "[/red]"
   end]
  ++ map (fun error =>
            "   [red]âŒ Error: " +:+ message error +:+ "[/red]" +:+ location error)
       (errors result)
  ++ map (fun warning =>
            "   [yellow]âš ï¸  Warning: " +:+ message warning +:+ "[/yellow]" +:+
            location warning)
       (warnings result)
  ++ map (fun info => "   [dim]â„¹ï¸  " +:+ message info +:+ "[/dim]") (info result).

(** The lines of the summary for the count [n]. *)
Definition passed_line (n : nat) : string := "  âœ… " +:+ pretty n +:+ " plugins passed".
Definition warnings_line (n : nat) : string :=
  "  âš ï¸  " +:+ pretty n +:+ " plugins with warnings".
Definition failed_line (n : nat) : string := "  âŒ " +:+ pretty n +:+ " plugins failed".
Definition skills_line (n : nat) : string := "  ðŸŽ¯ " +:+ pretty n +:+ " skills validated".

(** The texts [print_text_results] hands to [console.print], one after
    the other, when no call raises. *)
Definition report_texts
    (root_result marketplace_result : option ValidationResult)
    (plugin_results skill_results : list (string * ValidationResult)) : list string :=
  [nl +:+ "[bold blue]ðŸ” Validating Claude Plugins Marketplace...[/bold blue]" +:+ nl]
  ++ match root_result with
     | Some r => result_texts "Root Plugin (.claude-plugin/plugin.json)" r
     | None => []
     end
  ++ match marketplace_result with
     | Some r => result_texts "Marketplace Registry (.claude-plugin/marketplace.json)" r
     | None => []
     end
  ++ flat_map (fun kv => result_texts ("Plugin: " +:+ fst kv) (snd kv)) plugin_results
  ++ match skill_results with
     | [] => []
     | _ :: _ =>
         (nl +:+ "[bold cyan]ðŸŽ¯ Skills Validation[/bold cyan]")
         :: map (fun kv => "   " +:+ status_icon (snd kv) +:+ " " +:+ fst kv) skill_results
     end
  ++ [nl +:+ str_mul "â”" 60; "[bold]Summary:[/bold]"]
  ++ [passed_line (count_status (Status_eqb Passed) plugin_results)]
  ++ (if (count_status (Status_eqb Warning) plugin_results =? 0)%nat then []
      else [warnings_line (count_status (Status_eqb Warning) plugin_results)])
  ++ (if (count_status (Status_eqb Failed) plugin_results =? 0)%nat then []
      else [failed_line (count_status (Status_eqb Failed) plugin_results)])
  ++ [skills_line (length skill_results)].

(** Handing texts to [console.print] one after the other, up to the
    first call that raises. *)
Definition print_all (W : World) (no_color : bool) (texts : list string) : Out unit :=
  out_for_each texts (console_print W no_color).

(** The sixth byte of a text of the report. *)
Definition sixth_byte (l : string) : option ascii := String.get 5 l.

(** The sixth byte tells the two optional lines of the summary from every
    other text of the report. *)
Definition plain_line (l : string) : Prop :=
  sixth_byte l <> sixth_byte (warnings_line 0) /\ sixth_byte l <> sixth_byte (failed_line 0).

(** A console that rejects the closing tag [[/x]], for which no tag is
    open, as [rich] does, and prints every other text. *)
Definition strict_console (_ : bool) (markup : string) : res unit :=
  if str_contains markup "[/x]"
  then Raise (MarkupError "closing tag '[/x]' at position 36 doesn't match any open tag")
  else Ok tt.

(** A plugin whose license is the text [[/x]]. *)
Definition markup_manifest : list (string * json) :=
  [("name", JStr "demo"); ("license", JStr "[/x]")].

Definition markup_world : World :=
  with_console
    (world_of demo_dirs [(demo_manifest, Ok (JDict markup_manifest))] inspector_ok)
    strict_console.

(** What [main] collects for that plugin. *)
Definition markup_collected : Collected :=
  match collect markup_world None true with
  | Ok c => c
  | Raise _ => Build_Collected None None [] []
  end.

(** * Properties *)

(** ** Reasoning about computations *)

Section respects_lemmas.
Context (R : ValidationResult -> ValidationResult -> Prop).
Hypothesis R_refl : forall r, R r r.
Hypothesis R_trans : forall a b c, R a b -> R b c -> R a c.

Lemma respects_ret {A} (a : A) : respects R (ret a).
Proof. intros r. apply R_refl. Qed.

Lemma respects_eval {A} (x : res A) : respects R (eval x).
Proof. intros r. apply R_refl. Qed.

Lemma respects_update f : (forall r, R r (f r)) -> respects R (update f).
Proof. intros Hf r. apply Hf. Qed.

Lemma respects_bind {A B} (m : M A) (k : A -> M B) :
  respects R m -> (forall a, respects R (k a)) -> respects R (bind m k).
Proof.
  intros Hm Hk r. unfold bind. specialize (Hm r).
  destruct (m r) as [[a|e] r']; simpl in *; [|assumption].
  eapply R_trans; [exact Hm|apply Hk].
Qed.

Lemma respects_try {A} (body : M A) (handler : exn -> M A) :
  respects R body -> (forall e, respects R (handler e)) ->
  respects R (try_except body handler).
Proof.
  intros Hb Hh r. unfold try_except. specialize (Hb r).
  destruct (body r) as [[a|e] r']; simpl in *; [assumption|].
  eapply R_trans; [exact Hb|apply Hh].
Qed.

Lemma respects_for_enumerate {A} (l : list A) (body : nat -> A -> M unit) start :
  (forall i x, respects R (body i x)) -> respects R (for_enumerate start l body).
Proof.
  intros Hb. revert start. induction l as [|x l IH]; intros start; simpl.
  - apply respects_ret.
  - apply respects_bind; [apply Hb|intros _; apply IH].
Qed.

Lemma respects_for_each {A} (l : list A) (body : A -> M unit) :
  (forall x, respects R (body x)) -> respects R (for_each l body).
Proof. intros Hb. apply respects_for_enumerate. intros _ x. apply Hb. Qed.
End respects_lemmas.

(** Breaks a goal [respects R m] down along the structure of [m]; [upd]
    settles the calls that add an issue. *)
Ltac respects_with Hrefl Htrans upd :=
  repeat
    (lazymatch goal with
     | |- respects _ (bind _ _) => apply (respects_bind _ Htrans); [|intros ?]
     | |- respects _ (ret _) => apply (respects_ret _ Hrefl)
     | |- respects _ pass => apply (respects_ret _ Hrefl)
     | |- respects _ (eval _) => apply (respects_eval _ Hrefl)
     | |- respects _ (try_except _ _) => apply (respects_try _ Htrans); [|intros ?]
     | |- respects _ (for_enumerate _ _ _) =>
         apply (respects_for_enumerate _ Hrefl Htrans); intros ? ?
     | |- respects _ (for_each _ _) => apply (respects_for_each _ Hrefl Htrans); intros ?
     | |- respects _ (add_error _ _ _ _) => apply respects_update; intros ?; upd
     | |- respects _ (add_warning _ _ _ _) => apply respects_update; intros ?; upd
     | |- respects _ (add_info _ _ _) => apply respects_update; intros ?; upd
     | |- respects _ (if ?b then _ else _) => destruct b
     | |- respects _ (match ?x with _ => _ end) => destruct x
     | |- respects _ (let _ := _ in _) => cbv zeta
     end).

(** Runs the plumbing of a computation: sequencing, calls that add an
    issue, and tests on constants. *)
Ltac run_m :=
  cbv beta iota zeta delta
    [bind eval ret pass update add_error add_warning add_info try_except negb].

(** ** The result model *)

Lemma run_ops_snoc ops o r : run_ops (ops ++ [o]) r = apply_op (run_ops ops r) o.
Proof. unfold run_ops. rewrite fold_left_app. reflexivity. Qed.

Lemma built_new : built (new_result Passed).
Proof. exists []. reflexivity. Qed.

Lemma built_step o r : built r -> built (apply_op r o).
Proof. intros [ops ->]. exists (ops ++ [o]). symmetry. apply run_ops_snoc. Qed.

Lemma built_to_refl r : built_to r r.
Proof. intros H. exact H. Qed.

Lemma built_to_trans a b c : built_to a b -> built_to b c -> built_to a c.
Proof. unfold built_to. auto. Qed.

Lemma built_to_error c m f l r : built_to r (Result.add_error c m f l r).
Proof. intros H. apply (built_step (OpError c m f l)), H. Qed.

Lemma built_to_warning c m f l r : built_to r (Result.add_warning c m f l r).
Proof. intros H. apply (built_step (OpWarning c m f l)), H. Qed.

Lemma built_to_info c m f r : built_to r (Result.add_info c m f r).
Proof. intros H. apply (built_step (OpInfo c m f)), H. Qed.

Ltac built_tac :=
  respects_with built_to_refl built_to_trans
    ltac:(first [apply built_to_error | apply built_to_warning | apply built_to_info]).

Lemma returned_built (m : M unit) r :
  respects built_to m -> returned m = Ok r -> built r.
Proof.
  intros Hm. unfold returned. specialize (Hm (new_result Passed)).
  destruct (m (new_result Passed)) as [[[]|e] r']; simpl in *; [|discriminate].
  intros [= <-]. apply Hm, built_new.
Qed.

Lemma manifest_fields_built W p data :
  respects built_to (PluginJsonValidator.validate_fields W p data).
Proof.
  unfold PluginJsonValidator.validate_fields, PluginJsonValidator.if_present.
  built_tac;
    unfold PluginJsonValidator._validate_name, PluginJsonValidator._validate_version,
      PluginJsonValidator._validate_author, PluginJsonValidator._validate_license,
      PluginJsonValidator._validate_repository, PluginJsonValidator._validate_keywords,
      PluginJsonValidator._validate_paths, PluginJsonValidator.check_path;
    built_tac; unfold PluginJsonValidator.check_path; built_tac.
Qed.

Lemma manifest_built W p : respects built_to (PluginJsonValidator.validate_body W p).
Proof.
  unfold PluginJsonValidator.validate_body. built_tac.
  apply manifest_fields_built.
Qed.

Lemma registry_entry_built W root entry index names :
  respects built_to (MarketplaceValidator._validate_plugin_entry W root entry index names).
Proof.
  unfold MarketplaceValidator._validate_plugin_entry, MarketplaceValidator.check_source,
    MarketplaceValidator.check_consistency.
  built_tac.
Qed.

Lemma registry_entries_built W root entries index names :
  respects built_to (MarketplaceValidator.validate_entries W root index entries names).
Proof.
  revert index names. induction entries as [|e entries IH]; intros index names; simpl.
  - built_tac.
  - apply (respects_bind _ built_to_trans); [apply registry_entry_built|intros ?; apply IH].
Qed.

Lemma registry_built W root : respects built_to (MarketplaceValidator.validate_body W root).
Proof.
  unfold MarketplaceValidator.validate_body, MarketplaceValidator.validate_document,
    MarketplaceValidator.check_required_fields, MarketplaceValidator.check_owner,
    MarketplaceValidator.check_plugins.
  built_tac; apply registry_entries_built.
Qed.

Lemma skill_built W skill_path :
  respects built_to (SkillsValidator.validate_skill_body W skill_path).
Proof. unfold SkillsValidator.validate_skill_body. built_tac. Qed.

Lemma produced_built r : produced r -> built r.
Proof.
  intros [W p r' H|W p r' H|W p r' H].
  - eapply returned_built; [apply manifest_built|exact H].
  - eapply returned_built; [apply registry_built|exact H].
  - eapply returned_built; [apply skill_built|exact H].
Qed.

(** The status of a built result is the worst severity among its issues. *)
Lemma built_status r :
  built r ->
  status r =
    match errors r, warnings r with
    | _ :: _, _ => Failed
    | [], _ :: _ => Warning
    | [], [] => Passed
    end.
Proof.
  intros [ops ->]. induction ops as [|o ops IH] using rev_ind; [reflexivity|].
  rewrite run_ops_snoc. set (r := run_ops ops (new_result Passed)) in *.
  destruct o; simpl; rewrite IH;
    destruct (errors r), (warnings r); reflexivity.
Qed.

Lemma failed_stays_failed ops r : status r = Failed -> status (run_ops ops r) = Failed.
Proof.
  revert r. induction ops as [|o ops IH]; intros r H; [exact H|].
  simpl. apply IH. destruct o; simpl; rewrite H; reflexivity.
Qed.

(** C1. For every result a validator returns, the status is [Failed]
    exactly when the result holds an error, otherwise [Warning] exactly
    when it holds a warning, otherwise [Passed].  The update is monotonic:
    [add_error] always gives [Failed] and no later addition changes that,
    [add_warning] turns [Passed] into [Warning] and leaves [Warning] and
    [Failed] as they are, and [add_info] leaves the status alone. *)
Theorem C1_status_is_worst_severity :
  (forall r, produced r ->
     (status r = Failed <-> errors r <> []) /\
     (status r = Warning <-> errors r = [] /\ warnings r <> []) /\
     (status r = Passed <-> errors r = [] /\ warnings r = [])) /\
  (forall c m f l r, status (Result.add_error c m f l r) = Failed) /\
  (forall ops r, status r = Failed -> status (run_ops ops r) = Failed) /\
  (forall c m f l r,
     status (Result.add_warning c m f l r) =
       match status r with Passed => Warning | s => s end) /\
  (forall c m f r, status (Result.add_info c m f r) = status r).
Proof.
  repeat split.
  all: try (intros; match goal with H : produced _ |- _ =>
              apply produced_built, built_status in H;
              destruct (errors r), (warnings r); rewrite H in *; clear H end).
  all: try solve [intuition congruence].
  - intros c m f l r. simpl. destruct (status r); reflexivity.
  - intros ops r. apply failed_stays_failed.
  - intros c m f l r. simpl. destruct (status r); reflexivity.
Qed.

Lemma C1_status_is_worst_severity_witness :
  let r := {| status := Failed;
              errors := [Build_ValidationIssue SevError "file_exists" "plugin.json not found"
                           "demo/.claude-plugin/plugin.json" None];
              warnings := []; info := [] |} in
  produced r /\
  (status r = Failed <-> errors r <> []) /\
  (status r = Warning <-> errors r = [] /\ warnings r <> []) /\
  (status r = Passed <-> errors r = [] /\ warnings r = []).
Proof.
  assert (H : produced
                {| status := Failed;
                   errors := [Build_ValidationIssue SevError "file_exists"
                                "plugin.json not found"
                                "demo/.claude-plugin/plugin.json" None];
                   warnings := []; info := [] |}).
  { apply (produced_manifest empty_world ["demo"]). reflexivity. }
  split; [exact H|].
  exact (proj1 C1_status_is_worst_severity _ H).
Defined.

(** ** The manifest validator: structural failures *)

(** The claim as the specification has it fails on a manifest that is
    not UTF-8 text: the load raises before the parser is reached, and the
    result holds the error [file_read], without a line. *)
Lemma C7_undecodable_manifest_is_no_syntax_error :
  ~ malformed_as_specified undecodable_world demo_path.
Proof.
  intros H.
  destruct H as (r & i & Hr & Hi & Hcheck & _).
  - split; [reflexivity|]. left. eexists. reflexivity.
  - vm_compute in Hr. injection Hr as <-. injection Hi as <-. discriminate Hcheck.
Qed.

(** C7. When the manifest is missing, validation returns a result that
    holds exactly one issue, the error [file_exists], whatever the rest of
    the environment is.  When the manifest exists and the parser rejects
    it, validation returns a result that holds exactly one issue, the error
    [json_syntax], which carries the line number the parser reported.
    When the manifest exists and loading it fails in any other way (it
    cannot be opened, or its bytes cannot be decoded), the result holds
    exactly one issue, the error [file_read], without a line.  In all
    three cases no field check has added anything. *)
Theorem C7_missing_or_malformed_manifest W plugin_path :
  let path := PluginJsonValidator.plugin_json_path plugin_path in
  let single_error code text line :=
    Ok {| status := Failed;
          errors := [Build_ValidationIssue SevError code text (path_str path) line];
          warnings := []; info := [] |} in
  (fs_exists W path = Ok false ->
   PluginJsonValidator.validate W plugin_path =
     single_error "file_exists" "plugin.json not found" None) /\
  (forall msg lineno text,
     fs_exists W path = Ok true ->
     json_load W path Utf8 = Raise (JSONDecodeError msg lineno text) ->
     PluginJsonValidator.validate W plugin_path =
       single_error "json_syntax" ("Invalid JSON: " +:+ msg) (Some lineno)) /\
  (forall e,
     fs_exists W path = Ok true ->
     json_load W path Utf8 = Raise e ->
     not_decode_error e = true ->
     PluginJsonValidator.validate W plugin_path =
       single_error "file_read" ("Failed to read file: " +:+ exn_str W e) None).
Proof.
  intros path single_error. subst single_error.
  unfold PluginJsonValidator.validate, PluginJsonValidator.validate_body, returned.
  fold path. split; [|split].
  - intros Hex. run_m. rewrite Hex. reflexivity.
  - intros msg lineno text Hex Hload. run_m. rewrite Hex, Hload. reflexivity.
  - intros e Hex Hload He. run_m. rewrite Hex, Hload.
    destruct e; try discriminate He; reflexivity.
Qed.

Lemma C7_missing_or_malformed_manifest_witness :
  PluginJsonValidator.validate empty_world demo_path =
    Ok {| status := Failed;
          errors := [Build_ValidationIssue SevError "file_exists" "plugin.json not found"
                       "repo/plugins/demo/.claude-plugin/plugin.json" None];
          warnings := []; info := [] |} /\
  PluginJsonValidator.validate (broken_world inspector_ok) demo_path =
    Ok {| status := Failed;
          errors := [Build_ValidationIssue SevError "json_syntax"
                       "Invalid JSON: Expecting value"
                       "repo/plugins/demo/.claude-plugin/plugin.json" (Some 3%Z)];
          warnings := []; info := [] |} /\
  PluginJsonValidator.validate undecodable_world demo_path =
    Ok {| status := Failed;
          errors := [Build_ValidationIssue SevError "file_read"
                       "Failed to read file: 'utf-8' codec can't decode byte 0xe9 in position 17: invalid continuation byte"
                       "repo/plugins/demo/.claude-plugin/plugin.json" None];
          warnings := []; info := [] |}.
Proof.
  split; [|split].
  - apply (proj1 (C7_missing_or_malformed_manifest empty_world demo_path)).
    reflexivity.
  - apply (proj1 (proj2 (C7_missing_or_malformed_manifest (broken_world inspector_ok)
                           demo_path))
             "Expecting value" 3%Z "Expecting value: line 3 column 1 (char 4)");
      reflexivity.
  - apply (proj2 (proj2 (C7_missing_or_malformed_manifest undecodable_world demo_path))
             undecodable); reflexivity.
Defined.

(** ** The skill inspection delegate *)

(** C8. For a skill whose marker file is present, each outcome of the
    inspector gives its own result: a non-zero exit status gives the single
    error [skills_ref_validation], whose message holds the captured
    standard output and standard error; the timeout gives the single error
    [skills_ref_timeout]; a missing executable gives the single error
    [skills_ref_missing], whose message tells how to install it; any other
    failure to launch gives the single error [skills_ref_error]; and exit
    status zero gives a passed result without issues. *)
Theorem C8_inspector_outcomes W skill_path :
  fs_exists W (joinpath skill_path "SKILL.md") = Ok true ->
  let outcome := subprocess_run W (SkillsValidator.cmd skill_path) in
  let single_error code text :=
    Ok {| status := Failed;
          errors := [Build_ValidationIssue SevError code text (path_str skill_path) None];
          warnings := []; info := [] |} in
  (forall proc, outcome = Ok proc -> returncode proc <> 0%Z ->
     SkillsValidator.validate_skill W skill_path =
       single_error "skills_ref_validation"
         ("skills-ref validation failed:" +:+ nl +:+ stdout proc +:+ nl +:+ stderr proc)) /\
  (forall text, outcome = Raise (TimeoutExpired text) ->
     SkillsValidator.validate_skill W skill_path =
       single_error "skills_ref_timeout" "skills-ref validation timed out (30s)") /\
  (forall text, outcome = Raise (FileNotFoundError text) ->
     SkillsValidator.validate_skill W skill_path =
       single_error "skills_ref_missing"
         "uvx not found. Install with: curl -LsSf https://astral.sh/uv/install.sh | sh") /\
  (forall e, outcome = Raise e ->
     (forall text, e <> TimeoutExpired text) ->
     (forall text, e <> FileNotFoundError text) ->
     SkillsValidator.validate_skill W skill_path =
       single_error "skills_ref_error" ("Failed to run skills-ref: " +:+ exn_str W e)) /\
  (forall proc, outcome = Ok proc -> returncode proc = 0%Z ->
     SkillsValidator.validate_skill W skill_path = Ok (new_result Passed)).
Proof.
  intros Hmd outcome single_error. subst outcome single_error.
  unfold SkillsValidator.validate_skill, SkillsValidator.validate_skill_body, returned,
    try_except, bind, eval.
  rewrite Hmd. simpl. split; [|split; [|split; [|split]]].
  - intros proc -> Hrc. apply Z.eqb_neq in Hrc. rewrite Hrc. reflexivity.
  - intros text ->. reflexivity.
  - intros text ->. reflexivity.
  - intros e -> Ht Hf. destruct e; try reflexivity.
    + exfalso. eapply Ht. reflexivity.
    + exfalso. eapply Hf. reflexivity.
  - intros proc -> Hrc. apply Z.eqb_eq in Hrc. rewrite Hrc. reflexivity.
Qed.

Lemma C8_inspector_outcomes_witness :
  let single_error code text :=
    Ok {| status := Failed;
          errors := [Build_ValidationIssue SevError code text
                       "repo/plugins/demo/skills/lint" None];
          warnings := []; info := [] |} in
  SkillsValidator.validate_skill (broken_world inspector_rejects) lint_path =
    single_error "skills_ref_validation"
      ("skills-ref validation failed:" +:+ nl +:+ "checked 1 skill" +:+ nl +:+
       "missing description") /\
  SkillsValidator.validate_skill (broken_world inspector_times_out) lint_path =
    single_error "skills_ref_timeout" "skills-ref validation timed out (30s)" /\
  SkillsValidator.validate_skill (broken_world inspector_absent) lint_path =
    single_error "skills_ref_missing"
      "uvx not found. Install with: curl -LsSf https://astral.sh/uv/install.sh | sh" /\
  SkillsValidator.validate_skill (broken_world inspector_denied) lint_path =
    single_error "skills_ref_error"
      "Failed to run skills-ref: [Errno 13] Permission denied: 'uvx'" /\
  SkillsValidator.validate_skill (broken_world inspector_ok) lint_path =
    Ok (new_result Passed).
Proof.
  intros single_error. subst single_error.
  split; [|split; [|split; [|split]]].
  - refine (proj1 (C8_inspector_outcomes (broken_world inspector_rejects) lint_path _)
              {| returncode := 1; stdout := "checked 1 skill";
                 stderr := "missing description" |} _ _);
      [reflexivity|reflexivity|discriminate].
  - refine (proj1 (proj2 (C8_inspector_outcomes (broken_world inspector_times_out)
                            lint_path _)) "Command timed out after 30 seconds" _);
      reflexivity.
  - refine (proj1 (proj2 (proj2 (C8_inspector_outcomes (broken_world inspector_absent)
                                   lint_path _)))
              "[Errno 2] No such file or directory: 'uvx'" _); reflexivity.
  - refine (proj1 (proj2 (proj2 (proj2 (C8_inspector_outcomes
                                          (broken_world inspector_denied) lint_path _))))
              (OtherException "[Errno 13] Permission denied: 'uvx'") _ _ _);
      [reflexivity|reflexivity|discriminate|discriminate].
  - refine (proj2 (proj2 (proj2 (proj2 (C8_inspector_outcomes (broken_world inspector_ok)
                                          lint_path _))))
              {| returncode := 0; stdout := EmptyString; stderr := EmptyString |} _ _);
      reflexivity.
Defined.

(** ** The registry validator: one entry *)

Lemma dict_has_lookup {A} k (d : list (string * A)) v :
  dict_lookup k d = Some v -> dict_has k d = true.
Proof. unfold dict_has. intros ->. reflexivity. Qed.

Lemma codes_app l1 l2 : codes (l1 ++ l2) = codes l1 ++ codes l2.
Proof. apply map_app. Qed.

(** On two strings [!=] is inequality of the strings. *)
Lemma py_eq_str s t : py_eq (JStr s) (JStr t) = String.eqb s t.
Proof. reflexivity. Qed.

(** C3. For a registry entry whose source leads to a manifest that loads
    as an object: the error [name_mismatch] is added exactly when the
    name of the manifest is not equal to the name of the entry, the error
    [version_mismatch] exactly when both declare a version and the two are
    not equal, and the error [author_format_marketplace] exactly when the
    author of the entry is a string.  Each is added at most once, each
    depends on its own condition only, and nothing else is added apart
    from the error for a name seen before. *)
Theorem C3_cross_reference W root items name src manifest index names r :
  let source_path := joinpath root (lstrip src "./") in
  let plugin_json_path := joinpath (joinpath source_path ".claude-plugin") "plugin.json" in
  dict_lookup "name" items = Some name ->
  hashable name = true ->
  dict_lookup "source" items = Some (JStr src) ->
  fs_exists W source_path = Ok true ->
  fs_exists W plugin_json_path = Ok true ->
  json_load W plugin_json_path LocaleDefault = Ok (JDict manifest) ->
  let seen := existsb (py_is_or_eq name) names in
  let name_differs :=
    negb (py_eq (match dict_lookup "name" manifest with Some n => n | None => JNull end)
            name) in
  let version_differs :=
    match dict_lookup "version" items, dict_lookup "version" manifest with
    | Some v, Some v' => negb (py_eq v v')
    | _, _ => false
    end in
  let author_is_string :=
    match dict_lookup "author" items with
    | Some (JStr _) => true
    | _ => false
    end in
  exists r',
    MarketplaceValidator._validate_plugin_entry W root (JDict items) index names r =
      (Ok (if seen then names else names ++ [name]), r') /\
    codes (errors r') =
      codes (errors r)
      ++ (if seen then ["duplicate_plugin"] else [])
      ++ (if name_differs then ["name_mismatch"] else [])
      ++ (if version_differs then ["version_mismatch"] else [])
      ++ (if author_is_string then ["author_format_marketplace"] else []) /\
    warnings r' = warnings r /\
    info r' = info r.
Proof.
  intros source_path plugin_json_path Hname Hhash Hsrc Hsp Hpj Hload
    seen name_differs version_differs author_is_string.
  unfold MarketplaceValidator._validate_plugin_entry, MarketplaceValidator.check_source,
    MarketplaceValidator.check_consistency, try_except, bind, eval, ret, pass,
    add_error, add_warning, update, py_contains, py_getitem, py_get, set_contains, set_add.
  rewrite (dict_has_lookup _ _ _ Hname), (dict_has_lookup _ _ _ Hsrc), Hname, Hsrc, Hhash.
  cbn [negb]. fold source_path. rewrite Hsp. cbn [negb].
  fold plugin_json_path. rewrite Hpj, Hload. cbn [negb].
  subst seen name_differs version_differs author_is_string.
  unfold dict_has.
  destruct (existsb (py_is_or_eq name) names);
    destruct (dict_lookup "name" manifest) as [mname|];
    [destruct (py_eq mname name)|destruct (py_eq JNull name)
    |destruct (py_eq mname name)|destruct (py_eq JNull name)]; cbn [negb];
    (destruct (dict_lookup "version" items) as [v|];
     [destruct (dict_lookup "version" manifest) as [v'|];
      [destruct (py_eq v v')|]|]); cbn [negb];
    (destruct (dict_lookup "author" items) as [[]|]); cbn [isinstance_str];
    (eexists; split; [reflexivity|]);
    cbn [errors warnings info Result.add_error Result.add_warning];
    rewrite ?codes_app, <- ?app_assoc; cbn [codes map check app];
    rewrite ?app_nil_r; auto.
Qed.

Lemma C3_cross_reference_witness :
  exists r',
    MarketplaceValidator._validate_plugin_entry alpha_world ["repo"] (JDict alpha_entry)
      0 [] (new_result Passed) = (Ok [JStr "alpha"], r') /\
    codes (errors r') = ["version_mismatch"; "author_format_marketplace"] /\
    warnings r' = [] /\
    info r' = [].
Proof.
  exact (C3_cross_reference alpha_world ["repo"] alpha_entry (JStr "alpha")
           "./plugins/alpha" alpha_manifest 0 [] (new_result Passed)
           eq_refl eq_refl eq_refl eq_refl eq_refl eq_refl).
Defined.

(** C10. When the manifest file of a registry entry exists and reading
    it raises, be it a parse error, another exception of [open] or
    [json.load], or the attribute error on a document that is not an
    object, the registry result receives the warning [plugin_json_read] for
    that entry and no error from the consistency checks.  An entry whose
    name was not seen before therefore leaves the errors as they were and
    makes the status failed only if it already was; a registry whose sole
    finding is that entry ends with status warning.  Validated directly,
    a manifest the parser rejects gives a failed result holding the error
    [json_syntax]. *)
Theorem C10_unreadable_manifest W root items name src index names r e :
  let source_path := joinpath root (lstrip src "./") in
  let plugin_json_path := joinpath (joinpath source_path ".claude-plugin") "plugin.json" in
  let file := path_str (MarketplaceValidator.marketplace_json root) in
  dict_lookup "name" items = Some name ->
  hashable name = true ->
  dict_lookup "source" items = Some (JStr src) ->
  fs_exists W source_path = Ok true ->
  fs_exists W plugin_json_path = Ok true ->
  (json_load W plugin_json_path LocaleDefault = Raise e \/
   exists v, json_load W plugin_json_path LocaleDefault = Ok v /\
             py_get v "name" = Raise e) ->
  let seen := existsb (py_is_or_eq name) names in
  (exists r',
     MarketplaceValidator._validate_plugin_entry W root (JDict items) index names r =
       (Ok (if seen then names else names ++ [name]), r') /\
     codes (errors r') = codes (errors r) ++ (if seen then ["duplicate_plugin"] else []) /\
     warnings r' =
       warnings r ++
       [Build_ValidationIssue SevWarning "plugin_json_read"
          ("Could not read plugin.json for " +:+ dq +:+ fmt W name +:+ dq +:+ ": " +:+
           exn_str W e) file None] /\
     info r' = info r /\
     (seen = false ->
      errors r' = errors r /\ (status r' = Failed <-> status r = Failed))) /\
  (forall doc owner title,
     fs_exists W (MarketplaceValidator.marketplace_json root) = Ok true ->
     json_load W (MarketplaceValidator.marketplace_json root) Utf8 = Ok (JDict doc) ->
     dict_lookup "name" doc = Some title ->
     dict_lookup "owner" doc = Some (JDict owner) ->
     dict_has "name" owner = true ->
     dict_lookup "plugins" doc = Some (JList [JDict items]) ->
     exists r',
       MarketplaceValidator.validate W root = Ok r' /\
       status r' = Warning /\ errors r' = [] /\ codes (warnings r') = ["plugin_json_read"]) /\
  (forall msg lineno text,
     json_load W plugin_json_path Utf8 = Raise (JSONDecodeError msg lineno text) ->
     exists r',
       PluginJsonValidator.validate W source_path = Ok r' /\
       status r' = Failed /\ codes (errors r') = ["json_syntax"]).
Proof.
  intros source_path plugin_json_path file Hname Hhash Hsrc Hsp Hpj Hload seen.
  assert (Hentry : forall index names r,
    MarketplaceValidator._validate_plugin_entry W root (JDict items) index names r =
      (Ok (if existsb (py_is_or_eq name) names then names else names ++ [name]),
       Result.add_warning "plugin_json_read"
         ("Could not read plugin.json for " +:+ dq +:+ fmt W name +:+ dq +:+ ": " +:+
          exn_str W e) file None
         (if existsb (py_is_or_eq name) names
          then Result.add_error "duplicate_plugin"
                 ("Duplicate plugin name: " +:+ dq +:+ fmt W name +:+ dq) file None r
          else r))).
  { clear index names r seen. intros index names r.
    unfold MarketplaceValidator._validate_plugin_entry, MarketplaceValidator.check_source,
      MarketplaceValidator.check_consistency, try_except, bind, eval, ret, pass,
      add_error, add_warning, update, py_contains, py_getitem, set_contains, set_add.
    rewrite (dict_has_lookup _ _ _ Hname), (dict_has_lookup _ _ _ Hsrc), Hname, Hsrc, Hhash.
    cbn [negb]. fold source_path. rewrite Hsp. cbn [negb].
    fold plugin_json_path. rewrite Hpj. cbn [negb].
    destruct Hload as [->|(v & -> & ->)];
      destruct (existsb (py_is_or_eq name) names); reflexivity. }
  split; [|split].
  - eexists. split; [apply Hentry|]. subst seen.
    destruct (existsb (py_is_or_eq name) names);
      cbn [errors warnings info status Result.add_error Result.add_warning].
    + rewrite codes_app. repeat split; try reflexivity; discriminate.
    + rewrite app_nil_r. repeat split; try reflexivity; try discriminate.
      all: destruct (status r); simpl; congruence.
  - intros doc owner title Hex Hdoc Htitle Howner Hownername Hplugins.
    unfold MarketplaceValidator.validate, MarketplaceValidator.validate_body, returned.
    rewrite Hex, Hdoc. cbn [negb].
    unfold MarketplaceValidator.validate_document, MarketplaceValidator.check_required_fields,
      MarketplaceValidator.check_owner, MarketplaceValidator.check_plugins,
      for_each, for_enumerate, bind, eval, ret,
      pass, add_error, update, py_contains, py_getitem, isinstance_dict.
    rewrite (dict_has_lookup _ _ _ Htitle), (dict_has_lookup _ _ _ Howner),
      (dict_has_lookup _ _ _ Hplugins), Howner, Hplugins, Hownername.
    cbv beta iota zeta delta
      [negb bind eval ret pass update add_error isinstance_dict
       MarketplaceValidator.validate_entries].
    rewrite Hentry. cbn [existsb]. eexists. split; [reflexivity|]. repeat split.
  - intros msg lineno text Hbad.
    unfold PluginJsonValidator.validate, PluginJsonValidator.validate_body, returned,
      PluginJsonValidator.plugin_json_path.
    fold plugin_json_path. rewrite Hpj, Hbad. cbn [negb].
    eexists. split; [reflexivity|]. split; reflexivity.
Qed.

Lemma C10_unreadable_manifest_witness :
  (exists r',
     MarketplaceValidator.validate broken_alpha_world ["repo"] = Ok r' /\
     status r' = Warning /\ errors r' = [] /\ codes (warnings r') = ["plugin_json_read"]) /\
  (exists r',
     PluginJsonValidator.validate broken_alpha_world ["repo"; "plugins"; "alpha"] = Ok r' /\
     status r' = Failed /\ codes (errors r') = ["json_syntax"]).
Proof.
  destruct (C10_unreadable_manifest broken_alpha_world ["repo"] alpha_entry (JStr "alpha")
              "./plugins/alpha" 0 [] (new_result Passed) decode_error
              eq_refl eq_refl eq_refl eq_refl eq_refl (or_introl eq_refl))
    as (_ & Hregistry & Hdirect).
  split.
  - exact (Hregistry _ [("name", JStr "Jane")] (JStr "market")
             eq_refl eq_refl eq_refl eq_refl eq_refl eq_refl).
  - exact (Hdirect "Expecting value" 3%Z "Expecting value: line 3 column 1 (char 4)"
             eq_refl).
Defined.

(** ** The registry validator: duplicate names *)

Lemma count_code_app c l1 l2 : count_code c (l1 ++ l2) = count_code c l1 + count_code c l2.
Proof. unfold count_code. rewrite List.filter_app, length_app. reflexivity. Qed.

Lemma same_count_refl c r : same_count c r r.
Proof. reflexivity. Qed.

Lemma same_count_trans c r1 r2 r3 :
  same_count c r1 r2 -> same_count c r2 r3 -> same_count c r1 r3.
Proof. unfold same_count. congruence. Qed.

Lemma same_count_error c c' m f l r :
  String.eqb c' c = false -> same_count c r (Result.add_error c' m f l r).
Proof.
  intros H. unfold same_count. cbn [errors Result.add_error].
  rewrite count_code_app. unfold count_code at 2. cbn [List.filter check].
  rewrite H. cbn. lia.
Qed.

Lemma same_count_warning c c' m f l r : same_count c r (Result.add_warning c' m f l r).
Proof. reflexivity. Qed.

Lemma same_count_info c c' m f r : same_count c r (Result.add_info c' m f r).
Proof. reflexivity. Qed.


Ltac same_count_tac c :=
  respects_with (same_count_refl c) (same_count_trans c)
    ltac:(first [apply same_count_error; reflexivity
                | apply same_count_warning | apply same_count_info]).











Lemma seen_after_app seen l1 l2 :
  seen_after seen (l1 ++ l2) = seen_after (seen_after seen l1) l2.
Proof. revert seen. induction l1 as [|n l1 IH]; intros seen; [reflexivity|apply IH]. Qed.










(** ** The JSON report *)

Lemma dict_lookup_map {A B} (f : A -> B) name (d : list (string * A)) :
  dict_lookup name (map (fun kv => (fst kv, f (snd kv))) d) =
    option_map f (dict_lookup name d).
Proof.
  induction d as [|[k v] d IH]; [reflexivity|].
  cbn [map dict_lookup fst snd]. destruct (String.eqb name k); [reflexivity|exact IH].
Qed.

Lemma result_dict_exposes r : exposes_errors_and_warnings (_result_to_dict r) r.
Proof. repeat split. Qed.

Lemma count_warning_or_failed results :
  count_status (fun s => existsb (Status_eqb s) [Warning; Failed]) results =
    count_status (Status_eqb Warning) results + count_status (Status_eqb Failed) results.
Proof.
  unfold count_status.
  set (p := fun kv : string * ValidationResult =>
              existsb (Status_eqb (status (snd kv))) [Warning; Failed]).
  set (w := fun kv : string * ValidationResult => Status_eqb Warning (status (snd kv))).
  set (f := fun kv : string * ValidationResult => Status_eqb Failed (status (snd kv))).
  induction results as [|[k r] results IH]; [reflexivity|].
  cbn [List.filter]. unfold p at 1, w at 1, f at 1. cbn [snd].
  destruct (status r); cbn [existsb Status_eqb orb length]; lia.
Qed.

Lemma count_all_statuses results :
  count_status (Status_eqb Passed) results + count_status (Status_eqb Warning) results
  + count_status (Status_eqb Failed) results = length results.
Proof.
  unfold count_status.
  set (p := fun kv : string * ValidationResult => Status_eqb Passed (status (snd kv))).
  set (w := fun kv : string * ValidationResult => Status_eqb Warning (status (snd kv))).
  set (f := fun kv : string * ValidationResult => Status_eqb Failed (status (snd kv))).
  induction results as [|[k r] results IH]; [reflexivity|].
  cbn [List.filter]. unfold p at 1, w at 1, f at 1. cbn [snd].
  destruct (status r); cbn [Status_eqb length]; lia.
Qed.

(** C9, as amended.  The JSON report holds, for the root manifest, the
    registry, every plugin and every skill, the status of the subject with
    its errors and its warnings.  Its summary counts the plugins, and
    among them those that passed, those with warnings and those that
    failed; it counts the skills, those that passed, and under
    [skills_failed] those that did not pass, with warnings or failed
    alike. *)
Theorem C9_json_report root_result marketplace_result plugin_results skill_results :
  let doc := json_report root_result marketplace_result plugin_results skill_results in
  let passed := count_status (Status_eqb Passed) in
  let warned := count_status (Status_eqb Warning) in
  let failed := count_status (Status_eqb Failed) in
  (forall r, root_result = Some r ->
     exists d, py_getitem doc "root_plugin" = Ok d /\ exposes_errors_and_warnings d r) /\
  (forall r, marketplace_result = Some r ->
     exists d, py_getitem doc "marketplace" = Ok d /\ exposes_errors_and_warnings d r) /\
  (forall name r, dict_lookup name plugin_results = Some r ->
     exists d, py_getitem2 doc "plugins" name = Ok d /\ exposes_errors_and_warnings d r) /\
  (forall name r, dict_lookup name skill_results = Some r ->
     exists d, py_getitem2 doc "skills" name = Ok d /\ exposes_errors_and_warnings d r) /\
  py_getitem2 doc "summary" "total_plugins" = Ok (JNat (length plugin_results)) /\
  py_getitem2 doc "summary" "plugins_passed" = Ok (JNat (passed plugin_results)) /\
  py_getitem2 doc "summary" "plugins_warnings" = Ok (JNat (warned plugin_results)) /\
  py_getitem2 doc "summary" "plugins_failed" = Ok (JNat (failed plugin_results)) /\
  py_getitem2 doc "summary" "total_skills" = Ok (JNat (length skill_results)) /\
  py_getitem2 doc "summary" "skills_passed" = Ok (JNat (passed skill_results)) /\
  py_getitem2 doc "summary" "skills_failed" =
    Ok (JNat (warned skill_results + failed skill_results)) /\
  passed skill_results + (warned skill_results + failed skill_results) =
    length skill_results.
Proof.
  intros doc passed warned failed.
  split; [|split; [|split; [|split]]].
  - intros r ->. exists (_result_to_dict r). split; [reflexivity|apply result_dict_exposes].
  - intros r ->. exists (_result_to_dict r). split; [reflexivity|apply result_dict_exposes].
  - intros name r Hr. exists (_result_to_dict r). split; [|apply result_dict_exposes].
    unfold py_getitem2, doc, json_report. cbn [py_getitem dict_lookup String.eqb Ascii.eqb
      Bool.eqb].
    rewrite dict_lookup_map, Hr. reflexivity.
  - intros name r Hr. exists (_result_to_dict r). split; [|apply result_dict_exposes].
    unfold py_getitem2, doc, json_report. cbn [py_getitem dict_lookup String.eqb Ascii.eqb
      Bool.eqb].
    rewrite dict_lookup_map, Hr. reflexivity.
  - repeat split.
    + unfold py_getitem2, doc, json_report. cbn [py_getitem dict_lookup String.eqb Ascii.eqb
        Bool.eqb].
      rewrite count_warning_or_failed. reflexivity.
    + pose proof (count_all_statuses skill_results) as H.
      unfold passed, warned, failed. lia.
Qed.

Lemma C9_json_report_witness :
  exists d,
    py_getitem2 (json_report None None [("demo", author_result)] [("demo/lint", warned_result)])
      "plugins" "demo" = Ok d /\
    exposes_errors_and_warnings d author_result.
Proof.
  exact (proj1 (proj2 (proj2 (C9_json_report None None [("demo", author_result)]
                                [("demo/lint", warned_result)])))
           "demo" author_result eq_refl).
Defined.

(** The report of a plugin whose author is a string and a skill that
    drew a warning is not as the specification describes it: the summary
    counts the skill under [skills_failed] although no skill failed. *)
Lemma C9_report_as_specified_fails :
  ~ report_as_specified None None [("demo", author_result)] [("demo/lint", warned_result)].
Proof.
  intros (_ & _ & _ & _ & _ & _ & _ & _ & _ & Hfailed).
  vm_compute in Hfailed. discriminate.
Qed.

(** ** The manifest validator: the version pattern *)

Lemma version_pattern_examples :
  map (SEMVER_PATTERN_match empty_world) ["1.2.3"; "1.2.3-beta.1"; "١.٢.٣"] =
    [true; true; true] /\
  map (SEMVER_PATTERN_match empty_world) ["1.2"; "v1.2.3"; "1.2.3-٣"] =
    [false; false; false].
Proof. split; vm_compute; reflexivity. Qed.

(** ** The manifest validator: path fields *)

(** What the loop body of [_validate_paths] adds for one string value:
    an error when the value starts with [/], a warning when it does not
    start with [./], and an error when the value without its leading dots
    and slashes does not exist under the plugin root. *)
Lemma check_path_outcome W plugin_path field s r found :
  fs_exists W (joinpath plugin_path (lstrip s "./")) = Ok found ->
  exists r',
    PluginJsonValidator.check_path W plugin_path field (JStr s) r = (Ok tt, r') /\
    codes (errors r') =
      codes (errors r)
      ++ (if startswith s "/" then [field +:+ "_absolute"] else [])
      ++ (if found then [] else [field +:+ "_exists"]) /\
    codes (warnings r') =
      codes (warnings r) ++ (if startswith s "./" then [] else [field +:+ "_prefix"]) /\
    info r' = info r.
Proof.
  intros Hfound. unfold PluginJsonValidator.check_path. run_m. rewrite Hfound.
  destruct (startswith s "/"), (startswith s "./"), found;
    (eexists; split; [reflexivity|]);
    cbn [errors warnings info Result.add_error Result.add_warning];
    rewrite ?codes_app, <- ?app_assoc, ?app_nil_r; cbn [codes map check app];
    auto.
Qed.

(** C5, on the code.  In a plugin that holds [hidden] and no [.hidden],
    the value [./.hidden] without its leading [./] names a path that does
    not exist under the plugin root; the code strips the dot of the name
    as well, finds [hidden], and adds no issue at all, neither in
    [_validate_paths] nor in the result of validating the manifest. *)
Theorem C5_leading_dots_are_stripped :
  without_dot_slash "./.hidden" = ".hidden" /\
  fs_exists hidden_world (joinpath demo_path (without_dot_slash "./.hidden")) = Ok false /\
  lstrip "./.hidden" "./" = "hidden" /\
  fs_exists hidden_world (joinpath demo_path (lstrip "./.hidden" "./")) = Ok true /\
  PluginJsonValidator._validate_paths hidden_world demo_path "commands" (JStr "./.hidden")
    (new_result Passed) = (Ok tt, new_result Passed) /\
  PluginJsonValidator.validate hidden_world demo_path = Ok (new_result Passed).
Proof. repeat split. Qed.

(** ** The manifest validator: the name *)

(** A name that is not a string gives the error [name_type]. *)
Lemma name_check_non_string plugin_path name r :
  isinstance_str name = false ->
  exists r',
    PluginJsonValidator._validate_name plugin_path name r = (Ok tt, r') /\
    codes (errors r') = codes (errors r) ++ ["name_type"] /\
    warnings r' = warnings r /\ info r' = info r.
Proof.
  intros H. destruct name; try discriminate;
    (eexists; split; [reflexivity|]);
    cbn [errors warnings info Result.add_error]; rewrite codes_app; auto.
Qed.

(** A string name gives the error [name_format] exactly when the pattern
    does not match it, and nothing else. *)
Lemma name_check_string plugin_path s r :
  exists r',
    PluginJsonValidator._validate_name plugin_path (JStr s) r = (Ok tt, r') /\
    codes (errors r') =
      codes (errors r) ++ (if PLUGIN_NAME_PATTERN_match s then [] else ["name_format"]) /\
    warnings r' = warnings r /\ info r' = info r.
Proof.
  unfold PluginJsonValidator._validate_name.
  destruct (PLUGIN_NAME_PATTERN_match s); cbn [negb];
    (eexists; split; [reflexivity|]);
    cbn [errors warnings info Result.add_error]; rewrite ?codes_app, ?app_nil_r; auto.
Qed.

(** *** The pattern and the format of the specification *)

Lemma fullmatch_Void s : fullmatch Void s = false.
Proof. induction s as [|c s IH]; [reflexivity|exact IH]. Qed.

Lemma fullmatch_Alt r1 r2 s :
  fullmatch (Alt r1 r2) s = fullmatch r1 s || fullmatch r2 s.
Proof. revert r1 r2. induction s as [|c s IH]; intros r1 r2; [reflexivity|apply IH]. Qed.

Lemma fullmatch_Cat_Void r s : fullmatch (Cat Void r) s = false.
Proof. induction s as [|c s IH]; [reflexivity|exact IH]. Qed.

Lemma fullmatch_Cat_Eps r s : fullmatch (Cat Eps r) s = fullmatch r s.
Proof.
  destruct s as [|c s]; [reflexivity|].
  cbn [fullmatch deriv nullable]. rewrite fullmatch_Alt.
  rewrite fullmatch_Cat_Void. reflexivity.
Qed.

Lemma fullmatch_Cat_Alt a b r s :
  fullmatch (Cat (Alt a b) r) s = fullmatch (Cat a r) s || fullmatch (Cat b r) s.
Proof.
  revert a b r. induction s as [|c s IH]; intros a b r.
  - cbn. destruct (nullable a), (nullable b), (nullable r); reflexivity.
  - cbn [fullmatch deriv nullable].
    destruct (nullable a), (nullable b); cbn [orb];
      rewrite ?fullmatch_Alt, ?IH;
      destruct (fullmatch (Cat (deriv c a) r) s), (fullmatch (Cat (deriv c b) r) s),
        (fullmatch (deriv c r) s); reflexivity.
Qed.

Lemma fullmatch_Cat_assoc a b r s :
  fullmatch (Cat (Cat a b) r) s = fullmatch (Cat a (Cat b r)) s.
Proof.
  revert a b r. induction s as [|c s IH]; intros a b r.
  - cbn. apply eq_sym, andb_assoc.
  - cbn [fullmatch deriv nullable].
    destruct (nullable a), (nullable b); cbn [andb];
      rewrite ?fullmatch_Alt, ?fullmatch_Cat_Alt, ?IH, ?fullmatch_Alt, ?orb_assoc;
      reflexivity.
Qed.

Lemma lower_is_lower_digit c : lower c = true -> lower_digit c = true.
Proof. unfold lower_digit. intros ->. reflexivity. Qed.

Lemma hyphen_not_lower_digit c : Ascii.eqb c "-" = true -> lower_digit c = false.
Proof. intros H. apply Ascii.eqb_eq in H. subst c. reflexivity. Qed.

(** The two states of the pattern after the first letter: inside a
    segment, and right after a hyphen. *)
Lemma pattern_states s :
  let segments := Star (Cat (chr "-") (Plus (Cls lower_digit))) in
  let inside := Cat (Star (Cls lower_digit)) segments in
  fullmatch inside s = kebab_tail true s /\
  fullmatch (Cat (Cls lower_digit) inside) s = kebab_tail false s.
Proof.
  intros segments inside. induction s as [|c s [IH1 IH2]]; [split; reflexivity|].
  assert (Hafter : fullmatch (Cat (Cls lower_digit) inside) (String c s) =
                   lower_digit c && kebab_tail true s).
  { cbn [fullmatch deriv nullable]. destruct (lower_digit c).
    - rewrite fullmatch_Cat_Eps. exact IH1.
    - apply fullmatch_Cat_Void. }
  assert (Hseg : fullmatch segments (String c s) = Ascii.eqb c "-" && kebab_tail false s).
  { unfold segments at 1. cbn [fullmatch deriv nullable chr Plus].
    rewrite Ascii.eqb_sym. destruct (Ascii.eqb c "-"); fold segments.
    - rewrite fullmatch_Cat_assoc, fullmatch_Cat_Eps. unfold Plus.
      rewrite fullmatch_Cat_assoc. exact IH2.
    - rewrite fullmatch_Cat_assoc. apply fullmatch_Cat_Void. }
  split; [|rewrite Hafter; cbn [kebab_tail]; destruct (lower_digit c) eqn:E;
           [reflexivity|destruct (Ascii.eqb c "-"); reflexivity]].
  unfold inside at 1. cbn [fullmatch deriv nullable]. fold segments.
  rewrite fullmatch_Alt. change (fullmatch (deriv c segments) s)
    with (fullmatch segments (String c s)). rewrite Hseg.
  cbn [kebab_tail]. destruct (lower_digit c) eqn:E.
  - rewrite fullmatch_Cat_assoc, fullmatch_Cat_Eps. fold inside. rewrite IH1.
    destruct (Ascii.eqb c "-") eqn:Eh; [|apply orb_false_r].
    rewrite (hyphen_not_lower_digit c Eh) in E. discriminate.
  - rewrite fullmatch_Cat_assoc, fullmatch_Cat_Void. reflexivity.
Qed.

Lemma split_on_cons c s : exists w ws, split_on c s = w :: ws.
Proof.
  destruct s as [|a s]; cbn [split_on]; [eauto|].
  destruct (Ascii.eqb a c); [eauto|]. destruct (split_on c s); eauto.
Qed.

(** Reading segment by segment and reading character by character give
    the same verdict. *)
Lemma kebab_tail_segments started s :
  kebab_tail started s =
    match split_on "-" s with
    | w :: ws =>
        (started || negb (String.eqb w "")) && all_chars lower_digit w
        && forallb (fun segment =>
                      negb (String.eqb segment "") && all_chars lower_digit segment) ws
    | [] => false
    end.
Proof.
  revert started. induction s as [|c s IH]; intros started.
  - cbn. destruct started; reflexivity.
  - destruct (split_on_cons "-" s) as (w & ws & Hs).
    cbn [kebab_tail split_on]. rewrite Hs in *.
    destruct (Ascii.eqb c "-") eqn:Eh.
    + rewrite (hyphen_not_lower_digit c Eh), (IH false).
      cbn. destruct started; reflexivity.
    + destruct (lower_digit c) eqn:E.
      * rewrite (IH true). cbn. rewrite E. destruct started; reflexivity.
      * cbn. rewrite E. destruct started; reflexivity.
Qed.

(** The regular expression of the pattern matches a whole string exactly
    when the string has the format the specification describes. *)
Lemma pattern_is_kebab_case s : fullmatch PLUGIN_NAME_REGEX s = kebab_case s.
Proof.
  destruct s as [|c s]; [reflexivity|].
  unfold PLUGIN_NAME_REGEX, kebab_case. cbn [fullmatch deriv nullable].
  destruct (lower c) eqn:E.
  - rewrite fullmatch_Cat_Eps, (proj1 (pattern_states s)).
    pose proof (kebab_tail_segments false (String c s)) as H.
    cbn [kebab_tail] in H. rewrite (lower_is_lower_digit c E) in H. rewrite H.
    destruct (split_on_cons "-" (String c s)) as (w & ws & ->). reflexivity.
  - apply fullmatch_Cat_Void.
Qed.

(** The name check accepts the names of that format and, besides them,
    the names of that format followed by one newline. *)
Lemma name_pattern_accepts s :
  PLUGIN_NAME_PATTERN_match s =
    kebab_case s ||
    match str_unsnoc s with
    | Some (init, c) => Ascii.eqb c "010"%char && kebab_case init
    | None => false
    end.
Proof.
  unfold PLUGIN_NAME_PATTERN_match, re_match_anchored.
  rewrite pattern_is_kebab_case. destruct (str_unsnoc s) as [[init c]|]; [|reflexivity].
  rewrite pattern_is_kebab_case. reflexivity.
Qed.

(** The names the specification lists. *)
Lemma name_check_examples :
  map PLUGIN_NAME_PATTERN_match ["my-plugin"; "my-plugin2"] = [true; true] /\
  map PLUGIN_NAME_PATTERN_match ["MyPlugin"; "My-Plugin"; "my_plugin"; "-lead"] =
    [false; false; false; false].
Proof. split; reflexivity. Qed.

(** C6, on the code.  The name check accepts the names of the format the
    specification describes and, besides them, those names followed by
    one newline, since [$] also matches before a newline that ends the
    string.  So the name [my-plugin] followed by a newline, which is not
    of that format, is matched by the pattern, and the name check adds no
    issue for it. *)
Theorem C6_trailing_newline_accepted :
  (forall s,
     PLUGIN_NAME_PATTERN_match s =
       kebab_case s ||
       match str_unsnoc s with
       | Some (init, c) => Ascii.eqb c "010"%char && kebab_case init
       | None => false
       end) /\
  kebab_case ("my-plugin" +:+ nl) = false /\
  PLUGIN_NAME_PATTERN_match ("my-plugin" +:+ nl) = true /\
  (forall plugin_path r,
     PluginJsonValidator._validate_name plugin_path (JStr ("my-plugin" +:+ nl)) r =
       (Ok tt, r)).
Proof.
  split; [exact name_pattern_accepts|].
  split; [reflexivity|]. split; [reflexivity|].
  intros plugin_path r. reflexivity.
Qed.

(** ** The exit status *)

Lemma dict_set_elem {A} k (v : A) d : (k, v) ∈ dict_set k v d.
Proof.
  induction d as [|[k' v'] d IH]; cbn [dict_set]; [left|].
  destruct (String.eqb k k'); [left|right; exact IH].
Qed.

Lemma dict_set_elem_other {A} k (v : A) d k' v' :
  k' <> k -> (k', v') ∈ d -> (k', v') ∈ dict_set k v d.
Proof.
  intros Hne. induction d as [|[k0 v0] d IH]; cbn [dict_set]; intros Hin.
  - inversion Hin.
  - destruct (String.eqb k k0) eqn:E.
    + apply String.eqb_eq in E. subst k0.
      apply elem_of_cons in Hin as [[= -> ->]|Hin]; [contradiction|right; exact Hin].
    + apply elem_of_cons in Hin as [->|Hin]; [left|right; apply IH, Hin].
Qed.

Lemma dict_set_elem_inv {A} k (v : A) d k' v' :
  (k', v') ∈ dict_set k v d -> (k' = k /\ v' = v) \/ (k', v') ∈ d.
Proof.
  induction d as [|[k0 v0] d IH]; cbn [dict_set]; intros Hin.
  - apply list_elem_of_singleton in Hin as [= -> ->]. left. auto.
  - destruct (String.eqb k k0).
    + apply elem_of_cons in Hin as [[= -> ->]|Hin]; [left; auto|right; right; exact Hin].
    + apply elem_of_cons in Hin as [->|Hin]; [right; left|].
      destruct (IH Hin) as [?|?]; [left; assumption|right; right; assumption].
Qed.

Lemma append_cancel a x y : a +:+ x = a +:+ y -> x = y.
Proof. induction a as [|c a IH]; cbn; [auto|intros [= H]; auto]. Qed.

Lemma skill_key_same_plugin pn s1 s2 :
  skill_key pn s1 = skill_key pn s2 -> path_name s1 = path_name s2.
Proof. unfold skill_key. intros H. apply append_cancel in H. injection H. auto. Qed.

(** Keys built on plugin names without a separator tell the plugins
    apart. *)
Lemma skill_key_plugin a b s1 s2 :
  no_slash a -> no_slash b -> skill_key a s1 = skill_key b s2 -> a = b.
Proof.
  unfold skill_key, no_slash. generalize (path_name s1) (path_name s2). intros x y.
  revert b. induction a as [|c a IH]; intros [|d b]; cbn [char_in String.append].
  - reflexivity.
  - intros _ Hb [= <- _]. cbn in Hb. discriminate.
  - intros Ha _ [= -> _]. cbn in Ha. discriminate.
  - intros Ha Hb [= -> H]. apply orb_false_iff in Ha as [_ Ha].
    apply orb_false_iff in Hb as [_ Hb]. f_equal. exact (IH b Ha Hb H).
Qed.

Section collecting.
Context (W : World).

Lemma validate_skills_provenance pn skills : forall sr sr',
  validate_skills W pn skills sr = Ok sr' ->
  forall k r, (k, r) ∈ sr' ->
    (k, r) ∈ sr \/ exists s, s ∈ skills /\ SkillsValidator.validate_skill W s = Ok r.
Proof.
  induction skills as [|s skills IH]; intros sr sr'; cbn [validate_skills].
  - intros [= <-] k r Hin. left. exact Hin.
  - unfold rbind at 1.
    destruct (SkillsValidator.validate_skill W s) as [r0|e] eqn:Hs; [|discriminate].
    intros Hrest k r Hin.
    destruct (IH _ _ Hrest k r Hin) as [Hold|(s' & Hs' & Hr)].
    + apply dict_set_elem_inv in Hold as [[_ ->]|Hold]; [|left; exact Hold].
      right. exists s. split; [left|exact Hs].
    + right. exists s'. split; [right; exact Hs'|exact Hr].
Qed.

Lemma validate_skills_preserves pn skills : forall sr sr',
  validate_skills W pn skills sr = Ok sr' ->
  forall k r, (k, r) ∈ sr -> (forall s, s ∈ skills -> skill_key pn s <> k) ->
    (k, r) ∈ sr'.
Proof.
  induction skills as [|s skills IH]; intros sr sr'; cbn [validate_skills].
  - intros [= <-] k r Hin _. exact Hin.
  - unfold rbind at 1.
    destruct (SkillsValidator.validate_skill W s) as [r0|e] eqn:Hs; [|discriminate].
    intros Hrest k r Hin Hkeys.
    apply (IH _ _ Hrest).
    + apply dict_set_elem_other; [|exact Hin].
      intros ->. apply (Hkeys s); [left|reflexivity].
    + intros s' Hs'. apply Hkeys. right. exact Hs'.
Qed.

Lemma validate_skills_presence pn skills : forall sr sr',
  validate_skills W pn skills sr = Ok sr' ->
  NoDup (map path_name skills) ->
  forall s, s ∈ skills ->
    exists r, SkillsValidator.validate_skill W s = Ok r /\ (skill_key pn s, r) ∈ sr'.
Proof.
  induction skills as [|s skills IH]; intros sr sr'; cbn [validate_skills map].
  - intros _ _ s Hs. inversion Hs.
  - unfold rbind at 1.
    destruct (SkillsValidator.validate_skill W s) as [r0|e] eqn:Hs; [|discriminate].
    intros Hrest Hnd s' Hs'. apply NoDup_cons in Hnd as [Hfresh Hnd].
    apply elem_of_cons in Hs' as [->|Hs']; [|exact (IH _ _ Hrest Hnd s' Hs')].
    exists r0. split; [exact Hs|].
    apply (validate_skills_preserves _ _ _ _ Hrest); [apply dict_set_elem|].
    intros s2 Hs2 Heq. apply Hfresh.
    rewrite <- (skill_key_same_plugin _ _ _ Heq).
    apply list_elem_of_fmap. exists s2. auto.
Qed.
End collecting.

Section collecting_plugins.
Context (W : World) (skip_skills : bool).

(** One round of the loop over the plugins. *)
Lemma validate_plugins_step p rest pr sr out :
  validate_plugins W skip_skills (p :: rest) pr sr = Ok out ->
  exists r sr1,
    PluginJsonValidator.validate W p = Ok r /\
    ((skip_skills = true /\ sr1 = sr) \/
     (skip_skills = false /\
      exists skills,
        SkillsValidator.discover_skills W p = Ok skills /\
        validate_skills W (path_name p) skills sr = Ok sr1)) /\
    validate_plugins W skip_skills rest (dict_set (path_name p) r pr) sr1 = Ok out.
Proof.
  cbn [validate_plugins]. unfold rbind at 1.
  destruct (PluginJsonValidator.validate W p) as [r|e]; [|discriminate].
  unfold rbind at 1. destruct skip_skills; cbn [negb].
  - intros H. exists r, sr. split; [reflexivity|]. split; [left; auto|exact H].
  - unfold rbind at 1.
    destruct (SkillsValidator.discover_skills W p) as [skills|e]; [|discriminate].
    destruct (validate_skills W (path_name p) skills sr) as [sr1|e] eqn:Hs; [|discriminate].
    intros H. exists r, sr1. split; [reflexivity|]. split; [|exact H].
    right. split; [reflexivity|]. exists skills. auto.
Qed.

(** Every collected result was returned by a validator. *)
Lemma validate_plugins_provenance plugins : forall pr sr pr' sr',
  validate_plugins W skip_skills plugins pr sr = Ok (pr', sr') ->
  (forall k r, (k, r) ∈ pr' ->
     (k, r) ∈ pr \/ exists p, p ∈ plugins /\ PluginJsonValidator.validate W p = Ok r) /\
  (forall k r, (k, r) ∈ sr' ->
     (k, r) ∈ sr \/
     (skip_skills = false /\
      exists p skills s,
        p ∈ plugins /\ SkillsValidator.discover_skills W p = Ok skills /\
        s ∈ skills /\ SkillsValidator.validate_skill W s = Ok r)).
Proof.
  induction plugins as [|p plugins IH]; intros pr sr pr' sr' H.
  - injection H as <- <-. split; intros k r Hin; left; exact Hin.
  - apply validate_plugins_step in H as (r0 & sr1 & Hp & Hskills & Hrest).
    destruct (IH _ _ _ _ Hrest) as [IHp IHs]. split; intros k r Hin.
    + destruct (IHp k r Hin) as [Hold|(p' & Hp' & Hr)].
      * apply dict_set_elem_inv in Hold as [[_ ->]|Hold]; [|left; exact Hold].
        right. exists p. split; [left|exact Hp].
      * right. exists p'. split; [right; exact Hp'|exact Hr].
    + destruct (IHs k r Hin) as [Hold|(Hskip & p' & skills & s & Hp' & Hd & Hs & Hr)].
      * destruct Hskills as [[_ ->]|(Hskip & skills & Hd & Hv)]; [left; exact Hold|].
        destruct (validate_skills_provenance W _ _ _ _ Hv k r Hold) as [?|(s & Hs & Hr)];
          [left; assumption|].
        right. split; [exact Hskip|]. exists p, skills, s.
        split; [left|]. auto.
      * right. split; [exact Hskip|]. exists p', skills, s.
        split; [right; exact Hp'|]. auto.
Qed.

Lemma validate_plugins_preserves plugins : forall pr sr pr' sr',
  validate_plugins W skip_skills plugins pr sr = Ok (pr', sr') ->
  (forall k r, (k, r) ∈ pr -> (forall p, p ∈ plugins -> path_name p <> k) ->
     (k, r) ∈ pr') /\
  (forall k r, (k, r) ∈ sr ->
     (forall p skills s,
        p ∈ plugins -> SkillsValidator.discover_skills W p = Ok skills -> s ∈ skills ->
        skill_key (path_name p) s <> k) ->
     (k, r) ∈ sr').
Proof.
  induction plugins as [|p plugins IH]; intros pr sr pr' sr' H.
  - injection H as <- <-. split; intros k r Hin _; exact Hin.
  - apply validate_plugins_step in H as (r0 & sr1 & Hp & Hskills & Hrest).
    destruct (IH _ _ _ _ Hrest) as [IHp IHs]. split; intros k r Hin Hkeys.
    + apply IHp.
      * apply dict_set_elem_other; [|exact Hin].
        intros ->. apply (Hkeys p); [left|reflexivity].
      * intros p' Hp'. apply Hkeys. right. exact Hp'.
    + apply IHs.
      * destruct Hskills as [[_ ->]|(_ & skills & Hd & Hv)]; [exact Hin|].
        apply (validate_skills_preserves W _ _ _ _ Hv _ _ Hin).
        intros s Hs. apply (Hkeys p skills s); [left|exact Hd|exact Hs].
      * intros p' skills s Hp'. apply Hkeys. right. exact Hp'.
Qed.

(** With distinct keys every result a validator returned is collected. *)
Lemma validate_plugins_presence plugins : forall pr sr pr' sr',
  validate_plugins W skip_skills plugins pr sr = Ok (pr', sr') ->
  NoDup (map path_name plugins) ->
  (forall p, p ∈ plugins ->
     exists r, PluginJsonValidator.validate W p = Ok r /\ (path_name p, r) ∈ pr') /\
  (skip_skills = false -> skill_keys_distinct W plugins ->
   forall p skills s,
     p ∈ plugins -> SkillsValidator.discover_skills W p = Ok skills -> s ∈ skills ->
     exists r, SkillsValidator.validate_skill W s = Ok r /\
               (skill_key (path_name p) s, r) ∈ sr').
Proof.
  induction plugins as [|p plugins IH]; intros pr sr pr' sr' H Hnd.
  - split; [intros p Hp; inversion Hp|intros _ _ p skills s Hp; inversion Hp].
  - cbn [map] in Hnd. apply NoDup_cons in Hnd as [Hfresh Hnd].
    apply validate_plugins_step in H as (r0 & sr1 & Hp & Hskills & Hrest).
    destruct (IH _ _ _ _ Hrest Hnd) as [IHp IHs].
    destruct (validate_plugins_preserves _ _ _ _ _ Hrest) as [Keep_p Keep_s].
    assert (Hother : forall p', p' ∈ plugins -> path_name p' <> path_name p).
    { intros p' Hp' Heq. apply Hfresh. rewrite <- Heq.
      apply list_elem_of_fmap. exists p'. auto. }
    split.
    + intros p' Hp'. apply elem_of_cons in Hp' as [->|Hp']; [|exact (IHp p' Hp')].
      exists r0. split; [exact Hp|].
      apply Keep_p; [apply dict_set_elem|exact Hother].
    + intros Hskip [Hskills_nd Hapart] p' skills s Hp' Hd Hs.
      apply elem_of_cons in Hp' as [->|Hp'].
      * destruct Hskills as [[Habs _]|(_ & skills' & Hd' & Hv)]; [congruence|].
        rewrite Hd in Hd'. injection Hd' as <-.
        destruct (validate_skills_presence W _ _ _ _ Hv
                    (Hskills_nd p skills ltac:(left) Hd) s Hs) as (r & Hr & Hin).
        exists r. split; [exact Hr|].
        apply Keep_s; [exact Hin|].
        intros p2 skills2 s2 Hp2 _ _ Heq.
        apply (Hother p2 Hp2).
        apply (Hapart p2 p s2 s); [right; exact Hp2|left|exact Heq].
      * refine (IHs Hskip _ p' skills s Hp' Hd Hs).
        split.
        -- intros q skills2 Hq. apply (Hskills_nd q skills2). right. exact Hq.
        -- intros p1 p2 s1 s2 H1 H2. apply Hapart; right; assumption.
Qed.
End collecting_plugins.

Lemma no_slash_not_root n : no_slash n -> String.eqb n "/" = false.
Proof.
  intros H. destruct (String.eqb n "/") eqn:E; [|reflexivity].
  apply String.eqb_eq in E. subst n. discriminate.
Qed.

Lemma path_name_child dir n : no_slash n -> path_name (dir ++ [n]) = n.
Proof.
  intros H. unfold path_name. rewrite last_snoc, (no_slash_not_root n H). reflexivity.
Qed.

Lemma children_names (keep : Path -> bool) dir names :
  Forall no_slash names ->
  map path_name (List.filter keep (map (fun n => dir ++ [n]) names)) =
    List.filter (fun n => keep (dir ++ [n])) names.
Proof.
  induction 1 as [|n names Hn _ IH]; [reflexivity|].
  cbn [map List.filter]. destruct (keep (dir ++ [n])); cbn [map]; rewrite IH; [|reflexivity].
  rewrite (path_name_child dir n Hn). reflexivity.
Qed.

Lemma kept_elem {A} (keep : A -> bool) x l : x ∈ List.filter keep l -> x ∈ l.
Proof.
  intros H. apply list_elem_of_In in H. apply filter_In in H as [H _].
  apply list_elem_of_In, H.
Qed.

Lemma kept_NoDup {A} (keep : A -> bool) l : NoDup l -> NoDup (List.filter keep l).
Proof.
  induction 1 as [|x l Hx _ IH]; cbn [List.filter]; [constructor|].
  destruct (keep x); [|exact IH].
  constructor; [|exact IH]. intros Hin. apply Hx. eapply kept_elem, Hin.
Qed.

Lemma kept_Forall {A} (P : A -> Prop) (keep : A -> bool) l :
  Forall P l -> Forall P (List.filter keep l).
Proof.
  induction 1 as [|x l Hx _ IH]; cbn [List.filter]; [constructor|].
  destruct (keep x); [constructor; assumption|exact IH].
Qed.

(** What the two loops over a listing keep. *)
Lemma keep_skills_kept W entries : forall acc skills,
  SkillsValidator.keep_skills W entries acc = Ok skills ->
  skills = acc ++ List.filter (fun d => is_yes (SkillsValidator.is_skill W d)) entries.
Proof.
  induction entries as [|d entries IH]; intros acc skills; cbn [SkillsValidator.keep_skills].
  - intros [= <-]. cbn. rewrite app_nil_r. reflexivity.
  - unfold rbind at 1. cbn [List.filter].
    destruct (SkillsValidator.is_skill W d) as [[]|e]; [| |discriminate]; cbn [is_yes];
      intros H; apply IH in H; [|exact H].
    rewrite <- app_assoc in H. exact H.
Qed.

Lemma keep_dirs_kept W entries : forall kept,
  keep_dirs W entries = Ok kept ->
  kept = List.filter (fun p => is_yes (fs_is_dir W p)) entries.
Proof.
  induction entries as [|p entries IH]; intros kept; cbn [keep_dirs].
  - intros [= <-]. reflexivity.
  - unfold rbind at 1. cbn [List.filter].
    destruct (fs_is_dir W p) as [b|e]; [|discriminate]. unfold rbind at 1.
    destruct (keep_dirs W entries) as [rest|e]; [|discriminate].
    intros [= <-]. rewrite (IH rest eq_refl). destruct b; reflexivity.
Qed.

Lemma discovered_skills_distinct W p skills :
  listing_ok W -> SkillsValidator.discover_skills W p = Ok skills ->
  NoDup (map path_name skills).
Proof.
  intros Hok. unfold SkillsValidator.discover_skills. unfold rbind at 1.
  destruct (fs_exists W (joinpath p "skills")) as [[]|e]; cbn [negb]; [| |discriminate].
  - unfold rbind at 1.
    destruct (fs_iterdir W (joinpath p "skills")) as [names|e] eqn:Hls; [|discriminate].
    intros H. apply keep_skills_kept in H. cbn [app] in H. subst skills.
    destruct (Hok _ _ Hls) as [Hnd Hns].
    rewrite (children_names _ _ _ Hns). apply kept_NoDup, Hnd.
  - intros [= <-]. constructor.
Qed.

Lemma listed_plugins_distinct W plugins :
  listing_ok W -> plugins_to_validate W None = Ok plugins ->
  NoDup (map path_name plugins) /\ Forall no_slash (map path_name plugins).
Proof.
  intros Hok. unfold plugins_to_validate. unfold rbind at 1.
  destruct (fs_exists W (joinpath (marketplace_root W None) "plugins")) as [[]|e];
    [| |discriminate].
  - unfold rbind.
    destruct (fs_iterdir W (joinpath (marketplace_root W None) "plugins"))
      as [names|e] eqn:Hls; [|discriminate].
    intros H. apply keep_dirs_kept in H. subst plugins.
    destruct (Hok _ _ Hls) as [Hnd Hns].
    rewrite (children_names _ _ _ Hns). split; [apply kept_NoDup, Hnd|apply kept_Forall, Hns].
  - intros [= <-]. split; constructor.
Qed.

Lemma plugins_to_validate_distinct W plugin plugins :
  listing_ok W -> plugins_to_validate W plugin = Ok plugins ->
  NoDup (map path_name plugins) /\ skill_keys_distinct W plugins.
Proof.
  intros Hok Hps. unfold skill_keys_distinct.
  assert (Hskills : forall p skills,
            p ∈ plugins -> SkillsValidator.discover_skills W p = Ok skills ->
            NoDup (map path_name skills)).
  { intros p skills _. apply discovered_skills_distinct, Hok. }
  destruct plugin as [p|].
  - injection Hps as <-. split; [apply NoDup_singleton|]. split; [exact Hskills|].
    intros p1 p2 s1 s2 H1 H2 _.
    apply list_elem_of_singleton in H1, H2. subst. reflexivity.
  - destruct (listed_plugins_distinct W plugins Hok Hps) as [Hnd Hns].
    split; [exact Hnd|]. split; [exact Hskills|].
    intros p1 p2 s1 s2 H1 H2. rewrite Forall_forall in Hns.
    apply skill_key_plugin; apply Hns, list_elem_of_fmap; eauto.
Qed.



Lemma guarded_call {A} (test : res bool) (call : res A) (o : option A) :
  rbind test (fun found =>
    if (found : bool) then rbind call (fun r => Ok (Some r)) else Ok None) = Ok o ->
  forall r, o = Some r <-> test = Ok true /\ call = Ok r.
Proof.
  destruct test as [[]|e]; [destruct call as [a|e]; [|discriminate]| |discriminate];
    cbn [rbind]; intros [= <-] r; split.
  - intros [= ->]. auto.
  - intros [_ [= ->]]. reflexivity.
  - discriminate.
  - intros [? _]. discriminate.
Qed.

(** What [collect] gathered, in terms of the calls it made. *)
Lemma collect_inv W plugin skip_skills c :
  collect W plugin skip_skills = Ok c ->
  let root := marketplace_root W plugin in
  (forall r, root_result c = Some r <->
     fs_exists W (joinpath (joinpath root ".claude-plugin") "plugin.json") = Ok true /\
     PluginJsonValidator.validate W root = Ok r) /\
  (forall r, marketplace_result c = Some r <->
     fs_exists W (joinpath (joinpath root ".claude-plugin") "marketplace.json") = Ok true /\
     MarketplaceValidator.validate W root = Ok r) /\
  exists plugins,
    plugins_to_validate W plugin = Ok plugins /\
    validate_plugins W skip_skills plugins [] [] = Ok (plugin_results c, skill_results c).
Proof.
  intros H root. unfold collect in H. fold root in H.
  set (root_test := fs_exists W (joinpath (joinpath root ".claude-plugin") "plugin.json"))
    in *.
  set (registry_test :=
         fs_exists W (joinpath (joinpath root ".claude-plugin") "marketplace.json")) in *.
  destruct (rbind root_test (fun found : bool =>
              if found
              then rbind (PluginJsonValidator.validate W root) (fun r => Ok (Some r))
              else Ok None)) as [o1|e] eqn:E1.
  2: { destruct root_test as [[]|]; cbn [rbind] in E1, H;
       [destruct (PluginJsonValidator.validate W root); cbn [rbind] in E1, H|..];
       discriminate. }
  destruct (rbind registry_test (fun found : bool =>
              if found
              then rbind (MarketplaceValidator.validate W root) (fun r => Ok (Some r))
              else Ok None)) as [o2|e] eqn:E2.
  2: { destruct root_test as [[]|]; cbn [rbind] in E1, H;
       [destruct (PluginJsonValidator.validate W root); cbn [rbind] in E1, H|..];
       try discriminate;
       (destruct registry_test as [[]|]; cbn [rbind] in E2, H;
        [destruct (MarketplaceValidator.validate W root); cbn [rbind] in E2, H|..];
        discriminate). }
  assert (Hrest : rbind (plugins_to_validate W plugin) (fun plugins =>
                    rbind (validate_plugins W skip_skills plugins [] []) (fun results =>
                      Ok {| root_result := o1; marketplace_result := o2;
                            plugin_results := fst results;
                            skill_results := snd results |})) = Ok c).
  { destruct root_test as [[]|]; cbn [rbind] in E1, H;
      [destruct (PluginJsonValidator.validate W root); cbn [rbind] in E1, H|..];
      try discriminate; injection E1 as <-;
      (destruct registry_test as [[]|]; cbn [rbind] in E2, H;
       [destruct (MarketplaceValidator.validate W root); cbn [rbind] in E2, H|..];
       try discriminate; injection E2 as <-; exact H). }
  unfold rbind at 1 in Hrest.
  destruct (plugins_to_validate W plugin) as [plugins|e]; [|discriminate].
  unfold rbind at 1 in Hrest.
  destruct (validate_plugins W skip_skills plugins [] []) as [[pr sr]|e] eqn:Hloop;
    [|discriminate].
  injection Hrest as <-.
  cbn [root_result marketplace_result plugin_results skill_results fst snd].
  split; [exact (guarded_call _ _ _ E1)|].
  split; [exact (guarded_call _ _ _ E2)|].
  exists plugins. split; [reflexivity|exact Hloop].
Qed.




Lemma world_of_listing_ok dirs files run :
  Forall (fun d => NoDup (snd d) /\ Forall no_slash (snd d)) dirs ->
  listing_ok (world_of dirs files run).
Proof.
  intros Hdirs dir names. cbn [fs_iterdir world_of].
  induction Hdirs as [|[q ns] dirs Hq _ IH]; cbn [path_lookup]; [discriminate|].
  destruct (path_eqb dir q); [|exact IH].
  intros [= <-]. exact Hq.
Qed.

Lemma alpha_world_listing_ok : listing_ok alpha_world.
Proof.
  apply world_of_listing_ok.
  repeat (apply Forall_cons; split;
          [split; [apply (bool_decide_unpack _); reflexivity
                  |repeat (apply Forall_cons; split; [reflexivity|]); apply Forall_nil_2]|]).
  apply Forall_nil_2.
Qed.


(** * Further properties *)

(** ** Invariants of the results *)

Lemma extends_refl r : extends r r.
Proof. repeat split; exists []; symmetry; apply app_nil_r. Qed.

Lemma extends_trans a b c : extends a b -> extends b c -> extends a c.
Proof.
  intros ([e1 H1] & [w1 H2] & [i1 H3]) ([e2 H4] & [w2 H5] & [i2 H6]).
  repeat split.
  - exists (e1 ++ e2). rewrite H4, H1, app_assoc. reflexivity.
  - exists (w1 ++ w2). rewrite H5, H2, app_assoc. reflexivity.
  - exists (i1 ++ i2). rewrite H6, H3, app_assoc. reflexivity.
Qed.

Lemma extends_add_error c m f l r : extends r (Result.add_error c m f l r).
Proof. repeat split; cbn; [eexists; reflexivity|exists []..]; symmetry; apply app_nil_r. Qed.

Lemma extends_add_warning c m f l r : extends r (Result.add_warning c m f l r).
Proof.
  split; [exists []; symmetry; apply app_nil_r|].
  split; [eexists; reflexivity|exists []; symmetry; apply app_nil_r].
Qed.

Lemma extends_add_info c m f r : extends r (Result.add_info c m f r).
Proof.
  split; [exists []; symmetry; apply app_nil_r|].
  split; [exists []; symmetry; apply app_nil_r|eexists; reflexivity].
Qed.

Ltac extends_tac :=
  respects_with extends_refl extends_trans
    ltac:(first [apply extends_add_error | apply extends_add_warning
                | apply extends_add_info]).

Ltac unfold_manifest_checks :=
  unfold PluginJsonValidator._validate_name, PluginJsonValidator._validate_version,
    PluginJsonValidator._validate_author, PluginJsonValidator._validate_license,
    PluginJsonValidator._validate_repository, PluginJsonValidator._validate_keywords,
    PluginJsonValidator._validate_paths, PluginJsonValidator.check_path.

Ltac unfold_registry_checks :=
  unfold MarketplaceValidator.validate_document, MarketplaceValidator.check_required_fields,
    MarketplaceValidator.check_owner, MarketplaceValidator.check_plugins,
    MarketplaceValidator._validate_plugin_entry, MarketplaceValidator.check_source,
    MarketplaceValidator.check_consistency.

Lemma manifest_body_extends W p : respects extends (PluginJsonValidator.validate_body W p).
Proof.
  unfold PluginJsonValidator.validate_body, PluginJsonValidator.validate_fields,
    PluginJsonValidator.if_present.
  extends_tac; unfold_manifest_checks; extends_tac;
    unfold PluginJsonValidator.check_path; extends_tac.
Qed.

Lemma registry_entry_extends W root entry index names :
  respects extends (MarketplaceValidator._validate_plugin_entry W root entry index names).
Proof. unfold_registry_checks. extends_tac. Qed.

Lemma registry_entries_extends W root entries : forall index names,
  respects extends (MarketplaceValidator.validate_entries W root index entries names).
Proof.
  induction entries as [|e entries IH]; intros index names; simpl.
  - extends_tac.
  - apply (respects_bind _ extends_trans); [apply registry_entry_extends|intros ?; apply IH].
Qed.

Lemma registry_body_extends W root :
  respects extends (MarketplaceValidator.validate_body W root).
Proof.
  unfold MarketplaceValidator.validate_body.
  unfold MarketplaceValidator.validate_document, MarketplaceValidator.check_required_fields,
    MarketplaceValidator.check_owner, MarketplaceValidator.check_plugins.
  extends_tac; apply registry_entries_extends.
Qed.

Lemma skill_body_extends W skill_path :
  respects extends (SkillsValidator.validate_skill_body W skill_path).
Proof. unfold SkillsValidator.validate_skill_body. extends_tac. Qed.

(** X1. No step of a validator removes or reorders what the result it
    works on already holds: whatever result the body of a validator, or
    the check of one registry entry, or the loop over the entries, is run
    on, the errors, warnings and info of that result are kept in their
    order at the front of the lists it leaves, also when it raises. *)
Theorem X1_issues_are_only_appended :
  (forall W plugin_path r,
     extends r (snd (PluginJsonValidator.validate_body W plugin_path r))) /\
  (forall W root r,
     extends r (snd (MarketplaceValidator.validate_body W root r))) /\
  (forall W root entry index names r,
     extends r (snd (MarketplaceValidator._validate_plugin_entry W root entry index names r))) /\
  (forall W root entries index names r,
     extends r (snd (MarketplaceValidator.validate_entries W root index entries names r))) /\
  (forall W skill_path r,
     extends r (snd (SkillsValidator.validate_skill_body W skill_path r))).
Proof.
  split; [intros W p; apply manifest_body_extends|].
  split; [intros W root; apply registry_body_extends|].
  split; [intros W root entry index names; apply registry_entry_extends|].
  split; [intros W root entries index names; apply registry_entries_extends|].
  intros W skill_path; apply skill_body_extends.
Qed.

Lemma keeps_refl P r : keeps P r r.
Proof. intros H. exact H. Qed.

Lemma keeps_trans P a b c : keeps P a b -> keeps P b c -> keeps P a c.
Proof. unfold keeps. auto. Qed.

Lemma returned_keeps (P : ValidationResult -> Prop) (m : M unit) r :
  P (new_result Passed) -> respects (keeps P) m -> returned m = Ok r -> P r.
Proof.
  intros H0 Hm. unfold returned. specialize (Hm (new_result Passed)).
  destruct (m (new_result Passed)) as [[[]|e] r']; [|discriminate].
  intros [= <-]. exact (Hm H0).
Qed.

(** Proves that a validator keeps [P], given how the three additions do. *)
Ltac keeps_tac P upd := respects_with (keeps_refl P) (keeps_trans P) upd.

Lemma registry_entries_keep P W root :
  (forall entry index names,
     respects (keeps P) (MarketplaceValidator._validate_plugin_entry W root entry index names)) ->
  forall entries index names,
    respects (keeps P) (MarketplaceValidator.validate_entries W root index entries names).
Proof.
  intros Hentry. induction entries as [|e entries IH]; intros index names; simpl.
  - apply (respects_ret _ (keeps_refl P)).
  - apply (respects_bind _ (keeps_trans P)); [apply Hentry|intros ?; apply IH].
Qed.

(** *** Severities *)

Lemma well_tagged_error c m f l r : keeps well_tagged r (Result.add_error c m f l r).
Proof.
  intros (He & Hw & Hi). split; [|split; assumption].
  cbn. apply Forall_app. split; [exact He|repeat constructor].
Qed.

Lemma well_tagged_warning c m f l r : keeps well_tagged r (Result.add_warning c m f l r).
Proof.
  intros (He & Hw & Hi). split; [exact He|]. split; [|exact Hi].
  cbn. apply Forall_app. split; [exact Hw|repeat constructor].
Qed.

Lemma well_tagged_info c m f r : keeps well_tagged r (Result.add_info c m f r).
Proof.
  intros (He & Hw & Hi). split; [exact He|]. split; [exact Hw|].
  cbn. apply Forall_app. split; [exact Hi|repeat constructor].
Qed.

Ltac well_tagged_tac :=
  keeps_tac well_tagged
    ltac:(first [apply well_tagged_error | apply well_tagged_warning
                | apply well_tagged_info]).

Lemma well_tagged_new : well_tagged (new_result Passed).
Proof. repeat split; constructor. Qed.

Lemma manifest_well_tagged W p :
  respects (keeps well_tagged) (PluginJsonValidator.validate_body W p).
Proof.
  unfold PluginJsonValidator.validate_body, PluginJsonValidator.validate_fields,
    PluginJsonValidator.if_present.
  well_tagged_tac; unfold_manifest_checks; well_tagged_tac;
    unfold PluginJsonValidator.check_path; well_tagged_tac.
Qed.

Lemma registry_well_tagged W root :
  respects (keeps well_tagged) (MarketplaceValidator.validate_body W root).
Proof.
  unfold MarketplaceValidator.validate_body.
  unfold MarketplaceValidator.validate_document, MarketplaceValidator.check_required_fields,
    MarketplaceValidator.check_owner, MarketplaceValidator.check_plugins.
  well_tagged_tac; apply registry_entries_keep; intros entry index names;
    unfold_registry_checks; well_tagged_tac.
Qed.

Lemma skill_well_tagged W skill_path :
  respects (keeps well_tagged) (SkillsValidator.validate_skill_body W skill_path).
Proof. unfold SkillsValidator.validate_skill_body. well_tagged_tac. Qed.

(** X2. In every result a validator returns, the issues listed as errors
    have severity error, those listed as warnings severity warning and
    those listed as info severity info. *)
Theorem X2_issues_sit_in_the_list_of_their_severity r :
  produced r -> well_tagged r.
Proof.
  intros [W p r' H|W p r' H|W p r' H];
    (eapply returned_keeps; [apply well_tagged_new| |exact H]).
  - apply manifest_well_tagged.
  - apply registry_well_tagged.
  - apply skill_well_tagged.
Qed.

Lemma jane_result_produced : produced jane_result.
Proof. apply (produced_manifest jane_world demo_path). reflexivity. Qed.

Lemma X2_issues_sit_in_the_list_of_their_severity_witness :
  produced jane_result /\ well_tagged jane_result.
Proof.
  split; [exact jane_result_produced|].
  exact (X2_issues_sit_in_the_list_of_their_severity jane_result jane_result_produced).
Defined.

(** *** Files *)

Lemma attributed_error c m f l r : keeps (attributed f) r (Result.add_error c m f l r).
Proof.
  unfold keeps, attributed, issues. cbn. rewrite !Forall_app.
  intros (He & Hw & Hi). repeat split; try assumption. repeat constructor.
Qed.

Lemma attributed_warning c m f l r : keeps (attributed f) r (Result.add_warning c m f l r).
Proof.
  unfold keeps, attributed, issues. cbn. rewrite !Forall_app.
  intros (He & Hw & Hi). repeat split; try assumption. repeat constructor.
Qed.

Lemma attributed_info c m f r : keeps (attributed f) r (Result.add_info c m f r).
Proof.
  unfold keeps, attributed, issues. cbn. rewrite !Forall_app.
  intros (He & Hw & Hi). repeat split; try assumption. repeat constructor.
Qed.

Ltac attributed_tac f :=
  keeps_tac (attributed f)
    ltac:(first [apply attributed_error | apply attributed_warning | apply attributed_info]).

Lemma attributed_new f : attributed f (new_result Passed).
Proof. constructor. Qed.

Lemma manifest_attributed W p :
  respects (keeps (attributed (path_str (PluginJsonValidator.plugin_json_path p))))
    (PluginJsonValidator.validate_body W p).
Proof.
  unfold PluginJsonValidator.validate_body, PluginJsonValidator.validate_fields,
    PluginJsonValidator.if_present.
  attributed_tac (path_str (PluginJsonValidator.plugin_json_path p));
    unfold_manifest_checks;
    attributed_tac (path_str (PluginJsonValidator.plugin_json_path p));
    unfold PluginJsonValidator.check_path;
    attributed_tac (path_str (PluginJsonValidator.plugin_json_path p)).
Qed.

Lemma registry_attributed W root :
  respects (keeps (attributed (path_str (MarketplaceValidator.marketplace_json root))))
    (MarketplaceValidator.validate_body W root).
Proof.
  unfold MarketplaceValidator.validate_body.
  unfold MarketplaceValidator.validate_document, MarketplaceValidator.check_required_fields,
    MarketplaceValidator.check_owner, MarketplaceValidator.check_plugins.
  attributed_tac (path_str (MarketplaceValidator.marketplace_json root));
    apply registry_entries_keep; intros entry index names;
    unfold_registry_checks;
    attributed_tac (path_str (MarketplaceValidator.marketplace_json root)).
Qed.

Lemma skill_attributed W skill_path :
  respects (keeps (attributed (path_str skill_path)))
    (SkillsValidator.validate_skill_body W skill_path).
Proof.
  unfold SkillsValidator.validate_skill_body. attributed_tac (path_str skill_path).
Qed.

(** X3. Every issue of a manifest result names the path of that
    manifest; every issue of a registry result names the path of the
    registry document, also the issues found in the manifests of the
    plugins; every issue of a skill result names the directory of the
    skill. *)
Theorem X3_issues_name_the_validated_document W path r :
  (PluginJsonValidator.validate W path = Ok r ->
   attributed (path_str (PluginJsonValidator.plugin_json_path path)) r) /\
  (MarketplaceValidator.validate W path = Ok r ->
   attributed (path_str (MarketplaceValidator.marketplace_json path)) r) /\
  (SkillsValidator.validate_skill W path = Ok r ->
   attributed (path_str path) r).
Proof.
  split; [|split]; intros H;
    (eapply returned_keeps; [apply attributed_new| |exact H]).
  - apply manifest_attributed.
  - apply registry_attributed.
  - apply skill_attributed.
Qed.

Lemma X3_issues_name_the_validated_document_witness :
  attributed "repo/plugins/demo/.claude-plugin/plugin.json" jane_result /\
  attributed "repo/.claude-plugin/marketplace.json" alpha_registry_result.
Proof.
  split.
  - exact (proj1 (X3_issues_name_the_validated_document jane_world demo_path jane_result)
             eq_refl).
  - exact (proj1 (proj2 (X3_issues_name_the_validated_document alpha_world ["repo"]
                           alpha_registry_result)) eq_refl).
Defined.

(** *** Line numbers *)

Lemma lines_error_none c m f r :
  keeps lines_on_syntax_errors r (Result.add_error c m f None r).
Proof.
  unfold keeps, lines_on_syntax_errors, issues. cbn. rewrite !Forall_app.
  intros (He & Hw & Hi). repeat split; try assumption. constructor; [left; reflexivity|constructor].
Qed.

Lemma lines_error_syntax m f l r :
  keeps lines_on_syntax_errors r (Result.add_error "json_syntax" m f l r).
Proof.
  unfold keeps, lines_on_syntax_errors, issues. cbn. rewrite !Forall_app.
  intros (He & Hw & Hi). repeat split; try assumption. constructor; [right; reflexivity|constructor].
Qed.

Lemma lines_warning c m f r :
  keeps lines_on_syntax_errors r (Result.add_warning c m f None r).
Proof.
  unfold keeps, lines_on_syntax_errors, issues. cbn. rewrite !Forall_app.
  intros (He & Hw & Hi). repeat split; try assumption. constructor; [left; reflexivity|constructor].
Qed.

Lemma lines_info c m f r : keeps lines_on_syntax_errors r (Result.add_info c m f r).
Proof.
  unfold keeps, lines_on_syntax_errors, issues. cbn. rewrite !Forall_app.
  intros (He & Hw & Hi). repeat split; try assumption. constructor; [left; reflexivity|constructor].
Qed.

Ltac lines_tac :=
  keeps_tac lines_on_syntax_errors
    ltac:(first [apply lines_error_none | apply lines_error_syntax
                | apply lines_warning | apply lines_info]).

Lemma manifest_lines W p :
  respects (keeps lines_on_syntax_errors) (PluginJsonValidator.validate_body W p).
Proof.
  unfold PluginJsonValidator.validate_body, PluginJsonValidator.validate_fields,
    PluginJsonValidator.if_present.
  lines_tac; unfold_manifest_checks; lines_tac;
    unfold PluginJsonValidator.check_path; lines_tac.
Qed.

Lemma registry_lines W root :
  respects (keeps lines_on_syntax_errors) (MarketplaceValidator.validate_body W root).
Proof.
  unfold MarketplaceValidator.validate_body.
  unfold MarketplaceValidator.validate_document, MarketplaceValidator.check_required_fields,
    MarketplaceValidator.check_owner, MarketplaceValidator.check_plugins.
  lines_tac; apply registry_entries_keep; intros entry index names;
    unfold_registry_checks; lines_tac.
Qed.

Lemma skill_lines W skill_path :
  respects (keeps lines_on_syntax_errors) (SkillsValidator.validate_skill_body W skill_path).
Proof. unfold SkillsValidator.validate_skill_body. lines_tac. Qed.

(** X4. In every result a validator returns, an issue that carries a
    line number is the error [json_syntax]: no other finding is located
    by line. *)
Theorem X4_only_syntax_errors_carry_a_line r i :
  produced r -> In i (issues r) -> line i <> None -> check i = "json_syntax".
Proof.
  intros Hr Hi Hline.
  assert (H : lines_on_syntax_errors r).
  { destruct Hr as [W p r' H|W p r' H|W p r' H];
      (eapply returned_keeps; [constructor| |exact H]).
    - apply manifest_lines.
    - apply registry_lines.
    - apply skill_lines. }
  unfold lines_on_syntax_errors in H. rewrite List.Forall_forall in H.
  destruct (H i Hi) as [Hnone|Hcheck]; [contradiction|exact Hcheck].
Qed.

Lemma X4_only_syntax_errors_carry_a_line_witness :
  let i := Build_ValidationIssue SevError "json_syntax" "Invalid JSON: Expecting value"
             "repo/plugins/demo/.claude-plugin/plugin.json" (Some 3%Z) in
  produced broken_result /\ In i (issues broken_result) /\ line i <> None /\
  check i = "json_syntax".
Proof.
  intros i.
  assert (Hp : produced broken_result).
  { apply (produced_manifest (broken_world inspector_ok) demo_path). reflexivity. }
  assert (Hi : In i (issues broken_result)) by (left; reflexivity).
  assert (Hl : line i <> None) by discriminate.
  repeat (split; [assumption|]).
  exact (X4_only_syntax_errors_carry_a_line broken_result i Hp Hi Hl).
Defined.

(** *** Info issues *)

Lemma info_with_error_error c m f l r :
  keeps info_with_error r (Result.add_error c m f l r).
Proof.
  unfold keeps, info_with_error. cbn. intros [H|H]; [left; exact H|right].
  rewrite codes_app. apply in_or_app. left. exact H.
Qed.

Lemma info_with_error_warning c m f l r :
  keeps info_with_error r (Result.add_warning c m f l r).
Proof. intros H. exact H. Qed.

Lemma author_keeps_info_with_error p author :
  respects (keeps info_with_error) (PluginJsonValidator._validate_author p author).
Proof.
  intros r. unfold PluginJsonValidator._validate_author.
  destruct author; try apply info_with_error_error.
  - intros _. right. cbn. rewrite codes_app. apply in_or_app. right. left. reflexivity.
  - destruct (dict_has "name" d); cbn [negb];
      [apply keeps_refl|apply info_with_error_error].
Qed.

Ltac info_tac :=
  keeps_tac info_with_error
    ltac:(first [apply info_with_error_error | apply info_with_error_warning]).

Lemma manifest_info_with_error W p :
  respects (keeps info_with_error) (PluginJsonValidator.validate_body W p).
Proof.
  unfold PluginJsonValidator.validate_body, PluginJsonValidator.validate_fields,
    PluginJsonValidator.if_present.
  info_tac; try apply author_keeps_info_with_error;
    unfold PluginJsonValidator._validate_name, PluginJsonValidator._validate_version,
      PluginJsonValidator._validate_license, PluginJsonValidator._validate_repository,
      PluginJsonValidator._validate_keywords, PluginJsonValidator._validate_paths;
    info_tac; unfold PluginJsonValidator.check_path; info_tac.
Qed.

Lemma no_info_error c m f l r : keeps no_info r (Result.add_error c m f l r).
Proof. intros H. exact H. Qed.

Lemma no_info_warning c m f l r : keeps no_info r (Result.add_warning c m f l r).
Proof. intros H. exact H. Qed.

Ltac no_info_tac :=
  keeps_tac no_info ltac:(first [apply no_info_error | apply no_info_warning]).

Lemma registry_no_info W root :
  respects (keeps no_info) (MarketplaceValidator.validate_body W root).
Proof.
  unfold MarketplaceValidator.validate_body.
  unfold MarketplaceValidator.validate_document, MarketplaceValidator.check_required_fields,
    MarketplaceValidator.check_owner, MarketplaceValidator.check_plugins.
  no_info_tac; apply registry_entries_keep; intros entry index names;
    unfold_registry_checks; no_info_tac.
Qed.

Lemma skill_no_info W skill_path :
  respects (keeps no_info) (SkillsValidator.validate_skill_body W skill_path).
Proof. unfold SkillsValidator.validate_skill_body. no_info_tac. Qed.

(** X5. An info issue never stands alone: a result a validator returns
    with an info issue in it holds the error [author_format] and has
    status failed.  The registry validator and the skill validator add no
    info issue at all. *)
Theorem X5_info_comes_with_an_error r :
  produced r ->
  (info r <> [] -> status r = Failed /\ In "author_format" (codes (errors r))) /\
  (forall W path,
     MarketplaceValidator.validate W path = Ok r \/
     SkillsValidator.validate_skill W path = Ok r ->
     info r = []).
Proof.
  intros Hr. split.
  - intros Hinfo.
    assert (H : info_with_error r).
    { destruct Hr as [W p r' H|W p r' H|W p r' H].
      - eapply returned_keeps; [left; reflexivity|apply manifest_info_with_error|exact H].
      - left. eapply (returned_keeps no_info); [reflexivity|apply registry_no_info|exact H].
      - left. eapply (returned_keeps no_info); [reflexivity|apply skill_no_info|exact H]. }
    destruct H as [H|H]; [contradiction|]. split; [|exact H].
    rewrite (built_status r (produced_built r Hr)).
    destruct (errors r); [destruct H|reflexivity].
  - intros W path [H|H].
    + eapply (returned_keeps no_info); [reflexivity|apply registry_no_info|exact H].
    + eapply (returned_keeps no_info); [reflexivity|apply skill_no_info|exact H].
Qed.

Lemma X5_info_comes_with_an_error_witness :
  produced jane_result /\ info jane_result <> [] /\
  status jane_result = Failed /\ In "author_format" (codes (errors jane_result)).
Proof.
  assert (Hi : info jane_result <> []) by discriminate.
  split; [exact jane_result_produced|]. split; [exact Hi|].
  exact (proj1 (X5_info_comes_with_an_error jane_result jane_result_produced) Hi).
Defined.

(** ** Computations that do not raise *)












Lemma bind_assoc {A B C} (m : M A) (k : A -> M B) (h : B -> M C) r :
  bind (bind m k) h r = bind m (fun a => bind (k a) h) r.
Proof. unfold bind. destruct (m r) as [[a|e] r']; reflexivity. Qed.



(** ** The manifest validator: which documents it can handle *)




(** ** The manifest validator: the required name *)


















(** ** The manifest validator: license and repository *)

(** X8. Findings on the license and on the repository are warnings: a
    manifest that loads as an object with a name the pattern accepts, a
    license and a repository that are strings when present, and none of
    the other fields, gets no error and no info; it gets the warning
    [license_spdx] exactly when the license is outside the list and the
    warning [repository_url] exactly when the repository starts neither
    with [http://] nor with [https://], and its status is warning or
    passed accordingly. *)
Theorem X8_license_and_repository_only_warn W plugin_path d n :
  let path := PluginJsonValidator.plugin_json_path plugin_path in
  let license_warns :=
    match dict_lookup "license" d with
    | Some (JStr l) => negb (str_in l SPDX_LICENSES)
    | _ => false
    end in
  let repository_warns :=
    match dict_lookup "repository" d with
    | Some (JStr u) => negb (startswith u "http://" || startswith u "https://")
    | _ => false
    end in
  fs_exists W path = Ok true ->
  json_load W path Utf8 = Ok (JDict d) ->
  dict_lookup "name" d = Some (JStr n) ->
  PLUGIN_NAME_PATTERN_match n = true ->
  Forall (fun key => dict_lookup key d = None)
    ["version"; "author"; "keywords"; "commands"; "agents"; "skills"] ->
  match dict_lookup "license" d with Some v => isinstance_str v = true | None => True end ->
  match dict_lookup "repository" d with Some v => isinstance_str v = true | None => True end ->
  exists r,
    PluginJsonValidator.validate W plugin_path = Ok r /\
    errors r = [] /\ info r = [] /\
    codes (warnings r) =
      (if license_warns then ["license_spdx"] else [])
      ++ (if repository_warns then ["repository_url"] else []) /\
    status r = (if license_warns || repository_warns then Warning else Passed).
Proof.
  intros path license_warns repository_warns Hex Hload Hname Hmatch Hnone Hlic Hrepo.
  subst license_warns repository_warns.
  inversion Hnone as [|? ? Hversion Hn1]; subst. inversion Hn1 as [|? ? Hauthor Hn2]; subst.
  inversion Hn2 as [|? ? Hkeywords Hn3]; subst. inversion Hn3 as [|? ? Hcommands Hn4]; subst.
  inversion Hn4 as [|? ? Hagents Hn5]; subst. inversion Hn5 as [|? ? Hskills _]; subst.
  unfold PluginJsonValidator.validate, PluginJsonValidator.validate_body, returned.
  fold path. rewrite Hex, Hload. cbn [negb].
  unfold PluginJsonValidator.validate_fields, PluginJsonValidator.if_present, for_each,
    py_contains, py_getitem, dict_has.
  cbn [for_enumerate].
  rewrite Hname, Hversion, Hauthor, Hkeywords, Hcommands, Hagents, Hskills.
  run_m. unfold PluginJsonValidator._validate_name. rewrite Hmatch. run_m.
  unfold PluginJsonValidator._validate_license, PluginJsonValidator._validate_repository.
  destruct (dict_lookup "license" d) as [[| | | |l| |]|]; try discriminate Hlic;
    destruct (dict_lookup "repository" d) as [[| | | |u| |]|]; try discriminate Hrepo;
    run_m;
    try destruct (str_in l SPDX_LICENSES);
    try destruct (startswith u "http://" || startswith u "https://");
    (eexists; split; [reflexivity|]); repeat split.
Qed.

Lemma X8_license_and_repository_only_warn_witness :
  exists r,
    PluginJsonValidator.validate licensed_world demo_path = Ok r /\
    errors r = [] /\ info r = [] /\
    codes (warnings r) = ["license_spdx"; "repository_url"] /\
    status r = Warning.
Proof.
  refine (X8_license_and_repository_only_warn licensed_world demo_path licensed_manifest
            "demo" eq_refl eq_refl eq_refl eq_refl _ eq_refl eq_refl).
  repeat (apply Forall_cons; split; [reflexivity|]). apply Forall_nil_2.
Defined.

(** ** The manifest validator: keywords *)

Lemma keywords_loop p l : forall start r,
  exists r',
    for_enumerate start l
      (fun i keyword =>
         if negb (isinstance_str keyword) then
           add_error "keyword_type"
             ("Keyword at index " +:+ pretty i +:+ " must be string, got " +:+
              type_name keyword)
             (path_str (PluginJsonValidator.plugin_json_path p)) None
         else pass) r = (Ok tt, r') /\
    errors r' =
      errors r ++ map (keyword_error p) (List.filter not_a_string (enumerate_from start l)) /\
    warnings r' = warnings r /\ info r' = info r.
Proof.
  induction l as [|k l IH]; intros start r.
  - exists r. cbn. rewrite app_nil_r. auto.
  - cbn [for_enumerate]. unfold bind at 1.
    unfold enumerate_from. cbn [length seq combine List.filter].
    unfold not_a_string at 1. cbn [snd].
    destruct (isinstance_str k); cbn [negb].
    + unfold pass, ret. apply IH.
    + unfold add_error, update.
      destruct (IH (S start) (Result.add_error "keyword_type"
                  ("Keyword at index " +:+ pretty start +:+ " must be string, got " +:+
                   type_name k)
                  (path_str (PluginJsonValidator.plugin_json_path p)) None r))
        as (r' & Hrun & He & Hw & Hi).
      exists r'. split; [exact Hrun|]. split; [|split; assumption].
      rewrite He. cbn [errors Result.add_error map]. rewrite <- app_assoc. reflexivity.
Qed.

(** X9. When the keywords are an array, the check adds one error
    [keyword_type] for every element that is not a string, in the order of
    the array, each naming the index and the type of its element, and
    nothing else; an array of strings adds nothing.  Keywords that are not
    an array get the single error [keywords_type]. *)
Theorem X9_one_error_per_keyword_that_is_no_string plugin_path keywords r :
  exists r',
    PluginJsonValidator._validate_keywords plugin_path keywords r = (Ok tt, r') /\
    warnings r' = warnings r /\ info r' = info r /\
    match keywords with
    | JList l =>
        errors r' =
          errors r ++
          map (keyword_error plugin_path) (List.filter not_a_string (enumerate_from 0 l)) /\
        (forallb isinstance_str l = true -> r' = r)
    | _ => codes (errors r') = codes (errors r) ++ ["keywords_type"]
    end.
Proof.
  unfold PluginJsonValidator._validate_keywords.
  destruct keywords as [| | | | |l|];
    try (eexists; split; [reflexivity|]; cbn; rewrite codes_app; auto).
  destruct (keywords_loop plugin_path l 0 r) as (r' & Hrun & He & Hw & Hi).
  exists r'. split; [exact Hrun|]. split; [exact Hw|]. split; [exact Hi|].
  split; [exact He|].
  intros Hall. clear He Hw Hi. revert Hrun. generalize 0.
  induction l as [|k l IH]; intros start; cbn [for_enumerate].
  - intros [= <-]. reflexivity.
  - cbn [forallb] in Hall. apply andb_true_iff in Hall as [Hk Hl].
    unfold bind at 1. rewrite Hk. cbn [negb]. unfold pass, ret. apply (IH Hl).
Qed.

Lemma X9_one_error_per_keyword_that_is_no_string_witness :
  (exists r',
     PluginJsonValidator._validate_keywords demo_path (JList [JStr "ai"; JInt 5; JNull])
       (new_result Passed) = (Ok tt, r') /\
     map message (errors r') =
       ["Keyword at index 1 must be string, got int";
        "Keyword at index 2 must be string, got NoneType"]) /\
  PluginJsonValidator._validate_keywords demo_path (JList [JStr "ai"; JStr "tools"])
    (new_result Passed) = (Ok tt, new_result Passed).
Proof.
  split.
  - destruct (X9_one_error_per_keyword_that_is_no_string demo_path
                (JList [JStr "ai"; JInt 5; JNull]) (new_result Passed))
      as (r' & Hrun & _ & _ & He & _).
    exists r'. split; [exact Hrun|]. rewrite He. vm_compute. reflexivity.
  - destruct (X9_one_error_per_keyword_that_is_no_string demo_path
                (JList [JStr "ai"; JStr "tools"]) (new_result Passed))
      as (r' & Hrun & _ & _ & _ & Hsame).
    rewrite Hrun, (Hsame eq_refl). reflexivity.
Defined.

(** ** The manifest validator: path values *)

Lemma for_enumerate_start {A} (l : list A) (body : A -> M unit) : forall start start' r,
  for_enumerate start l (fun _ => body) r = for_enumerate start' l (fun _ => body) r.
Proof.
  induction l as [|x l IH]; intros start start' r; [reflexivity|].
  cbn [for_enumerate]. unfold bind.
  destruct (body x r) as [[[]|e] r']; [apply IH|reflexivity].
Qed.

(** X10. In an array of path values the elements that are not strings
    are passed over without an issue: the check gives the same outcome on
    the array as on the array without them. *)
Theorem X10_path_values_that_are_no_strings_are_ignored W plugin_path field l r :
  PluginJsonValidator._validate_paths W plugin_path field (JList l) r =
  PluginJsonValidator._validate_paths W plugin_path field
    (JList (List.filter isinstance_str l)) r.
Proof.
  unfold PluginJsonValidator._validate_paths, for_each. revert r. generalize 0.
  induction l as [|x l IH]; intros start r; [reflexivity|].
  cbn [List.filter for_enumerate].
  destruct (isinstance_str x) eqn:Hx.
  - cbn [for_enumerate]. unfold bind.
    destruct (PluginJsonValidator.check_path W plugin_path field x r) as [[[]|e] r'];
      [|reflexivity].
    rewrite (IH (S start) r'). apply for_enumerate_start.
  - unfold bind. destruct x; try discriminate Hx; cbn [PluginJsonValidator.check_path];
      unfold pass, ret; rewrite (IH (S start) r); apply for_enumerate_start.
Qed.

Lemma prefix_slash c s : String.prefix "/" (String c s) = Ascii.eqb c "/".
Proof.
  cbn [String.prefix]. destruct (ascii_dec "/" c) as [<-|Hne].
  - destruct s; reflexivity.
  - symmetry. apply Ascii.eqb_neq. congruence.
Qed.





(** ** The registry validator: the document *)

(** X12. When the registry document is missing, validation returns a
    result with the single error [file_exists]; when the parser rejects
    it, a result with the single error [json_syntax] and the line the
    parser reported.  Any other exception raised while loading it is not
    caught: the registry validator raises it, whereas the manifest
    validator turns the same exception into the single error [file_read]
    with the text of the exception. *)
Theorem X12_registry_load_failures W root :
  let path := MarketplaceValidator.marketplace_json root in
  let single_error code text line :=
    Ok {| status := Failed;
          errors := [Build_ValidationIssue SevError code text (path_str path) line];
          warnings := []; info := [] |} in
  (fs_exists W path = Ok false ->
   MarketplaceValidator.validate W root =
     single_error "file_exists" "marketplace.json not found" None) /\
  (forall msg lineno text,
     fs_exists W path = Ok true ->
     json_load W path Utf8 = Raise (JSONDecodeError msg lineno text) ->
     MarketplaceValidator.validate W root =
       single_error "json_syntax" ("Invalid JSON: " +:+ msg) (Some lineno)) /\
  (forall e,
     fs_exists W path = Ok true -> json_load W path Utf8 = Raise e ->
     not_decode_error e = true ->
     MarketplaceValidator.validate W root = Raise e) /\
  (forall e plugin_path,
     let manifest := PluginJsonValidator.plugin_json_path plugin_path in
     fs_exists W manifest = Ok true -> json_load W manifest Utf8 = Raise e ->
     not_decode_error e = true ->
     PluginJsonValidator.validate W plugin_path =
       Ok {| status := Failed;
             errors := [Build_ValidationIssue SevError "file_read"
                          ("Failed to read file: " +:+ exn_str W e) (path_str manifest) None];
             warnings := []; info := [] |}).
Proof.
  intros path single_error. subst single_error.
  unfold MarketplaceValidator.validate, MarketplaceValidator.validate_body, returned.
  fold path. split; [|split; [|split]].
  - intros ->. reflexivity.
  - intros msg lineno text -> ->. reflexivity.
  - intros e -> -> He. destruct e; try discriminate He; reflexivity.
  - intros e plugin_path Hex Hload He.
    unfold PluginJsonValidator.validate, PluginJsonValidator.validate_body, returned.
    rewrite Hex, Hload. destruct e; try discriminate He; reflexivity.
Qed.

Lemma X12_registry_load_failures_witness :
  MarketplaceValidator.validate empty_world ["repo"] =
    Ok {| status := Failed;
          errors := [Build_ValidationIssue SevError "file_exists" "marketplace.json not found"
                       "repo/.claude-plugin/marketplace.json" None];
          warnings := []; info := [] |} /\
  MarketplaceValidator.validate broken_registry_world ["repo"] =
    Ok {| status := Failed;
          errors := [Build_ValidationIssue SevError "json_syntax"
                       "Invalid JSON: Expecting value"
                       "repo/.claude-plugin/marketplace.json" (Some 3%Z)];
          warnings := []; info := [] |} /\
  MarketplaceValidator.validate locked_world ["repo"] = Raise permission_error /\
  PluginJsonValidator.validate locked_world demo_path =
    Ok {| status := Failed;
          errors := [Build_ValidationIssue SevError "file_read"
                       "Failed to read file: [Errno 13] Permission denied"
                       "repo/plugins/demo/.claude-plugin/plugin.json" None];
          warnings := []; info := [] |}.
Proof.
  split; [|split; [|split]].
  - exact (proj1 (X12_registry_load_failures empty_world ["repo"]) eq_refl).
  - exact (proj1 (proj2 (X12_registry_load_failures broken_registry_world ["repo"]))
             "Expecting value" 3%Z "Expecting value: line 3 column 1 (char 4)"
             eq_refl eq_refl).
  - exact (proj1 (proj2 (proj2 (X12_registry_load_failures locked_world ["repo"])))
             permission_error eq_refl eq_refl eq_refl).
  - exact (proj2 (proj2 (proj2 (X12_registry_load_failures locked_world ["repo"])))
             permission_error demo_path eq_refl eq_refl eq_refl).
Defined.

(** X13. For a registry document that loads as an object, the errors
    start with one [required_field] for each of name, owner and plugins
    that is missing, followed by [owner_type] when the owner is not an
    object or by [owner_name] when it is an object without a name, never
    both.  When the plugins are missing or an empty array nothing follows;
    when they are not an array the error [plugins_type] follows and
    nothing else.  No warning and no info is added. *)
Theorem X13_registry_top_level_fields W root d :
  let path := MarketplaceValidator.marketplace_json root in
  fs_exists W path = Ok true ->
  json_load W path Utf8 = Ok (JDict d) ->
  match dict_lookup "plugins" d with
  | Some (JList (_ :: _)) => False
  | _ => True
  end ->
  exists r,
    MarketplaceValidator.validate W root = Ok r /\
    codes (errors r) =
      registry_header_codes d
      ++ match dict_lookup "plugins" d with
         | Some (JList _) | None => []
         | Some _ => ["plugins_type"]
         end /\
    warnings r = [] /\ info r = [].
Proof.
  intros path Hex Hload Hplugins.
  unfold MarketplaceValidator.validate, MarketplaceValidator.validate_body, returned.
  fold path. rewrite Hex, Hload. cbn [negb].
  unfold MarketplaceValidator.validate_document, MarketplaceValidator.check_required_fields,
    MarketplaceValidator.check_owner, MarketplaceValidator.check_plugins, for_each,
    registry_header_codes, py_contains, py_getitem, dict_has.
  cbn [for_enumerate].
  destruct (dict_lookup "name" d) as [title|];
    destruct (dict_lookup "owner" d) as [[| | | | | |owner]|];
    destruct (dict_lookup "plugins" d) as [[| | | | |[|entry entries]|]|];
    try contradiction; run_m; cbn [isinstance_dict negb];
    try (destruct (dict_lookup "name" owner)); run_m;
    cbn [MarketplaceValidator.validate_entries]; run_m;
    (eexists; split; [reflexivity|]); repeat split.
Qed.

Lemma X13_registry_top_level_fields_witness :
  exists r,
    MarketplaceValidator.validate odd_registry_world ["repo"] = Ok r /\
    codes (errors r) = ["required_field"; "owner_type"; "plugins_type"] /\
    warnings r = [] /\ info r = [].
Proof.
  exact (X13_registry_top_level_fields odd_registry_world ["repo"] odd_registry
           eq_refl eq_refl I).
Defined.

(** ** The registry validator: entries that are not cross-checked *)

(** X14. An entry without a name gets the error [plugin_name_missing]
    and leaves the recorded names as they are.  An entry with a name whose
    source is missing, is not a string, is answered not to exist, or holds
    no manifest gets exactly the one error that says so, after the error
    for a name seen before if the name was seen, and its name is recorded
    all the same.  When one of the two existence tests raises, handling
    the entry raises that exception, the error for a name seen before
    having been added.  In all these cases the manifest is never opened:
    the outcome is the same in every environment with the same answers to
    the existence tests. *)
Theorem X14_entries_that_stop_early W root items index names r :
  (dict_lookup "name" items = None ->
   exists r',
     MarketplaceValidator._validate_plugin_entry W root (JDict items) index names r =
       (Ok names, r') /\
     codes (errors r') = codes (errors r) ++ ["plugin_name_missing"] /\
     warnings r' = warnings r /\ info r' = info r) /\
  (forall name,
     dict_lookup "name" items = Some name ->
     hashable name = true ->
     let seen := existsb (py_is_or_eq name) names in
     (forall code,
        entry_stop W root items = Ok (Some code) ->
        exists r',
          MarketplaceValidator._validate_plugin_entry W root (JDict items) index names r =
            (Ok (if seen then names else names ++ [name]), r') /\
          codes (errors r') =
            codes (errors r) ++ (if seen then ["duplicate_plugin"] else []) ++ [code] /\
          warnings r' = warnings r /\ info r' = info r) /\
     (forall e,
        entry_stop W root items = Raise e ->
        exists r',
          MarketplaceValidator._validate_plugin_entry W root (JDict items) index names r =
            (Raise e, r') /\
          codes (errors r') =
            codes (errors r) ++ (if seen then ["duplicate_plugin"] else []) /\
          warnings r' = warnings r /\ info r' = info r) /\
     (forall W',
        entry_stop W root items <> Ok None ->
        fs_exists W' = fs_exists W -> py_repr W' = py_repr W ->
        MarketplaceValidator._validate_plugin_entry W' root (JDict items) index names r =
        MarketplaceValidator._validate_plugin_entry W root (JDict items) index names r)).
Proof.
  split.
  - intros Hname.
    unfold MarketplaceValidator._validate_plugin_entry, py_contains, dict_has.
    rewrite Hname. run_m. eexists. split; [reflexivity|].
    cbn. rewrite codes_app. auto.
  - intros name Hname Hhash seen. subst seen.
    split; [|split].
    + intros code.
      unfold MarketplaceValidator._validate_plugin_entry, MarketplaceValidator.check_source,
        entry_stop, py_contains, py_getitem, dict_has, fmt, rbind.
      rewrite Hname. run_m. unfold set_contains, set_add.
      rewrite Hhash. run_m.
      destruct (existsb (py_is_or_eq name) names);
        destruct (dict_lookup "source" items) as [[| | | |src| |]|]; cbv zeta;
        try (destruct (fs_exists W (joinpath root (lstrip src "./"))) as [[]|];
             cbn [negb];
             [destruct (fs_exists W (joinpath (joinpath (joinpath root (lstrip src "./"))
                                                 ".claude-plugin") "plugin.json"))
                as [[]|]; cbn [negb]|..]);
        intros [= <-]; run_m;
        (eexists; split; [reflexivity|]);
        cbn [errors warnings info Result.add_error];
        rewrite ?codes_app, <- ?app_assoc; cbn [codes map check app]; auto.
    + intros e.
      unfold MarketplaceValidator._validate_plugin_entry, MarketplaceValidator.check_source,
        entry_stop, py_contains, py_getitem, dict_has, fmt, rbind.
      rewrite Hname. run_m. unfold set_contains, set_add.
      rewrite Hhash. run_m.
      destruct (existsb (py_is_or_eq name) names);
        destruct (dict_lookup "source" items) as [[| | | |src| |]|]; cbv zeta;
        try (destruct (fs_exists W (joinpath root (lstrip src "./"))) as [[]|];
             cbn [negb];
             [destruct (fs_exists W (joinpath (joinpath (joinpath root (lstrip src "./"))
                                                 ".claude-plugin") "plugin.json"))
                as [[]|]; cbn [negb]|..]);
        intros [= <-]; run_m;
        (eexists; split; [reflexivity|]);
        cbn [errors warnings info Result.add_error];
        rewrite ?codes_app, ?app_nil_r; auto.
    + intros W' Hstop Hfs Hrepr. revert Hstop.
      unfold MarketplaceValidator._validate_plugin_entry, MarketplaceValidator.check_source,
        entry_stop, py_contains, py_getitem, dict_has, fmt, rbind.
      rewrite Hname, ?Hfs, ?Hrepr. run_m. unfold set_contains, set_add.
      rewrite Hhash. run_m.
      destruct (existsb (py_is_or_eq name) names);
        destruct (dict_lookup "source" items) as [[| | | |src| |]|]; cbv zeta;
        try (destruct (fs_exists W (joinpath root (lstrip src "./"))) as [[]|];
             cbn [negb];
             [destruct (fs_exists W (joinpath (joinpath (joinpath root (lstrip src "./"))
                                                 ".claude-plugin") "plugin.json"))
                as [[]|]; cbn [negb]|..]);
        intros Hstop; try reflexivity; exfalso; apply Hstop; reflexivity.
Qed.

Lemma X14_entries_that_stop_early_witness :
  (exists r',
     MarketplaceValidator._validate_plugin_entry alpha_world ["repo"] (JDict ghost_entry)
       1 [JStr "alpha"] (new_result Passed) = (Ok [JStr "alpha"; JStr "ghost"], r') /\
     codes (errors r') = ["source_path_missing"] /\
     warnings r' = [] /\ info r' = []) /\
  (exists r',
     MarketplaceValidator._validate_plugin_entry long_source_world ["repo"]
       (JDict long_source_entry) 0 [JStr "long"] (new_result Passed) =
       (Raise name_too_long, r') /\
     codes (errors r') = ["duplicate_plugin"] /\
     warnings r' = [] /\ info r' = []).
Proof.
  split.
  - exact (proj1 (proj2 (X14_entries_that_stop_early alpha_world ["repo"] ghost_entry 1
                           [JStr "alpha"] (new_result Passed))
                    (JStr "ghost") eq_refl eq_refl)
             "source_path_missing" eq_refl).
  - exact (proj1 (proj2 (proj2 (X14_entries_that_stop_early long_source_world ["repo"]
                                  long_source_entry 0 [JStr "long"] (new_result Passed))
                           (JStr "long") eq_refl eq_refl))
             name_too_long eq_refl).
Defined.

(** ** The registry validator: the recorded names *)




(** ** The registry validator: entries it cannot handle *)







(** ** The skill inspection delegate: discovery and results *)

Lemma joinpath_name p n : no_slash n -> n <> "" -> n <> "." -> joinpath p n = p ++ [n].
Proof.
  intros Hslash Hne Hdot. unfold joinpath, startswith.
  destruct n as [|c n]; [contradiction|].
  rewrite prefix_slash.
  assert (Hc : Ascii.eqb c "/" = false).
  { unfold no_slash in Hslash. cbn [char_in] in Hslash.
    apply orb_false_iff in Hslash as [H _]. rewrite Ascii.eqb_sym. exact H. }
  rewrite Hc. f_equal. unfold path_parts.
  assert (Hsplit : forall s, no_slash s -> split_on "/" s = [s]).
  { induction s as [|a s IH]; [reflexivity|].
    unfold no_slash. cbn [char_in split_on]. intros H.
    apply orb_false_iff in H as [Ha Hs]. rewrite Ascii.eqb_sym in Ha. rewrite Ha.
    rewrite (IH Hs). reflexivity. }
  rewrite (Hsplit _ Hslash). cbn [List.filter].
  destruct (String.eqb (String c n) "") eqn:E1; [apply String.eqb_eq in E1; discriminate|].
  destruct (String.eqb (String c n) ".") eqn:E2;
    [apply String.eqb_eq in E2; contradiction|reflexivity].
Qed.

Lemma is_skill_yes W d :
  is_yes (SkillsValidator.is_skill W d) =
    is_yes (fs_is_dir W d) && is_yes (fs_exists W (joinpath d "SKILL.md")).
Proof.
  unfold SkillsValidator.is_skill, rbind.
  destruct (fs_is_dir W d) as [[]|e]; reflexivity.
Qed.

Lemma keep_skills_answered W entries : forall acc,
  Forall (fun d => exists b, SkillsValidator.is_skill W d = Ok b) entries ->
  SkillsValidator.keep_skills W entries acc =
    Ok (acc ++ List.filter (fun d => is_yes (SkillsValidator.is_skill W d)) entries).
Proof.
  induction entries as [|d entries IH]; intros acc Hall; cbn [SkillsValidator.keep_skills].
  - cbn. rewrite app_nil_r. reflexivity.
  - apply Forall_cons in Hall as [[b Hb] Hall]. cbn [List.filter]. rewrite Hb.
    cbn [rbind is_yes]. rewrite (IH _ Hall). destruct b; [|reflexivity].
    rewrite <- app_assoc. reflexivity.
Qed.

Lemma keep_skills_raises W before d after e : forall acc,
  Forall (fun d => exists b, SkillsValidator.is_skill W d = Ok b) before ->
  SkillsValidator.is_skill W d = Raise e ->
  SkillsValidator.keep_skills W (before ++ d :: after) acc = Raise e.
Proof.
  induction before as [|b before IH]; intros acc Hall Hd;
    cbn [app SkillsValidator.keep_skills].
  - rewrite Hd. reflexivity.
  - apply Forall_cons in Hall as [[ans Hb] Hall]. rewrite Hb. cbn [rbind].
    apply IH; assumption.
Qed.

(** X17. Discovery gives no skill when [skills] is answered not to exist
    in the plugin.  When it exists, discovery raises what listing it
    raises, as for a [skills] that is a file and no directory, and what
    the first test on an entry raises.  When the listing and the tests
    answer, it gives, in the order of the listing, exactly the entries that
    are directories and hold the marker file.  The validation of a
    discovered skill never ends with the error [skill_md_missing]. *)
Theorem X17_discovered_skills_hold_their_marker W plugin_path :
  let skills_dir := plugin_path ++ ["skills"] in
  let entry n := skills_dir ++ [n] in
  let answered n := exists b, SkillsValidator.is_skill W (entry n) = Ok b in
  (fs_exists W skills_dir = Ok false -> SkillsValidator.discover_skills W plugin_path = Ok []) /\
  (forall e,
     fs_exists W skills_dir = Raise e \/
     (fs_exists W skills_dir = Ok true /\ fs_iterdir W skills_dir = Raise e) ->
     SkillsValidator.discover_skills W plugin_path = Raise e) /\
  (forall names,
     fs_exists W skills_dir = Ok true -> fs_iterdir W skills_dir = Ok names ->
     (Forall answered names ->
      SkillsValidator.discover_skills W plugin_path =
        Ok (map entry
              (List.filter
                 (fun n => is_yes (fs_is_dir W (entry n)) &&
                           is_yes (fs_exists W (skills_dir ++ [n; "SKILL.md"])))
                 names))) /\
     (forall before n after e,
        names = before ++ n :: after -> Forall answered before ->
        SkillsValidator.is_skill W (entry n) = Raise e ->
        SkillsValidator.discover_skills W plugin_path = Raise e)) /\
  (forall skills s r,
     SkillsValidator.discover_skills W plugin_path = Ok skills ->
     In s skills ->
     SkillsValidator.validate_skill W s = Ok r ->
     ~ In "skill_md_missing" (codes (errors r))).
Proof.
  intros skills_dir entry answered. subst entry answered. cbv beta.
  assert (Hdir : joinpath plugin_path "skills" = skills_dir).
  { apply joinpath_name; [reflexivity|discriminate|discriminate]. }
  assert (Hmarker : forall s, joinpath s "SKILL.md" = s ++ ["SKILL.md"]).
  { intros s. apply joinpath_name; [reflexivity|discriminate|discriminate]. }
  assert (Hfilter : forall names,
    List.filter (fun d => is_yes (SkillsValidator.is_skill W d))
      (map (fun n => skills_dir ++ [n]) names) =
    map (fun n => skills_dir ++ [n])
      (List.filter (fun n => is_yes (fs_is_dir W (skills_dir ++ [n])) &&
                             is_yes (fs_exists W (skills_dir ++ [n; "SKILL.md"]))) names)).
  { induction names as [|n names IH]; [reflexivity|].
    cbn [map List.filter]. rewrite is_skill_yes, Hmarker, <- app_assoc. cbn [app].
    destruct (is_yes (fs_is_dir W (skills_dir ++ [n])) &&
              is_yes (fs_exists W (skills_dir ++ [n; "SKILL.md"])));
      cbn [map]; rewrite IH; reflexivity. }
  unfold SkillsValidator.discover_skills. rewrite Hdir.
  split; [intros ->; reflexivity|].
  split; [intros e [->|[-> ->]]; reflexivity|]. split.
  - intros names -> ->. cbn [rbind negb]. split.
    + intros Hall. rewrite keep_skills_answered.
      * cbn [app]. rewrite Hfilter. reflexivity.
      * apply Forall_map. exact Hall.
    + intros before n after e -> Hall Hn. rewrite map_app. cbn [map].
      apply keep_skills_raises; [apply Forall_map; exact Hall|exact Hn].
  - intros skills s r Hskills Hs Hr Hin.
    assert (Hex : fs_exists W (joinpath s "SKILL.md") = Ok true).
    { unfold rbind at 1 in Hskills.
      destruct (fs_exists W skills_dir) as [[]|e]; cbn [negb] in Hskills; [| |discriminate].
      - unfold rbind at 1 in Hskills.
        destruct (fs_iterdir W skills_dir) as [names|e]; [|discriminate].
        apply keep_skills_kept in Hskills. cbn [app] in Hskills. subst skills.
        apply filter_In in Hs as [_ Hs]. rewrite is_skill_yes in Hs.
        apply andb_true_iff in Hs as [_ Hs].
        destruct (fs_exists W (joinpath s "SKILL.md")) as [[]|]; try discriminate Hs.
        reflexivity.
      - injection Hskills as <-. destruct Hs. }
    revert Hr Hin.
    unfold SkillsValidator.validate_skill, SkillsValidator.validate_skill_body, returned.
    run_m. rewrite Hex.
    destruct (subprocess_run W (SkillsValidator.cmd s)) as [proc|[]];
      try destruct (returncode proc =? 0)%Z;
      intros [= <-]; cbn; intuition discriminate.
Qed.

Lemma X17_discovered_skills_hold_their_marker_witness :
  SkillsValidator.discover_skills empty_world demo_path = Ok [] /\
  SkillsValidator.discover_skills skills_file_world demo_path = Raise not_a_directory /\
  SkillsValidator.discover_skills (broken_world inspector_rejects) demo_path = Ok [lint_path].
Proof.
  split; [|split].
  - exact (proj1 (X17_discovered_skills_hold_their_marker empty_world demo_path) eq_refl).
  - exact (proj1 (proj2 (X17_discovered_skills_hold_their_marker skills_file_world demo_path))
             not_a_directory (or_intror (conj eq_refl eq_refl))).
  - refine (proj1 (proj1 (proj2 (proj2 (X17_discovered_skills_hold_their_marker
                                          (broken_world inspector_rejects) demo_path)))
                     ["lint"] eq_refl eq_refl) _).
    apply Forall_cons. split; [eexists; reflexivity|apply Forall_nil_2].
Defined.

(** X18. Validating a skill returns a result whenever the existence
    test of the marker file answers, whatever the inspector does; the
    result holds no warning, no info and at most one error, so its status
    is passed or failed, never warning.  When the test raises, the
    validation raises the same exception and no result is returned.  When
    the marker file is answered to be absent the result is the single
    error [skill_md_missing] and the inspector is not run. *)
Theorem X18_skill_results_pass_or_fail W skill_path :
  let marker := joinpath skill_path "SKILL.md" in
  (forall found,
     fs_exists W marker = Ok found ->
     exists r,
       SkillsValidator.validate_skill W skill_path = Ok r /\
       at_most_one_error r /\
       (status r = Passed \/ status r = Failed)) /\
  (forall e,
     fs_exists W marker = Raise e -> SkillsValidator.validate_skill W skill_path = Raise e) /\
  (fs_exists W marker = Ok false ->
   SkillsValidator.validate_skill W skill_path =
     Ok {| status := Failed;
           errors := [Build_ValidationIssue SevError "skill_md_missing"
                        "SKILL.md file not found" (path_str skill_path) None];
           warnings := []; info := [] |}).
Proof.
  intros marker.
  unfold SkillsValidator.validate_skill, SkillsValidator.validate_skill_body, returned,
    at_most_one_error.
  fold marker. run_m. split; [|split].
  - intros found ->. destruct found.
    + destruct (subprocess_run W (SkillsValidator.cmd skill_path)) as [proc|[]];
        try destruct (returncode proc =? 0)%Z;
        (eexists; split; [reflexivity|]); cbn; auto.
    + eexists. split; [reflexivity|]. cbn. auto.
  - intros e ->. reflexivity.
  - intros ->. reflexivity.
Qed.

Lemma X18_skill_results_pass_or_fail_witness :
  SkillsValidator.validate_skill empty_world lint_path =
    Ok {| status := Failed;
          errors := [Build_ValidationIssue SevError "skill_md_missing"
                       "SKILL.md file not found" "repo/plugins/demo/skills/lint" None];
          warnings := []; info := [] |} /\
  SkillsValidator.validate_skill (with_name_limit empty_world) [str_mul "a" 300] =
    Raise name_too_long.
Proof.
  split.
  - exact (proj2 (proj2 (X18_skill_results_pass_or_fail empty_world lint_path)) eq_refl).
  - exact (proj1 (proj2 (X18_skill_results_pass_or_fail (with_name_limit empty_world)
                           [str_mul "a" 300]))
             name_too_long eq_refl).
Defined.

(** ** The aggregator: what a run collects *)

Lemma dict_set_new_key {A} k (v : A) d :
  ~ In k (map fst d) -> map fst (dict_set k v d) = map fst d ++ [k].
Proof.
  induction d as [|[k' v'] d IH]; cbn [dict_set map fst app]; intros Hk; [reflexivity|].
  destruct (String.eqb k k') eqn:E.
  - apply String.eqb_eq in E. subst k'. exfalso. apply Hk. left. reflexivity.
  - cbn [map fst]. rewrite IH; [reflexivity|]. intros H. apply Hk. right. exact H.
Qed.

Lemma dict_lookup_elem {A} k (v : A) d :
  NoDup (map fst d) -> (k, v) ∈ d -> dict_lookup k d = Some v.
Proof.
  induction d as [|[k' v'] d IH]; cbn [map fst dict_lookup]; intros Hnd Hin.
  - inversion Hin.
  - apply NoDup_cons in Hnd as [Hk Hnd].
    apply elem_of_cons in Hin as [[= <- <-]|Hin].
    + rewrite String.eqb_refl. reflexivity.
    + destruct (String.eqb k k') eqn:E; [|apply IH; assumption].
      apply String.eqb_eq in E. subst k'. exfalso. apply Hk.
      apply list_elem_of_fmap. exists (k, v). auto.
Qed.

Lemma validate_plugins_keys W skip_skills plugins : forall pr sr pr' sr',
  validate_plugins W skip_skills plugins pr sr = Ok (pr', sr') ->
  NoDup (map path_name plugins) ->
  (forall p, p ∈ plugins -> ~ In (path_name p) (map fst pr)) ->
  map fst pr' = map fst pr ++ map path_name plugins /\
  (skip_skills = true -> sr' = sr).
Proof.
  induction plugins as [|p plugins IH]; intros pr sr pr' sr' H Hnd Hfresh.
  - injection H as <- <-. rewrite app_nil_r. auto.
  - cbn [map] in Hnd. apply NoDup_cons in Hnd as [Hp Hnd].
    apply validate_plugins_step in H as (r0 & sr1 & Hv & Hskills & Hrest).
    assert (Hkeys : map fst (dict_set (path_name p) r0 pr) = map fst pr ++ [path_name p]).
    { apply dict_set_new_key, Hfresh. left. }
    destruct (IH _ _ _ _ Hrest Hnd) as [IHk IHs].
    { intros q Hq. rewrite Hkeys. intros Hin. apply in_app_or in Hin as [Hin|[Heq|[]]].
      - apply (Hfresh q); [right; exact Hq|exact Hin].
      - apply Hp. rewrite Heq. apply list_elem_of_fmap. exists q. auto. }
    split.
    + rewrite IHk, Hkeys, <- app_assoc. reflexivity.
    + intros Hskip. rewrite (IHs Hskip).
      destruct Hskills as [[_ ->]|[Habs _]]; [reflexivity|congruence].
Qed.

(** X19. In a run that reaches the report, on a file system whose
    directories list pairwise distinct names without a separator, the dict
    of plugin results holds one entry for each plugin that was validated,
    in the order of validation, under the name of its directory, and
    looking that name up gives the result the manifest validator returned
    for the plugin.  When skills are skipped the dict of skill results is
    empty. *)
Theorem X19_one_result_per_plugin W plugin skip_skills c :
  listing_ok W ->
  collect W plugin skip_skills = Ok c ->
  exists plugins,
    plugins_to_validate W plugin = Ok plugins /\
    map fst (plugin_results c) = map path_name plugins /\
    (forall p, In p plugins ->
       exists r, PluginJsonValidator.validate W p = Ok r /\
                 dict_lookup (path_name p) (plugin_results c) = Some r) /\
    (skip_skills = true -> skill_results c = []).
Proof.
  intros Hok Hc.
  destruct (collect_inv W plugin skip_skills c Hc) as (_ & _ & plugins & Hps & Hloop).
  destruct (plugins_to_validate_distinct W plugin plugins Hok Hps) as [Hnd _].
  destruct (validate_plugins_keys W skip_skills plugins _ _ _ _ Hloop Hnd
              (fun p _ (H : In (path_name p) []) => H)) as [Hkeys Hskip].
  destruct (validate_plugins_presence W skip_skills plugins _ _ _ _ Hloop Hnd) as [Hpres _].
  exists plugins. split; [exact Hps|]. split; [exact Hkeys|]. split; [|exact Hskip].
  intros p Hp. destruct (Hpres p (proj2 (list_elem_of_In _ _) Hp)) as (r & Hr & Hin).
  exists r. split; [exact Hr|]. apply dict_lookup_elem; [|exact Hin].
  rewrite Hkeys. exact Hnd.
Qed.

Lemma X19_one_result_per_plugin_witness :
  exists plugins,
    plugins_to_validate alpha_world None = Ok plugins /\
    map fst (plugin_results alpha_collected) = map path_name plugins /\
    (forall p, In p plugins ->
       exists r, PluginJsonValidator.validate alpha_world p = Ok r /\
                 dict_lookup (path_name p) (plugin_results alpha_collected) = Some r) /\
    (false = true -> skill_results alpha_collected = []).
Proof.
  exact (X19_one_result_per_plugin alpha_world None false alpha_collected
           alpha_world_listing_ok eq_refl).
Defined.

Lemma count_status_none (p : Status -> bool) (l : list (string * ValidationResult)) :
  (forall kv, In kv l -> p (status (snd kv)) = false) -> count_status p l = 0.
Proof.
  unfold count_status. induction l as [|kv l IH]; intros Hall; [reflexivity|].
  cbn [List.filter]. rewrite (Hall kv (or_introl eq_refl)).
  apply IH. intros kv' Hin. apply Hall. right. exact Hin.
Qed.

Lemma skill_result_status W skill_path r :
  SkillsValidator.validate_skill W skill_path = Ok r ->
  Status_eqb Warning (status r) = false.
Proof.
  unfold SkillsValidator.validate_skill, SkillsValidator.validate_skill_body, returned.
  run_m.
  destruct (fs_exists W (joinpath skill_path "SKILL.md")) as [[]|];
    [| |discriminate].
  - destruct (subprocess_run W (SkillsValidator.cmd skill_path)) as [proc|[]];
      try destruct (returncode proc =? 0)%Z; intros [= <-]; reflexivity.
  - intros [= <-]. reflexivity.
Qed.

(** X20. In a run, no skill result has status warning, so in the summary
    of the JSON report [skills_failed] is the number of skills whose
    status is failed, and with [skills_passed] it adds up to
    [total_skills]. *)
Theorem X20_skills_failed_counts_failed_skills W plugin skip_skills c :
  collect W plugin skip_skills = Ok c ->
  let doc := json_report (root_result c) (marketplace_result c)
               (plugin_results c) (skill_results c) in
  count_status (Status_eqb Warning) (skill_results c) = 0 /\
  py_getitem2 doc "summary" "skills_failed" =
    Ok (JNat (count_status (Status_eqb Failed) (skill_results c))) /\
  count_status (Status_eqb Passed) (skill_results c)
  + count_status (Status_eqb Failed) (skill_results c) = length (skill_results c).
Proof.
  intros Hc doc.
  destruct (collect_inv W plugin skip_skills c Hc) as (_ & _ & plugins & Hps & Hloop).
  destruct (validate_plugins_provenance W skip_skills plugins _ _ _ _ Hloop) as [_ Hprov].
  assert (Hnone : count_status (Status_eqb Warning) (skill_results c) = 0).
  { assert (Hall : forall kv, In kv (skill_results c) ->
                     Status_eqb Warning (status (snd kv)) = false).
    { intros [k r] Hin. cbn [snd].
      destruct (Hprov k r (proj2 (list_elem_of_In _ _) Hin))
        as [Habs|(_ & p & skills & s & _ & _ & _ & Hr)]; [inversion Habs|].
      exact (skill_result_status W s r Hr). }
    apply count_status_none, Hall. }
  split; [exact Hnone|].
  pose proof (count_warning_or_failed (skill_results c)) as Hsum.
  pose proof (count_all_statuses (skill_results c)) as Hall.
  rewrite Hnone in Hsum, Hall. split; [|lia].
  unfold py_getitem2, doc, json_report.
  cbn [py_getitem dict_lookup String.eqb Ascii.eqb Bool.eqb].
  rewrite Hsum. reflexivity.
Qed.

Lemma X20_skills_failed_counts_failed_skills_witness :
  count_status (Status_eqb Warning) (skill_results rejected_collected) = 0 /\
  py_getitem2 (json_report (root_result rejected_collected)
                 (marketplace_result rejected_collected)
                 (plugin_results rejected_collected) (skill_results rejected_collected))
    "summary" "skills_failed" = Ok (JInt 1) /\
  0 + 1 = 1.
Proof.
  exact (X20_skills_failed_counts_failed_skills (broken_world inspector_rejects) None false
           rejected_collected eq_refl).
Defined.

Lemma registry_entries_respect R W root :
  (forall r, R r r) -> (forall a b c, R a b -> R b c -> R a c) ->
  (forall entry index names,
     respects R (MarketplaceValidator._validate_plugin_entry W root entry index names)) ->
  forall entries index names,
    respects R (MarketplaceValidator.validate_entries W root index entries names).
Proof.
  intros Hrefl Htrans Hentry.
  induction entries as [|e entries IH]; intros index names; simpl.
  - apply (respects_ret _ Hrefl).
  - apply (respects_bind _ Htrans); [apply Hentry|intros ?; apply IH].
Qed.

Lemma manifest_fields_no_file_exists W p data :
  respects (same_count "file_exists") (PluginJsonValidator.validate_fields W p data).
Proof.
  unfold PluginJsonValidator.validate_fields, PluginJsonValidator.if_present, for_each.
  cbn [for_enumerate].
  same_count_tac "file_exists"; unfold_manifest_checks;
    same_count_tac "file_exists"; unfold PluginJsonValidator.check_path;
    same_count_tac "file_exists".
Qed.

Lemma registry_document_no_file_exists W root data :
  respects (same_count "file_exists") (MarketplaceValidator.validate_document W root data).
Proof.
  unfold MarketplaceValidator.validate_document, MarketplaceValidator.check_required_fields,
    MarketplaceValidator.check_owner, MarketplaceValidator.check_plugins.
  same_count_tac "file_exists";
    apply (registry_entries_respect _ W root (same_count_refl "file_exists")
             (same_count_trans "file_exists"));
    intros entry index names; unfold_registry_checks; same_count_tac "file_exists".
Qed.

Lemma existing_manifest_no_file_exists W p r :
  fs_exists W (PluginJsonValidator.plugin_json_path p) = Ok true ->
  PluginJsonValidator.validate W p = Ok r ->
  count_code "file_exists" (errors r) = 0.
Proof.
  intros Hex. unfold PluginJsonValidator.validate, PluginJsonValidator.validate_body, returned.
  unfold bind at 1, eval at 1. rewrite Hex. cbn [negb].
  destruct (json_load W (PluginJsonValidator.plugin_json_path p) Utf8) as [data|[]];
    try (intros [= <-]; reflexivity).
  pose proof (manifest_fields_no_file_exists W p data (new_result Passed)) as H.
  destruct (PluginJsonValidator.validate_fields W p data (new_result Passed))
    as [[[]|e] r']; [|discriminate].
  intros [= <-]. exact H.
Qed.

Lemma existing_registry_no_file_exists W root r :
  fs_exists W (MarketplaceValidator.marketplace_json root) = Ok true ->
  MarketplaceValidator.validate W root = Ok r ->
  count_code "file_exists" (errors r) = 0.
Proof.
  intros Hex. unfold MarketplaceValidator.validate, MarketplaceValidator.validate_body,
    returned.
  unfold bind at 1, eval at 1. rewrite Hex. cbn [negb].
  destruct (json_load W (MarketplaceValidator.marketplace_json root) Utf8) as [data|[]];
    try (intros [= <-]; reflexivity); try discriminate.
  pose proof (registry_document_no_file_exists W root data (new_result Passed)) as H.
  destruct (MarketplaceValidator.validate_document W root data (new_result Passed))
    as [[[]|e] r']; [|discriminate].
  intros [= <-]. exact H.
Qed.

(** In a run that reaches the report both existence tests answered,
    and a document that exists was validated. *)
Lemma collect_tests W plugin skip_skills c :
  collect W plugin skip_skills = Ok c ->
  let root := marketplace_root W plugin in
  (exists found,
     fs_exists W (joinpath (joinpath root ".claude-plugin") "plugin.json") = Ok found /\
     (found = true -> exists r, PluginJsonValidator.validate W root = Ok r)) /\
  (exists found,
     fs_exists W (joinpath (joinpath root ".claude-plugin") "marketplace.json") = Ok found /\
     (found = true -> exists r, MarketplaceValidator.validate W root = Ok r)).
Proof.
  intros H root. unfold collect in H. fold root in H.
  destruct (fs_exists W (joinpath (joinpath root ".claude-plugin") "plugin.json"))
    as [found1|e]; [|discriminate]. cbn [rbind] in H.
  assert (H1 : found1 = true -> exists r, PluginJsonValidator.validate W root = Ok r).
  { intros ->. destruct (PluginJsonValidator.validate W root) as [r|e]; [eauto|discriminate]. }
  assert (Hrest : exists o1,
            rbind (fs_exists W (joinpath (joinpath root ".claude-plugin") "marketplace.json"))
              (fun found =>
                 rbind (if (found : bool)
                        then rbind (MarketplaceValidator.validate W root)
                               (fun r => Ok (Some r))
                        else Ok None)
                   (fun o2 =>
                      rbind (plugins_to_validate W plugin) (fun plugins =>
                        rbind (validate_plugins W skip_skills plugins [] []) (fun results =>
                          Ok {| root_result := o1; marketplace_result := o2;
                                plugin_results := fst results;
                                skill_results := snd results |})))) = Ok c).
  { destruct found1; [destruct (PluginJsonValidator.validate W root); [|discriminate]|];
      cbn [rbind] in H; eauto. }
  destruct Hrest as [o1 Hrest].
  destruct (fs_exists W (joinpath (joinpath root ".claude-plugin") "marketplace.json"))
    as [found2|e]; [|discriminate]. cbn [rbind] in Hrest.
  split; [exists found1; auto|]. exists found2. split; [reflexivity|].
  intros ->. destruct (MarketplaceValidator.validate W root) as [r|e]; [eauto|discriminate].
Qed.

(** X21. In a run the root manifest and the registry are validated only
    when they exist: the run holds no result for the root manifest exactly
    when that file is missing, and none for the registry exactly when that
    file is missing, so the results it does hold never have the error
    [file_exists]. *)
Theorem X21_root_and_registry_are_optional W plugin skip_skills c :
  collect W plugin skip_skills = Ok c ->
  let root := marketplace_root W plugin in
  (root_result c = None <->
   fs_exists W (joinpath (joinpath root ".claude-plugin") "plugin.json") = Ok false) /\
  (marketplace_result c = None <->
   fs_exists W (joinpath (joinpath root ".claude-plugin") "marketplace.json") = Ok false) /\
  (forall r, root_result c = Some r \/ marketplace_result c = Some r ->
     count_code "file_exists" (errors r) = 0).
Proof.
  intros Hc root.
  destruct (collect_inv W plugin skip_skills c Hc) as (Hroot & Hreg & _).
  destruct (collect_tests W plugin skip_skills c Hc) as [Htest1 Htest2].
  fold root in Hroot, Hreg, Htest1, Htest2.
  assert (Hopt : forall (o : option ValidationResult) (test : res bool)
                        (v : res ValidationResult),
            (forall r, o = Some r <-> test = Ok true /\ v = Ok r) ->
            (exists found, test = Ok found /\ (found = true -> exists r, v = Ok r)) ->
            (o = None <-> test = Ok false)).
  { intros o test v H (found & -> & Hv). destruct o as [r|].
    - destruct (proj1 (H r) eq_refl) as [Hyes _]. split; [discriminate|congruence].
    - split; [|reflexivity]. intros _. destruct found; [|reflexivity].
      destruct (Hv eq_refl) as [r Hr].
      discriminate (proj2 (H r) (conj eq_refl Hr)). }
  split; [exact (Hopt _ _ _ Hroot Htest1)|].
  split; [exact (Hopt _ _ _ Hreg Htest2)|].
  intros r [Hr|Hr].
  - apply Hroot in Hr as [Hex Hv]. exact (existing_manifest_no_file_exists W root r Hex Hv).
  - apply Hreg in Hr as [Hex Hv]. exact (existing_registry_no_file_exists W root r Hex Hv).
Qed.

Lemma X21_root_and_registry_are_optional_witness :
  (root_result alpha_collected = None <->
   fs_exists alpha_world ["repo"; ".claude-plugin"; "plugin.json"] = Ok false) /\
  (marketplace_result alpha_collected = None <->
   fs_exists alpha_world ["repo"; ".claude-plugin"; "marketplace.json"] = Ok false) /\
  (forall r, root_result alpha_collected = Some r \/ marketplace_result alpha_collected = Some r ->
     count_code "file_exists" (errors r) = 0).
Proof.
  exact (X21_root_and_registry_are_optional alpha_world None false alpha_collected eq_refl).
Defined.

(** ** The text report *)

Lemma print_all_app W nc a b calls :
  print_all W nc (a ++ b) calls =
    out_bind (print_all W nc a) (fun _ => print_all W nc b) calls.
Proof.
  unfold print_all. revert calls.
  induction a as [|x a IH]; intros calls; [reflexivity|].
  cbn [app out_for_each]. unfold out_bind.
  destruct (console_print W nc x calls) as [[[]|e] calls1]; [|reflexivity].
  rewrite IH. reflexivity.
Qed.

Lemma out_bind_ext {A B} (m m' : Out A) (k k' : A -> Out B) calls :
  (forall c, m c = m' c) -> (forall a c, k a c = k' a c) ->
  out_bind m k calls = out_bind m' k' calls.
Proof.
  intros Hm Hk. unfold out_bind. rewrite Hm.
  destruct (m' calls) as [[a|e] calls1]; [apply Hk|reflexivity].
Qed.

Lemma print_each W nc {A} (f : A -> string) (l : list A) calls :
  out_for_each l (fun x => console_print W nc (f x)) calls = print_all W nc (map f l) calls.
Proof.
  unfold print_all. revert calls. induction l as [|x l IH]; intros calls; [reflexivity|].
  cbn [map out_for_each]. apply out_bind_ext; [reflexivity|intros _ c; apply IH].
Qed.

Lemma print_each_all W nc {A} (f : A -> list string) (body : A -> Out unit) (l : list A) :
  (forall x calls, body x calls = print_all W nc (f x) calls) ->
  forall calls, out_for_each l body calls = print_all W nc (flat_map f l) calls.
Proof.
  intros Hbody. induction l as [|x l IH]; intros calls; [reflexivity|].
  cbn [flat_map out_for_each]. rewrite print_all_app.
  apply out_bind_ext; [apply Hbody|intros _ c; apply IH].
Qed.

Lemma print_one W nc text calls :
  console_print W nc text calls = print_all W nc [text] calls.
Proof.
  unfold print_all. cbn [out_for_each]. unfold out_bind, out_ret.
  destruct (console_print W nc text calls) as [[[]|e] calls1]; reflexivity.
Qed.

Lemma print_none W nc calls : out_ret tt calls = print_all W nc [] calls.
Proof. reflexivity. Qed.

(** One step of a report: the calls of its first part are those of the
    first texts. *)
Ltac print_step head :=
  rewrite print_all_app; apply out_bind_ext; [intros ?; head|intros _ ?].

(** The calls of [_print_result] are those of its texts, in order. *)
Lemma print_result_texts W nc title r calls :
  _print_result W nc title r calls = print_all W nc (result_texts title r) calls.
Proof.
  unfold _print_result, result_texts.
  print_step ltac:(destruct (status r); apply print_one).
  print_step ltac:(apply print_each).
  print_step ltac:(apply print_each).
  apply print_each.
Qed.

(** The calls of [print_text_results] are those of its texts, in order. *)
Lemma print_text_results_texts W nc root reg plugins skills calls :
  print_text_results W nc root reg plugins skills calls =
    print_all W nc (report_texts root reg plugins skills) calls.
Proof.
  unfold print_text_results, report_texts. cbv zeta.
  print_step ltac:(apply print_one).
  print_step ltac:(destruct root; [apply print_result_texts|apply print_none]).
  print_step ltac:(destruct reg; [apply print_result_texts|apply print_none]).
  print_step ltac:(apply print_each_all; intros kv c'; apply print_result_texts).
  print_step
    ltac:(destruct skills as [|kv skills];
          [apply print_none
          |change ((nl +:+ "[bold cyan]ðŸŽ¯ Skills Validation[/bold cyan]")
                   :: map (fun kv0 : string * ValidationResult =>
                             "   " +:+ status_icon (snd kv0) +:+ " " +:+ fst kv0)
                        (kv :: skills))
             with ([nl +:+ "[bold cyan]ðŸŽ¯ Skills Validation[/bold cyan]"]
                   ++ map (fun kv0 : string * ValidationResult =>
                             "   " +:+ status_icon (snd kv0) +:+ " " +:+ fst kv0)
                        (kv :: skills));
           rewrite print_all_app;
           apply out_bind_ext; [intros c'; apply print_one|intros _ c'; apply print_each]]).
  change [nl +:+ str_mul "â”" 60; "[bold]Summary:[/bold]"]
    with ([nl +:+ str_mul "â”" 60] ++ ["[bold]Summary:[/bold]"]).
  rewrite <- app_assoc.
  print_step ltac:(apply print_one).
  print_step ltac:(apply print_one).
  print_step ltac:(apply print_one).
  print_step
    ltac:(destruct (count_status (Status_eqb Warning) plugins =? 0)%nat;
          [apply print_none|apply print_one]).
  print_step
    ltac:(destruct (count_status (Status_eqb Failed) plugins =? 0)%nat;
          [apply print_none|apply print_one]).
  apply print_one.
Qed.

(** Texts handed over one after the other: all of them when no call
    raises, and otherwise those up to the call that raises. *)
Lemma print_all_outcome W nc texts : forall calls outcome made,
  print_all W nc texts calls = (outcome, made) ->
  match outcome with
  | Ok _ => made = calls ++ texts
  | Raise e =>
      exists before text after,
        texts = before ++ text :: after /\ made = calls ++ before ++ [text] /\
        rich_print W nc text = Raise e
  end.
Proof.
  unfold print_all. induction texts as [|t texts IH]; intros calls outcome made.
  - cbn. unfold out_ret. intros [= <- <-]. rewrite app_nil_r. reflexivity.
  - cbn [out_for_each]. unfold out_bind, console_print.
    destruct (rich_print W nc t) as [[]|e] eqn:Ht.
    + intros H. apply IH in H. destruct outcome as [[]|e].
      * rewrite H, <- app_assoc. reflexivity.
      * destruct H as (before & text & after & -> & -> & Hraise).
        exists (t :: before), text, after. rewrite <- !app_assoc. auto.
    + intros [= <- <-]. exists [], t, texts. auto.
Qed.

Lemma result_texts_show_issue title r issue :
  In issue (issues r) ->
  exists l, In l (result_texts title r) /\ occurs_in (message issue) l.
Proof.
  unfold issues, result_texts. intros Hin.
  apply in_app_or in Hin as [Hin|Hin]; [|apply in_app_or in Hin as [Hin|Hin]].
  - eexists. split.
    + apply in_or_app. right. apply in_or_app. left.
      apply in_map_iff. exists issue. split; [reflexivity|exact Hin].
    + eexists _, _. reflexivity.
  - eexists. split.
    + apply in_or_app. right. apply in_or_app. right. apply in_or_app. left.
      apply in_map_iff. exists issue. split; [reflexivity|exact Hin].
    + eexists _, _. reflexivity.
  - eexists. split.
    + apply in_or_app. right. apply in_or_app. right. apply in_or_app. right.
      apply in_map_iff. exists issue. split; [reflexivity|exact Hin].
    + eexists _, _. reflexivity.
Qed.

Lemma result_texts_length title r :
  length (result_texts title r) = 1 + length (issues r).
Proof.
  unfold result_texts, issues. rewrite !length_app, !length_map. reflexivity.
Qed.

(** X22. When the text report comes to its end, no call of
    [console.print] having raised, every issue of the root manifest's
    result, of the registry's and of every plugin's has its message in one
    of the texts handed to [console.print], between the markup the report
    puts around it; a result takes one call for its title and one call per
    issue.  What the console makes of the markup in a text is not part of
    the statement. *)
Theorem X22_text_report_shows_every_issue W no_color root reg plugins skills r issue
    calls made :
  root = Some r \/ reg = Some r \/ In r (map snd plugins) ->
  In issue (issues r) ->
  print_text_results W no_color root reg plugins skills calls = (Ok tt, made) ->
  (exists texts text,
     made = calls ++ texts /\ In text texts /\ occurs_in (message issue) text) /\
  (forall title calls' made',
     _print_result W no_color title r calls' = (Ok tt, made') ->
     length made' = length calls' + 1 + length (issues r)).
Proof.
  intros Hr Hin Hrun. split.
  - rewrite print_text_results_texts in Hrun.
    apply print_all_outcome in Hrun. cbv iota in Hrun.
    exists (report_texts root reg plugins skills).
    assert (Htext : exists l, In l (report_texts root reg plugins skills) /\
                              occurs_in (message issue) l).
    { unfold report_texts. destruct Hr as [->|[->|Hr]].
      - destruct (result_texts_show_issue "Root Plugin (.claude-plugin/plugin.json)"
                    r issue Hin) as (l & Hl & Hocc).
        exists l. split; [|exact Hocc].
        apply in_or_app. right. apply in_or_app. left. exact Hl.
      - destruct (result_texts_show_issue
                    "Marketplace Registry (.claude-plugin/marketplace.json)" r issue Hin)
          as (l & Hl & Hocc).
        exists l. split; [|exact Hocc].
        apply in_or_app. right. apply in_or_app. right. apply in_or_app. left. exact Hl.
      - apply in_map_iff in Hr as ([name r'] & Heq & Hkv). cbn in Heq. subst r'.
        destruct (result_texts_show_issue ("Plugin: " +:+ name) r issue Hin)
          as (l & Hl & Hocc).
        exists l. split; [|exact Hocc].
        apply in_or_app. right. apply in_or_app. right. apply in_or_app. right.
        apply in_or_app. left. apply in_flat_map. exists (name, r).
        split; [exact Hkv|exact Hl]. }
    destruct Htext as (l & Hl & Hocc). exists l. auto.
  - intros title calls' made' Hrun'. rewrite print_result_texts in Hrun'.
    apply print_all_outcome in Hrun'. cbv iota in Hrun'. subst made'.
    rewrite length_app, result_texts_length. lia.
Qed.

Lemma X22_text_report_shows_every_issue_witness :
  (exists texts text,
     fst (print_text_results empty_world false None None [("demo", author_result)] [] [])
     = Ok tt /\
     snd (print_text_results empty_world false None None [("demo", author_result)] [] [])
     = [] ++ texts /\
     In text texts /\ occurs_in "Author must be object" text).
Proof.
  destruct (X22_text_report_shows_every_issue empty_world false None None
              [("demo", author_result)] [] author_result
              (Build_ValidationIssue SevError "author_format" "Author must be object"
                 "demo/.claude-plugin/plugin.json" None)
              [] (snd (print_text_results empty_world false None None
                         [("demo", author_result)] [] []))
              (or_intror (or_intror (or_introl eq_refl))) (or_introl eq_refl) eq_refl)
    as [(texts & text & Hmade & Hin & Hocc) _].
  exists texts, text. split; [reflexivity|]. split; [exact Hmade|]. split; assumption.
Defined.

(** X23. Of the skills the text report uses names and statuses only:
    two sets of skill results with the same names and statuses make the
    report hand the same texts to [console.print] and end in the same way,
    whatever their issues.  The reason a skill failed is not part of the
    report. *)
Theorem X23_text_report_hides_skill_issues W no_color root reg plugins skills skills' calls :
  names_and_statuses skills = names_and_statuses skills' ->
  print_text_results W no_color root reg plugins skills calls =
  print_text_results W no_color root reg plugins skills' calls.
Proof.
  intros Hsame. rewrite !print_text_results_texts. f_equal.
  unfold report_texts.
  assert (Hlines : map (fun kv : string * ValidationResult =>
                          "   " +:+ status_icon (snd kv) +:+ " " +:+ fst kv) skills
                 = map (fun kv : string * ValidationResult =>
                          "   " +:+ status_icon (snd kv) +:+ " " +:+ fst kv) skills').
  { revert skills' Hsame. unfold names_and_statuses.
    induction skills as [|[n r] skills IH]; intros [|[n' r'] skills']; cbn;
      try discriminate; [reflexivity|].
    intros [= -> Hst Hrest]. unfold status_icon at 1 3. cbn [snd]. rewrite Hst.
    f_equal. apply IH, Hrest. }
  assert (Hlen : length skills = length skills').
  { rewrite <- (length_map (fun kv => (fst kv, status (snd kv))) skills),
      <- (length_map (fun kv => (fst kv, status (snd kv))) skills').
    unfold names_and_statuses in Hsame. rewrite Hsame. reflexivity. }
  rewrite Hlen.
  destruct skills as [|kv skills], skills' as [|kv' skills']; try discriminate;
    [reflexivity|].
  rewrite Hlines. reflexivity.
Qed.

Lemma X23_text_report_hides_skill_issues_witness :
  print_text_results empty_world false None None (plugin_results rejected_collected)
    (skill_results rejected_collected) []
  = print_text_results empty_world false None None (plugin_results rejected_collected)
      (without_issues (skill_results rejected_collected)) [].
Proof.
  exact (X23_text_report_hides_skill_issues empty_world false None None
           (plugin_results rejected_collected)
           (skill_results rejected_collected)
           (without_issues (skill_results rejected_collected)) [] eq_refl).
Defined.

Lemma result_texts_plain title r l : In l (result_texts title r) -> plain_line l.
Proof.
  unfold result_texts. intros Hin.
  apply in_app_or in Hin as [[<-|[]]|Hin];
    [destruct (status r); split; discriminate|].
  apply in_app_or in Hin as [Hin|Hin];
    [apply in_map_iff in Hin as (i & <- & _); split; discriminate|].
  apply in_app_or in Hin as [Hin|Hin];
    apply in_map_iff in Hin as (i & <- & _); split; discriminate.
Qed.

Lemma report_texts_lines root reg plugins skills l :
  In l (report_texts root reg plugins skills) ->
  plain_line l \/
  (l = warnings_line (count_status (Status_eqb Warning) plugins) /\
   count_status (Status_eqb Warning) plugins <> 0) \/
  (l = failed_line (count_status (Status_eqb Failed) plugins) /\
   count_status (Status_eqb Failed) plugins <> 0).
Proof.
  unfold report_texts. intros Hin.
  apply in_app_or in Hin as [[<-|[]]|Hin]; [left; split; discriminate|].
  apply in_app_or in Hin as [Hin|Hin].
  { left. destruct root as [r|]; [exact (result_texts_plain _ _ _ Hin)|destruct Hin]. }
  apply in_app_or in Hin as [Hin|Hin].
  { left. destruct reg as [r|]; [exact (result_texts_plain _ _ _ Hin)|destruct Hin]. }
  apply in_app_or in Hin as [Hin|Hin].
  { left. apply in_flat_map in Hin as (kv & _ & Hin). exact (result_texts_plain _ _ _ Hin). }
  apply in_app_or in Hin as [Hin|Hin].
  { left. destruct skills as [|kv skills]; [destruct Hin|].
    destruct Hin as [<-|Hin]; [split; discriminate|].
    apply in_map_iff in Hin as (kv' & <- & _).
    unfold status_icon. destruct (status (snd kv')); split; discriminate. }
  apply in_app_or in Hin as [[<-|[<-|[]]]|Hin]; [left; split; discriminate..|].
  apply in_app_or in Hin as [[<-|[]]|Hin]; [left; split; discriminate|].
  apply in_app_or in Hin as [Hin|Hin].
  { destruct (Nat.eqb_spec (count_status (Status_eqb Warning) plugins) 0) as [|Hne];
      [destruct Hin|].
    destruct Hin as [<-|[]]. right. left. split; [reflexivity|exact Hne]. }
  apply in_app_or in Hin as [Hin|Hin].
  { destruct (Nat.eqb_spec (count_status (Status_eqb Failed) plugins) 0) as [|Hne];
      [destruct Hin|].
    destruct Hin as [<-|[]]. right. right. split; [reflexivity|exact Hne]. }
  destruct Hin as [<-|[]]. left. split; discriminate.
Qed.

Lemma app_assoc6 {A} (a b c d e f g : list A) :
  a ++ b ++ c ++ d ++ e ++ f ++ g = (a ++ b ++ c ++ d ++ e ++ f) ++ g.
Proof. rewrite <- !app_assoc. reflexivity. Qed.

Lemma last_app_singleton {A} (l : list A) (x : A) : last (l ++ [x]) = Some x.
Proof. induction l as [|a [|b l] IH]; [reflexivity..|exact IH]. Qed.

(** X24. The text report ends at the first call of [console.print] that
    raises: the text of that call is the last one handed over, and the
    summary is reached only if no earlier call raises.  When the report
    comes to its end, its summary counts the plugin results with the
    numbers of the JSON report: the line of the passed plugins is handed
    over in every case, the lines of the plugins with warnings and of the
    failed plugins exactly when their count is not zero, and the last text
    gives the number of skill results. *)
Theorem X24_text_summary_counts_plugins W no_color root reg plugins skills calls :
  let doc := json_report root reg plugins skills in
  let run := print_text_results W no_color root reg plugins skills calls in
  let passed := count_status (Status_eqb Passed) plugins in
  let warned := count_status (Status_eqb Warning) plugins in
  let failed := count_status (Status_eqb Failed) plugins in
  py_getitem2 doc "summary" "plugins_passed" = Ok (JNat passed) /\
  py_getitem2 doc "summary" "plugins_warnings" = Ok (JNat warned) /\
  py_getitem2 doc "summary" "plugins_failed" = Ok (JNat failed) /\
  py_getitem2 doc "summary" "total_skills" = Ok (JNat (length skills)) /\
  (forall made,
     run = (Ok tt, made) ->
     exists texts,
       made = calls ++ texts /\
       In (passed_line passed) texts /\
       (In (warnings_line warned) texts <-> warned <> 0) /\
       (In (failed_line failed) texts <-> failed <> 0) /\
       last texts = Some (skills_line (length skills))) /\
  (forall e made,
     run = (Raise e, made) ->
     exists text, last made = Some text /\ rich_print W no_color text = Raise e).
Proof.
  intros doc run passed warned failed.
  do 4 (split; [reflexivity|]).
  subst run. split.
  - intros made Hrun. rewrite print_text_results_texts in Hrun.
    apply print_all_outcome in Hrun. cbv iota in Hrun.
    set (texts := report_texts root reg plugins skills) in *.
    exists texts. split; [exact Hrun|].
    assert (Htail : exists front,
              texts = front
                ++ ([passed_line passed]
                    ++ (if (warned =? 0)%nat then [] else [warnings_line warned])
                    ++ (if (failed =? 0)%nat then [] else [failed_line failed])
                    ++ [skills_line (length skills)])).
    { subst texts. unfold report_texts. fold passed warned failed.
      match goal with
      | |- exists front, ?a ++ ?b ++ ?c ++ ?d ++ ?e ++ ?f ++ ?g = _ =>
          exists (a ++ b ++ c ++ d ++ e ++ f); exact (app_assoc6 a b c d e f g)
      end. }
    destruct Htail as (front & Htext).
    split.
    { rewrite Htext. apply in_or_app. right. left. reflexivity. }
    split.
    { split.
      - intros Hin. destruct (report_texts_lines _ _ _ _ _ Hin) as [[Hw _]|[[_ Hne]|[Heq _]]].
        + exfalso. apply Hw. reflexivity.
        + exact Hne.
        + discriminate (f_equal sixth_byte Heq).
      - intros Hne. rewrite Htext. apply in_or_app. right. right. cbn [app].
        apply in_or_app. left.
        destruct (Nat.eqb_spec warned 0) as [|_]; [contradiction|]. left. reflexivity. }
    split.
    { split.
      - intros Hin. destruct (report_texts_lines _ _ _ _ _ Hin) as [[_ Hf]|[[Heq _]|[_ Hne]]].
        + exfalso. apply Hf. reflexivity.
        + discriminate (f_equal sixth_byte Heq).
        + exact Hne.
      - intros Hne. rewrite Htext. apply in_or_app. right. right. cbn [app].
        apply in_or_app. right. apply in_or_app. left.
        destruct (Nat.eqb_spec failed 0) as [|_]; [contradiction|]. left. reflexivity. }
    rewrite Htext, !app_assoc. apply last_app_singleton.
  - intros e made Hrun. rewrite print_text_results_texts in Hrun.
    apply print_all_outcome in Hrun. cbv iota in Hrun.
    destruct Hrun as (before & text & after & _ & -> & Hraise).
    exists text. split; [|exact Hraise].
    rewrite app_assoc. apply last_app_singleton.
Qed.

Lemma X24_text_summary_counts_plugins_witness :
  exists text,
    last (snd (print_text_results markup_world false None None
                 (plugin_results markup_collected) [] [])) = Some text /\
    rich_print markup_world false text =
      Raise (MarkupError "closing tag '[/x]' at position 36 doesn't match any open tag").
Proof.
  exact (proj2 (proj2 (proj2 (proj2 (proj2
           (X24_text_summary_counts_plugins markup_world false None None
              (plugin_results markup_collected) [] [])))))
           (MarkupError "closing tag '[/x]' at position 36 doesn't match any open tag")
           (snd (print_text_results markup_world false None None
                   (plugin_results markup_collected) [] []))
           eq_refl).
Defined.
